(** * NovaMed conversational booking engine

    A shallow embedding of [backend/webhook.js] (the WhatsApp webhook of the
    NovaMed appointment system) and of its older Cloud-Functions variant,
    together with the properties of the booking core: slot capacity,
    patient identifiers, session expiry, the dialogue state machine and the
    one-sentence shortcut.

    Conventions of the embedding.
    - A JavaScript string is a [string]: a sequence of code units below 256.
      Characters outside ASCII are never letters, digits or word characters
      for the regular expressions of the source; code unit 160 (no-break
      space) is white space, as in JavaScript.  Outbound message texts that
      contain emoji are kept as their UTF-8 bytes; the code never inspects
      them.
    - A JavaScript number that only ever holds an integer (counters, counts,
      hours, epoch milliseconds) is a [Z].
    - A Firestore collection is a [gmap] from document id to document.
    - A Firestore transaction is a computation over a snapshot that buffers
      its writes; [runTransaction] applies the buffer only when the callback
      returns normally.

    What the embedding leaves to the statements.
    - A [Z] stands for a JavaScript number only between -2^53 and 2^53, where
      the numbers are exact; a statement that ranges over arbitrary counters
      or hours carries this bound ([js_exact]).
    - The Firestore client refuses a string that is no document id (empty, or
      with a slash); the embedding takes every sender and every slot key as
      one, and a statement about success says so ([document_id]).
    - Sending a message does not fail: the call to the WhatsApp API is kept
      as the text handed to it.
    - chrono-node is a parameter; what is known of its results is a
      hypothesis ([library_parser]). *)

From Stdlib Require Import ZArith Lia Ascii String List Sorted.
From stdpp Require Import base option list strings pretty gmap fin_maps.

Local Open Scope string_scope.
Local Open Scope list_scope.
Local Open Scope Z_scope.

(** ** JavaScript strings *)

Module Js.

Definition code (c : ascii) : N := N_of_ascii c.

Definition is_digit (c : ascii) : bool := (48 <=? code c)%N && (code c <=? 57)%N.
Definition is_upper (c : ascii) : bool := (65 <=? code c)%N && (code c <=? 90)%N.
Definition is_lower (c : ascii) : bool := (97 <=? code c)%N && (code c <=? 122)%N.
Definition is_alpha (c : ascii) : bool := is_upper c || is_lower c.

(** [\w] *)
Definition is_word (c : ascii) : bool :=
  is_alpha c || is_digit c || (code c =? 95)%N.

(** [\s]: tab, line feed, vertical tab, form feed, carriage return, space,
    no-break space. *)
Definition is_space (c : ascii) : bool :=
  ((9 <=? code c)%N && (code c <=? 13)%N) || (code c =? 32)%N || (code c =? 160)%N.

Definition lower_char (c : ascii) : ascii :=
  if is_upper c then ascii_of_N (code c + 32) else c.

Fixpoint toLowerCase (s : string) : string :=
  match s with
  | EmptyString => EmptyString
  | String c s' => String (lower_char c) (toLowerCase s')
  end.

Fixpoint trimStart (s : string) : string :=
  match s with
  | String c s' => if is_space c then trimStart s' else s
  | EmptyString => EmptyString
  end.

Definition trimEnd (s : string) : string :=
  String.rev (trimStart (String.rev s)).

Definition trim (s : string) : string := trimEnd (trimStart s).

Fixpoint startsWith (p s : string) : bool :=
  match p, s with
  | EmptyString, _ => true
  | String a p', String b s' => if Ascii.eqb a b then startsWith p' s' else false
  | String _ _, EmptyString => false
  end.

(** [s.includes(sub)] *)
Fixpoint includes (s sub : string) : bool :=
  startsWith sub s ||
  match s with
  | EmptyString => false
  | String _ s' => includes s' sub
  end.

(** [s.split(sep)[0]] for a one-character separator. *)
Fixpoint before (sep : ascii) (s : string) : string :=
  match s with
  | EmptyString => EmptyString
  | String c s' => if Ascii.eqb c sep then EmptyString else String c (before sep s')
  end.

(** [s.split(sep).slice(1).join(sep)] for a one-character separator: what
    follows the first separator, empty when there is none. *)
Fixpoint after (sep : ascii) (s : string) : string :=
  match s with
  | EmptyString => EmptyString
  | String c s' => if Ascii.eqb c sep then s' else after sep s'
  end.

Fixpoint repeat_char (c : ascii) (n : nat) : string :=
  match n with
  | O => EmptyString
  | S n' => String c (repeat_char c n')
  end.

(** [s.padStart(n, "0")] *)
Definition padStart0 (n : nat) (s : string) : string :=
  repeat_char "0"%char (n - String.length s) +:+ s.

Fixpoint filter (p : ascii -> bool) (s : string) : string :=
  match s with
  | EmptyString => EmptyString
  | String c s' => if p c then String c (filter p s') else filter p s'
  end.

Fixpoint take (n : nat) (s : string) : string :=
  match n, s with
  | S n', String c s' => String c (take n' s')
  | _, _ => EmptyString
  end.

Fixpoint drop (n : nat) (s : string) : string :=
  match n, s with
  | S n', String _ s' => drop n' s'
  | _, _ => s
  end.

Definition digit_value (c : ascii) : Z := Z.of_N (code c) - 48.

Fixpoint digits_value (acc : Z) (s : string) : Z :=
  match s with
  | String c s' => if is_digit c then digits_value (10 * acc + digit_value c) s' else acc
  | EmptyString => acc
  end.

(** [parseInt(s, 10)]: leading white space, an optional sign, then the
    longest run of decimal digits; [None] stands for [NaN]. *)
Definition parseInt (s : string) : option Z :=
  match trimStart s with
  | String "-"%char (String c _ as ds) =>
      if is_digit c then Some (- digits_value 0 ds) else None
  | String "+"%char (String c _ as ds) =>
      if is_digit c then Some (digits_value 0 ds) else None
  | String c _ as ds => if is_digit c then Some (digits_value 0 ds) else None
  | EmptyString => None
  end.

(** The line feed that the source writes as a backslash followed by n. *)
Definition nl : string := String (ascii_of_N 10) EmptyString.

(** Truthiness of an optional string: [undefined], [null] and the empty
    string are falsy. *)
Definition truthy (o : option string) : bool :=
  match o with
  | Some (String _ _) => true
  | _ => false
  end.

(** [o || ""] *)
Definition or_empty (o : option string) : string :=
  match o with
  | Some s => s
  | None => EmptyString
  end.

(** [n || d] on numbers. *)
Definition or_num (n d : Z) : Z := if n =? 0 then d else n.

End Js.

(** ** Regular expressions

    A backtracking matcher with the priorities of the JavaScript one: the
    left alternative first, a star as many times as possible first, the
    leftmost start position first. *)

Module Regex.

Inductive regex : Type :=
| Eps : regex
| Class : (ascii -> bool) -> regex
| Cat : regex -> regex -> regex
| Alt : regex -> regex -> regex
| Star : regex -> regex
| WordB : regex.

Definition Plus (r : regex) : regex := Cat r (Star r).
Definition Opt (r : regex) : regex := Alt r Eps.

Fixpoint Times (n : nat) (r : regex) : regex :=
  match n with
  | O => Eps
  | S n' => Cat r (Times n' r)
  end.

(** [r{0,n}], greedy. *)
Fixpoint UpTo (n : nat) (r : regex) : regex :=
  match n with
  | O => Eps
  | S n' => Opt (Cat r (UpTo n' r))
  end.

Definition AtLeast (n : nat) (r : regex) : regex := Cat (Times n r) (Star r).
Definition Between (n m : nat) (r : regex) : regex := Cat (Times n r) (UpTo (m - n) r).

Definition Chr (c : ascii) : regex := Class (Ascii.eqb c).

(** A character under the [i] flag. *)
Definition ChrI (c : ascii) : regex :=
  Class (fun x => Ascii.eqb (Js.lower_char x) (Js.lower_char c)).

Fixpoint Lit (s : string) : regex :=
  match s with
  | EmptyString => Eps
  | String c s' => Cat (Chr c) (Lit s')
  end.

Fixpoint LitI (s : string) : regex :=
  match s with
  | EmptyString => Eps
  | String c s' => Cat (ChrI c) (LitI s')
  end.

Definition word_at (o : option ascii) : bool :=
  match o with
  | Some c => Js.is_word c
  | None => false
  end.

Definition head (s : string) : option ascii :=
  match s with
  | String c _ => Some c
  | EmptyString => None
  end.

(** [rmatch r prev s k]: match [r] at the front of [s], where [prev] is the
    character before it, and hand the rest to [k]; the first success in
    priority order wins.  An iteration of a star that consumes nothing is
    refused, as in JavaScript, so a star on [s] iterates at most
    [String.length s] times. *)
Fixpoint rmatch (r : regex) (prev : option ascii) (s : string)
         (k : option ascii -> string -> option string) {struct r} : option string :=
  match r with
  | Eps => k prev s
  | Class p =>
      match s with
      | String c s' => if p c then k (Some c) s' else None
      | EmptyString => None
      end
  | Cat a b => rmatch a prev s (fun p' s' => rmatch b p' s' k)
  | Alt a b =>
      match rmatch a prev s k with
      | Some x => Some x
      | None => rmatch b prev s k
      end
  | Star a =>
      (fix loop (n : nat) (prev : option ascii) (s : string) {struct n} : option string :=
         match n with
         | O => k prev s
         | S n' =>
             match rmatch a prev s
                     (fun p' s' =>
                        if (String.length s' <? String.length s)%nat
                        then loop n' p' s' else None) with
             | Some x => Some x
             | None => k prev s
             end
         end) (String.length s) prev s
  | WordB => if xorb (word_at prev) (word_at (head s)) then k prev s else None
  end.

(** The match of [r] that starts exactly at the front of [s]. *)
Definition match_here (r : regex) (prev : option ascii) (s : string) : option string :=
  match rmatch r prev s (fun _ rest => Some rest) with
  | Some rest => Some (Js.take (String.length s - String.length rest) s)
  | None => None
  end.

(** The leftmost match of [r] in [s], as [RegExp.prototype.exec] finds it. *)
Fixpoint search_from (r : regex) (prev : option ascii) (s : string) : option string :=
  match match_here r prev s with
  | Some m => Some m
  | None =>
      match s with
      | String c s' => search_from r (Some c) s'
      | EmptyString => None
      end
  end.

Definition exec (r : regex) (s : string) : option string := search_from r None s.

Definition test (r : regex) (s : string) : bool :=
  match exec r s with
  | Some _ => true
  | None => false
  end.

(** A regular expression anchored at both ends, [^r$]. *)
Definition test_whole (r : regex) (s : string) : bool :=
  match rmatch r None s
          (fun _ rest => match rest with EmptyString => Some rest | _ => None end) with
  | Some _ => true
  | None => false
  end.

End Regex.

(** ** Department definitions *)

Record Department : Type := {
  times : string * string;   (* opening and closing time *)
  capacity : Z
}.

(** [departmentSlots] of [backend/webhook.js], in the order of its keys. *)
Definition departmentSlots : list (string * Department) :=
  [ ("Cardiology",       {| times := ("09:00", "12:00"); capacity := 10 |});
    ("Neurology",        {| times := ("14:00", "17:00"); capacity := 8 |});
    ("Orthopedics",      {| times := ("10:00", "13:00"); capacity := 6 |});
    ("Pediatrics",       {| times := ("15:00", "18:00"); capacity := 12 |});
    ("General Medicine", {| times := ("09:00", "12:00"); capacity := 10 |});
    ("Dermatology",      {| times := ("09:00", "18:00"); capacity := 15 |}) ].

(** [Object.keys(departmentSlots)] *)
Definition deptList : list string := map fst departmentSlots.

Fixpoint assoc {A : Type} (k : string) (l : list (string * A)) : option A :=
  match l with
  | [] => None
  | (k', v) :: l' => if String.eqb k k' then Some v else assoc k l'
  end.

(** [departmentSlots[name]] *)
Definition department_of (name : string) : option Department :=
  assoc name departmentSlots.

(** [arr.includes(x)] on an array of strings. *)
Definition includes_str (l : list string) (x : string) : bool :=
  existsb (String.eqb x) l.

(** ** NLP helpers *)

Import Regex.

(** [/\b(hi|hey|hello|hii|hy)\b/i] *)
Definition greeting_re : regex :=
  Cat WordB
      (Cat (Alt (LitI "hi") (Alt (LitI "hey") (Alt (LitI "hello") (Alt (LitI "hii") (LitI "hy")))))
           WordB).

Definition isGreeting (text : string) : bool := test greeting_re text.

Definition normalizeGender (text : string) : option string :=
  let t := Js.toLowerCase text in
  if Js.includes t "male" || String.eqb t "m" then Some "Male"
  else if Js.includes t "female" || String.eqb t "f" then Some "Female"
  else if Js.includes t "other" || Js.includes t "prefer not" || String.eqb t "o" then Some "Other"
  else None.

(** [/\+?\d{10,14}/] *)
Definition phone_re : regex :=
  Cat (Opt (Chr "+")) (Between 10 14 (Class Js.is_digit)).

Definition validatePhone (text : string) : option string :=
  let normalized := Js.filter (fun c => Js.is_digit c || Ascii.eqb c "+") text in
  if test phone_re normalized then Some normalized else None.

Definition nonspace (c : ascii) : bool := negb (Js.is_space c).

(** [/\S+@\S+\.\S+/] *)
Definition email_re : regex :=
  Cat (Plus (Class nonspace))
      (Cat (Chr "@") (Cat (Plus (Class nonspace)) (Cat (Chr ".") (Plus (Class nonspace))))).

Definition validateEmail (text : string) : option string :=
  if test email_re text then Some text else None.

Definition normalizeDepartment (text : string) : option string :=
  match text with
  | EmptyString => None
  | _ =>
      let input := Js.toLowerCase text in
      find (fun d => Js.includes input (Js.toLowerCase d)) deptList
  end.

(** [[A-Z][a-z]+(?:\s[A-Z][a-z]+)*], as written and under the [i] flag. *)
Definition name_group : regex :=
  Cat (Class Js.is_upper)
      (Cat (Plus (Class Js.is_lower))
           (Star (Cat (Class Js.is_space) (Cat (Class Js.is_upper) (Plus (Class Js.is_lower)))))).

Definition name_group_i : regex :=
  Cat (Class Js.is_alpha)
      (Cat (Plus (Class Js.is_alpha))
           (Star (Cat (Class Js.is_space) (Cat (Class Js.is_alpha) (Plus (Class Js.is_alpha)))))).

(** The first capture group of a match whose pattern is a word boundary, a
    literal prefix and then the group. *)
Definition group_after (prefix : string) (m : string) : string :=
  Js.drop (String.length prefix) m.

Definition extractNameFromSentence (text : string) : option string :=
  match exec (Cat WordB (Cat (LitI "my name is ") name_group_i)) text with
  | Some m => Some (Js.trim (group_after "my name is " m))
  | None =>
      match exec (Cat WordB (Cat (LitI "i am ") name_group_i)) text with
      | Some m => Some (Js.trim (group_after "i am " m))
      | None => exec (Cat WordB (Cat name_group WordB)) text
      end
  end.

(** [/(\+?\d[\d\-\s]{8,}\d)/] *)
Definition phone_extract_re : regex :=
  Cat (Opt (Chr "+"))
      (Cat (Class Js.is_digit)
           (Cat (AtLeast 8 (Class (fun c => Js.is_digit c || Ascii.eqb c "-" || Js.is_space c)))
                (Class Js.is_digit))).

Definition extractPhone (text : string) : option string :=
  match exec phone_extract_re text with
  | Some m => validatePhone m
  | None => None
  end.

Definition email_local (c : ascii) : bool :=
  Js.is_alpha c || Js.is_digit c ||
  Ascii.eqb c "." || Ascii.eqb c "_" || Ascii.eqb c "%" || Ascii.eqb c "+" || Ascii.eqb c "-".

Definition email_domain (c : ascii) : bool :=
  Js.is_alpha c || Js.is_digit c || Ascii.eqb c "." || Ascii.eqb c "-".

(** [/([a-zA-Z0-9._%+-]+@[a-zA-Z0-9.-]+\.[a-zA-Z]{2,})/] *)
Definition email_extract_re : regex :=
  Cat (Plus (Class email_local))
      (Cat (Chr "@")
           (Cat (Plus (Class email_domain)) (Cat (Chr ".") (AtLeast 2 (Class Js.is_alpha))))).

Definition extractEmail (text : string) : option string := exec email_extract_re text.

(** [/\b([1-9][0-9]?)\b/] *)
Definition choice_re : regex :=
  Cat WordB
      (Cat (Class (fun c => Js.is_digit c && negb (Ascii.eqb c "0")))
           (Cat (Opt (Class Js.is_digit)) WordB)).

Definition parseChoice (text : string) : option Z :=
  match exec choice_re text with
  | Some m => Js.parseInt m
  | None => None
  end.

(** The label of hour [h]: [h.toString().padStart(2, "0") + ":00"]. *)
Definition hour_label (h : Z) : string := Js.padStart0 2 (pretty h) +:+ ":00".

(** The loop [for (let h = s; h <= e; h++)]; the fuel bounds the number of
    iterations, and [hoursBetween] passes as many as the loop can make. *)
Fixpoint hours_loop (fuel : nat) (h e : Z) : list string :=
  match fuel with
  | O => []
  | S fuel' => if h <=? e then hour_label h :: hours_loop fuel' (h + 1) e else []
  end.

Definition hoursBetween (startHHMM endHHMM : string) : list string :=
  match Js.parseInt (Js.before ":" startHHMM), Js.parseInt (Js.before ":" endHHMM) with
  | Some s, Some e => hours_loop (Z.to_nat (e - s + 1)) s e
  | _, _ => []       (* a comparison with NaN is false *)
  end.

(** ** Documents and the store *)

(** The fields a conversation collects ([state.data]); an absent property is
    [None]. *)
Record Data : Type := {
  firstName : option string;
  lastName : option string;
  gender : option string;
  address : option string;
  email : option string;
  phoneNumber : option string;
  department : option string;
  registrationDate : option string;
  registrationTime : option string
}.

Definition no_data : Data :=
  {| firstName := None; lastName := None; gender := None; address := None; email := None;
     phoneNumber := None; department := None; registrationDate := None;
     registrationTime := None |}.

Definition set_firstName (v : string) (d : Data) : Data :=
  {| firstName := Some v; lastName := lastName d; gender := gender d; address := address d;
     email := email d; phoneNumber := phoneNumber d; department := department d;
     registrationDate := registrationDate d; registrationTime := registrationTime d |}.
Definition set_lastName (v : string) (d : Data) : Data :=
  {| firstName := firstName d; lastName := Some v; gender := gender d; address := address d;
     email := email d; phoneNumber := phoneNumber d; department := department d;
     registrationDate := registrationDate d; registrationTime := registrationTime d |}.
Definition set_gender (v : string) (d : Data) : Data :=
  {| firstName := firstName d; lastName := lastName d; gender := Some v; address := address d;
     email := email d; phoneNumber := phoneNumber d; department := department d;
     registrationDate := registrationDate d; registrationTime := registrationTime d |}.
Definition set_address (v : string) (d : Data) : Data :=
  {| firstName := firstName d; lastName := lastName d; gender := gender d; address := Some v;
     email := email d; phoneNumber := phoneNumber d; department := department d;
     registrationDate := registrationDate d; registrationTime := registrationTime d |}.
Definition set_email (v : string) (d : Data) : Data :=
  {| firstName := firstName d; lastName := lastName d; gender := gender d; address := address d;
     email := Some v; phoneNumber := phoneNumber d; department := department d;
     registrationDate := registrationDate d; registrationTime := registrationTime d |}.
Definition set_phoneNumber (v : string) (d : Data) : Data :=
  {| firstName := firstName d; lastName := lastName d; gender := gender d; address := address d;
     email := email d; phoneNumber := Some v; department := department d;
     registrationDate := registrationDate d; registrationTime := registrationTime d |}.
Definition set_department (v : string) (d : Data) : Data :=
  {| firstName := firstName d; lastName := lastName d; gender := gender d; address := address d;
     email := email d; phoneNumber := phoneNumber d; department := Some v;
     registrationDate := registrationDate d; registrationTime := registrationTime d |}.
Definition set_registrationDate (v : string) (d : Data) : Data :=
  {| firstName := firstName d; lastName := lastName d; gender := gender d; address := address d;
     email := email d; phoneNumber := phoneNumber d; department := department d;
     registrationDate := Some v; registrationTime := registrationTime d |}.
Definition set_registrationTime (v : string) (d : Data) : Data :=
  {| firstName := firstName d; lastName := lastName d; gender := gender d; address := address d;
     email := email d; phoneNumber := phoneNumber d; department := department d;
     registrationDate := registrationDate d; registrationTime := Some v |}.

(** The values of [state.step] that [processMessage] switches on;
    [OtherStep] is any other truthy value. *)
Inductive Step : Type :=
| firstNameStep | lastNameStep | genderStep | addressStep | emailStep
| phoneNumberStep | departmentStep | registrationDateStep | registrationTimeStep
| OtherStep.

(** A document of [registration_states]; [updatedAt] in epoch milliseconds. *)
Record StateDoc : Type := {
  step : option Step;
  data : option Data;
  updatedAt : option Z
}.

(** A document of [patients]. *)
Record PatientDoc : Type := {
  PatientID : string;
  FirstName : string;
  LastName : string;
  Gender : string;
  Address : string;
  Email : string;
  PhoneNumber : string;
  p_department : string;
  RegistrationDate : string;
  RegistrationTime : string;
  createdAt : Z
}.

(** A document of [appointments] (the slot ledger). *)
Record SlotDoc : Type := {
  s_department : string;
  s_date : string;
  s_time : string;
  s_capacity : Z;
  s_count : Z;
  s_patients : list string
}.

Record Store : Type := {
  registration_states : gmap string StateDoc;
  patient_counter : option Z;            (* the [count] of the counter document *)
  patients : gmap string PatientDoc;
  appointments : gmap string SlotDoc
}.

Definition empty_store : Store :=
  {| registration_states := ∅; patient_counter := None; patients := ∅; appointments := ∅ |}.

Definition with_states (f : gmap string StateDoc -> gmap string StateDoc) (s : Store) : Store :=
  {| registration_states := f (registration_states s); patient_counter := patient_counter s;
     patients := patients s; appointments := appointments s |}.

(** The clock readings of one message: [Date.now()] and
    [new Date().toISOString().split("T")[0]]. *)
Record Clock : Type := {
  nowMs : Z;
  today : string
}.

(** What the code observes of a JavaScript [Date]. *)
Record JsDate : Type := {
  isoDate : string;     (* [toISOString().split("T")[0]] *)
  getHours : Z;
  getMinutes : Z
}.

(** ** Transactions *)

Inductive Write : Type :=
| SetCounter (count : Z)
| SetPatient (id : string) (doc : PatientDoc)
| SetSlot (id : string) (doc : SlotDoc).

Definition apply_write (s : Store) (w : Write) : Store :=
  match w with
  | SetCounter c =>
      {| registration_states := registration_states s; patient_counter := Some c;
         patients := patients s; appointments := appointments s |}
  | SetPatient id doc =>
      {| registration_states := registration_states s; patient_counter := patient_counter s;
         patients := <[id := doc]> (patients s); appointments := appointments s |}
  | SetSlot id doc =>
      {| registration_states := registration_states s; patient_counter := patient_counter s;
         patients := patients s; appointments := <[id := doc]> (appointments s) |}
  end.

Definition apply_writes (ws : list Write) (s : Store) : Store := fold_left apply_write ws s.

(** A transaction callback: it reads the snapshot, buffers writes, and either
    returns or throws. *)
Definition Tx (A : Type) : Type := Store -> list Write -> string + (A * list Write).

Definition tx_ret {A : Type} (a : A) : Tx A := fun _ ws => inr (a, ws).
Definition tx_bind {A B : Type} (m : Tx A) (f : A -> Tx B) : Tx B :=
  fun snap ws =>
    match m snap ws with
    | inl e => inl e
    | inr (a, ws') => f a snap ws'
    end.
Definition tx_throw {A : Type} (msg : string) : Tx A := fun _ _ => inl msg.
Definition tx_get_slot (id : string) : Tx (option SlotDoc) :=
  fun snap ws => inr (appointments snap !! id, ws).
Definition tx_get_counter : Tx (option Z) := fun snap ws => inr (patient_counter snap, ws).
Definition tx_set (w : Write) : Tx unit := fun _ ws => inr (tt, (ws ++ [w])%list).

Notation "'let*' x := m 'in' k" := (tx_bind m (fun x => k))
  (at level 10, x name, m at level 100, k at level 200).

(** [db.runTransaction(f)]: all the writes of [f] or none of them. *)
Definition runTransaction {A : Type} (f : Tx A) (s : Store) : Store * (string + A) :=
  match f s [] with
  | inl e => (s, inl e)
  | inr (a, ws) => (apply_writes ws s, inr a)
  end.

(** ** Registration *)

(** [snap.exists ? (snap.data().count || 0) : 0] *)
Definition count_of (snap : option SlotDoc) : Z :=
  match snap with
  | Some doc => Js.or_num (s_count doc) 0
  | None => 0
  end.

(** The occupant count recorded for a slot, an absent entry counting zero. *)
Definition slot_count (s : Store) (slotId : string) : Z := count_of (appointments s !! slotId).

(** [(snap.data().count || 1000) + 1], or 1001 without a counter document. *)
Definition next_count (snap : option Z) : Z :=
  match snap with
  | Some c => Js.or_num c 1000 + 1
  | None => 1001
  end.

Definition patient_id (count : Z) : string := "P" +:+ pretty count.

(** [generatePatientId(transaction)]; the number is returned next to the
    identifier built from it. *)
Definition generatePatientId : Tx (Z * string) :=
  let* snap := tx_get_counter in
  let count := next_count snap in
  let* _ := tx_set (SetCounter count) in
  tx_ret (count, patient_id count).

Definition slot_id (dept date time : string) : string :=
  dept +:+ "_" +:+ date +:+ "_" +:+ time.

(** How a template literal prints an optional string. *)
Definition to_template (o : option string) : string :=
  match o with
  | Some s => s
  | None => "undefined"
  end.

Definition patient_doc (pid : string) (d : Data) (dept date time : string) (now : Z) : PatientDoc :=
  {| PatientID := pid;
     FirstName := Js.or_empty (firstName d);
     LastName := Js.or_empty (lastName d);
     Gender := Js.or_empty (gender d);
     Address := Js.or_empty (address d);
     Email := Js.or_empty (email d);
     PhoneNumber := Js.or_empty (phoneNumber d);
     p_department := dept;
     RegistrationDate := date;
     RegistrationTime := time;
     createdAt := now |}.

(** The callback that [attemptRegistration] hands to [runTransaction]. *)
Definition registration_tx (now : Z) (d : Data) (name : string) (dept : Department)
           (time : string) : Tx (Z * string) :=
  let slotId := slot_id name (to_template (registrationDate d)) time in
  let* slotSnap := tx_get_slot slotId in
  let currentCount := count_of slotSnap in
  if currentCount >=? capacity dept then tx_throw "Slot full"
  else
    let* id := generatePatientId in
    match registrationDate d with
    | None =>
        (* Firestore refuses a document with an [undefined] field *)
        tx_throw "Cannot use undefined as a Firestore value"
    | Some date =>
        let* _ := tx_set (SetPatient (snd id) (patient_doc (snd id) d name date time now)) in
        let newCount := currentCount + 1 in
        let newPatients :=
          match slotSnap with
          | Some doc => (s_patients doc ++ [snd id])%list
          | None => [snd id]
          end in
        let* _ := tx_set (SetSlot slotId
                           {| s_department := name; s_date := date; s_time := time;
                              s_capacity := capacity dept; s_count := newCount;
                              s_patients := newPatients |}) in
        tx_ret id
    end.

(** The checks of [attemptRegistration] that precede the transaction: the
    thrown message, or the department name, its entry and the time. *)
Definition precheck (d : Data) : string + (string * Department * string) :=
  if negb (Js.truthy (department d)) then inl "Department missing."
  else
    let name := Js.or_empty (department d) in
    match department_of name with
    | None => inl "Invalid department."
    | Some dept =>
        let validTimes := hoursBetween (fst (times dept)) (snd (times dept)) in
        match registrationTime d with
        | None => inl "Selected time not allowed for the department."
        | Some time =>
            if negb (includes_str validTimes time)
            then inl "Selected time not allowed for the department."
            else inr (name, dept, time)
        end
    end.

(** [attemptRegistration(data)]: the new store and either the thrown message
    or the number and text of the new patient identifier. *)
Definition attemptRegistration (now : Z) (d : Data) (s : Store) : Store * (string + (Z * string)) :=
  match precheck d with
  | inl e => (s, inl e)
  | inr (name, dept, time) => runTransaction (registration_tx now d name dept time) s
  end.

(** ** Conversation state *)

Definition blank_state : StateDoc := {| step := None; data := Some no_data; updatedAt := None |}.

Definition resetState (sender : string) (s : Store) : Store :=
  with_states (delete sender) s.

Definition setState (now : Z) (sender : string) (st : option Step) (d : option Data)
           (s : Store) : Store :=
  with_states (<[sender := {| step := st; data := d; updatedAt := Some now |}]>) s.

(** Thirty minutes in milliseconds. *)
Definition session_ttl : Z := 30 * 60 * 1000.

Definition getState (now : Z) (sender : string) (s : Store) : Store * StateDoc :=
  match registration_states s !! sender with
  | None => (s, blank_state)
  | Some doc =>
      match updatedAt doc with
      | Some t =>
          let ageMs := now - t in
          if ageMs >? session_ttl then (resetState sender s, blank_state) else (s, doc)
      | None => (s, doc)
      end
  end.

(** ** The chrono-node interface

    The date parser is an external library; the conversation is parametrised
    by its two entry points.  A parsed component carries its [Date] and what
    the code reads as [isOnlyDate]: [Some b] when that property holds the
    boolean [b], [None] when it holds anything else. *)

Record ChronoComponents : Type := {
  cc_date : JsDate;
  cc_isOnlyDate : option bool
}.

Record ChronoResult : Type := {
  cr_start : option ChronoComponents
}.

(** What one call of [processMessage] leaves behind: the store, the texts
    handed to [sendWhatsAppMessage] in order, and the exception that escaped,
    if any. *)
Record Outcome : Type := {
  out_store : Store;
  out_sent : list string;
  out_threw : option string
}.

Definition done_with (s : Store) (msgs : list string) : Outcome :=
  {| out_store := s; out_sent := msgs; out_threw := None |}.

Definition threw_with (s : Store) (msgs : list string) (e : string) : Outcome :=
  {| out_store := s; out_sent := msgs; out_threw := Some e |}.

(** ** Outbound texts *)

Definition msg_welcome : string :=
  "Welcome to NovaMed Multispeciality Care 👋" +:+ Js.nl +:+
  "Say 'patient registration' to begin, or send details in one sentence.".
Definition msg_start : string := "Welcome! Let's get you registered. What's your *First Name*?".
Definition msg_continue : string := "Let's continue your registration. What's your *First Name*?".
Definition msg_unrecognized : string :=
  "Say 'patient registration' to begin registration, or send your full details in one sentence.".
Definition msg_lastName : string := "Thanks — last name please (or type '-' if none).".
Definition msg_gender : string :=
  "Select Gender:" +:+ Js.nl +:+ "1. Male" +:+ Js.nl +:+ "2. Female" +:+ Js.nl +:+ "3. Other".
Definition msg_gender_again : string := "Please select gender: 1 (Male), 2 (Female), 3 (Other).".
Definition msg_address : string := "Please enter your address.".
Definition msg_email : string := "Please enter your email (or type 'skip').".
Definition msg_email_again : string :=
  "That doesn't look like a valid email. Please re-enter or type 'skip'.".
Definition msg_phone : string := "Please enter your phone number (include country code).".
Definition msg_phone_again : string := "Invalid phone format. Please send a valid phone number.".
Definition msg_department_again : string := "Invalid department. Reply with the number or name.".
Definition msg_date : string := "Enter registration date (e.g., 'tomorrow' or '2025-11-10').".
Definition msg_date_unparsed : string := "Couldn't parse a future date. Please enter again.".
Definition msg_date_past : string := "Please pick a future date.".
Definition msg_time_again : string := "Invalid time. Choose from the options sent.".
Definition msg_reset : string := "Session reset. Say 'patient registration' to begin again.".

Definition msg_complete (pid dept date time : string) : string :=
  "✅ Registration complete! Patient ID: " +:+ pid +:+ Js.nl +:+
  "Dept: " +:+ dept +:+ Js.nl +:+ "Date: " +:+ date +:+ Js.nl +:+ "Time: " +:+ time.
Definition msg_oneshot_failed (err : string) : string :=
  "❌ " +:+ err +:+ ". Let's continue step-by-step. What's your first name?".
Definition msg_successful (pid dept date time : string) : string :=
  "✅ Registration successful!" +:+ Js.nl +:+ "Patient ID: " +:+ pid +:+ Js.nl +:+
  "Department: " +:+ dept +:+ Js.nl +:+ "Date: " +:+ date +:+ Js.nl +:+ "Time: " +:+ time.
Definition msg_failed (err : string) : string :=
  "❌ " +:+ err +:+ ". Please choose a different time or date.".

(** The department menu built by [deptList.forEach]. *)
Fixpoint menu_lines (i : Z) (l : list string) : string :=
  match l with
  | [] => EmptyString
  | x :: l' => pretty (i + 1) +:+ ". " +:+ x +:+ Js.nl +:+ menu_lines (i + 1) l'
  end.
Definition msg_department : string := "Select Department:" +:+ Js.nl +:+ menu_lines 0 deptList.

(** [arr[i]] *)
Definition nth_str (l : list string) (i : Z) : option string :=
  if i <? 0 then None else l !! Z.to_nat i.

(** [choice && choice >= 1 && choice <= n] *)
Definition choice_in (choice : option Z) (n : nat) : option Z :=
  match choice with
  | Some c => if (negb (c =? 0)) && (1 <=? c) && (c <=? Z.of_nat n) then Some c else None
  | None => None
  end.

(** [/^\d{1,2}$/] *)
Definition one_or_two_digits (s : string) : bool :=
  test_whole (Between 1 2 (Class Js.is_digit)) s.

(** ** Conversation *)

Section Conversation.

(** [chrono.parse] and [chrono.parseDate]; both read the clock. *)
Variable chrono_parse : Clock -> string -> list ChronoResult.
Variable chrono_parseDate : Clock -> string -> option JsDate.

(** The table [doctorLimits] that the [registrationDate] case reads.
    [backend/webhook.js] does not declare it ([None]: reading it raises a
    [ReferenceError]); the front end declares one, department to limit. *)
Variable doctorLimits : option (string -> option Z).

Definition two_digits (n : Z) : string := Js.padStart0 2 (pretty n).

Definition extractDateTime (clock : Clock) (text : string) : option string * option string :=
  match chrono_parse clock text with
  | [] => (None, None)
  | p :: _ =>
      match cr_start p with
      | None => (None, None)
      | Some st =>
          let date := cc_date st in
          (Some (isoDate date),
           match cc_isOnlyDate st with
           | Some false =>
               Some (two_digits (getHours date) +:+ ":" +:+ two_digits (getMinutes date))
           | _ => None
           end)
      end
  end.

(** The data that the NLP bootstrap pre-fills from the extracted values. *)
Definition prefill (name phone mail dept gen date time : option string) : Data :=
  let d0 := no_data in
  let d1 := if Js.truthy name
            then set_lastName (Js.after " " (Js.or_empty name))
                   (set_firstName (Js.before " " (Js.or_empty name)) d0)
            else d0 in
  let d2 := if Js.truthy phone then set_phoneNumber (Js.or_empty phone) d1 else d1 in
  let d3 := if Js.truthy mail then set_email (Js.or_empty mail) d2 else d2 in
  let d4 := if Js.truthy dept then set_department (Js.or_empty dept) d3 else d3 in
  let d5 := if Js.truthy gen then set_gender (Js.or_empty gen) d4 else d4 in
  let d6 := if Js.truthy date then set_registrationDate (Js.or_empty date) d5 else d5 in
  if Js.truthy time then set_registrationTime (Js.or_empty time) d6 else d6.

(** The guard of the direct attempt. *)
Definition enough_info (d : Data) : bool :=
  Js.truthy (phoneNumber d) && Js.truthy (department d) && Js.truthy (registrationDate d)
  && Js.truthy (registrationTime d) && Js.truthy (firstName d).

(** The branch of [processMessage] taken when [state.step] is falsy. *)
Definition nlp_bootstrap (clock : Clock) (sender text : string) (s : Store) : Outcome :=
  let phone := extractPhone text in
  let mail := extractEmail text in
  let name := extractNameFromSentence text in
  let dept := normalizeDepartment text in
  let gen := normalizeGender text in
  let dt := extractDateTime clock text in
  if Js.includes (Js.toLowerCase text) "patient registration"
     || Js.includes (Js.toLowerCase text) "register me"
  then done_with (setState (nowMs clock) sender (Some firstNameStep) (Some no_data) s) [msg_start]
  else if Js.truthy phone || Js.truthy mail || Js.truthy name || Js.truthy dept
          || Js.truthy (fst dt) || Js.truthy (snd dt) || Js.truthy gen
  then
    let d := prefill name phone mail dept gen (fst dt) (snd dt) in
    let s1 := setState (nowMs clock) sender (Some firstNameStep) (Some d) s in
    if enough_info d then
      match attemptRegistration (nowMs clock) d s1 with
      | (s2, inr pid) =>
          done_with (resetState sender s2)
            [msg_complete (snd pid) (to_template (department d))
               (to_template (registrationDate d)) (to_template (registrationTime d))]
      | (s2, inl err) =>
          done_with (setState (nowMs clock) sender (Some firstNameStep) (Some d) s2)
            [msg_oneshot_failed err]
      end
    else done_with s1 [msg_continue]
  else done_with s [msg_unrecognized].

(** [doctorLimits[dept] || cap] *)
Definition limit_or (limits : string -> option Z) (dept : string) (cap : Z) : Z :=
  match limits dept with
  | Some n => Js.or_num n cap
  | None => cap
  end.

(** The lines that the loop over [times] appends to the prompt. *)
Fixpoint time_lines (limits : string -> option Z) (s : Store) (dept date : string) (cap : Z)
         (idx : Z) (ts : list string) : string :=
  match ts with
  | [] => EmptyString
  | t :: ts' =>
      let count := slot_count s (slot_id dept date t) in
      let remaining := limit_or limits dept cap - count in
      pretty (idx + 1) +:+ ". " +:+ t +:+ " (Remaining: " +:+ pretty remaining +:+ ")" +:+ Js.nl
      +:+ time_lines limits s dept date cap (idx + 1) ts'
  end.

Definition msg_times (dept date lines : string) : string :=
  "Available times for " +:+ dept +:+ " on " +:+ date +:+ ":" +:+ Js.nl +:+ lines +:+
  "Reply with the number or the time (e.g., 10:00).".

(** The candidate time of the [registrationTime] case when the answer is
    not a menu number. *)
Definition candidate_time (clock : Clock) (text : string) : string :=
  let c0 := Js.trim text in
  let c1 := if one_or_two_digits c0 then Js.padStart0 2 c0 +:+ ":00" else c0 in
  match chrono_parseDate clock c1 with
  | Some dt => two_digits (getHours dt) +:+ ":00"
  | None => c1
  end.

(** The [switch] of [processMessage]: one answer consumed at step [st] with
    the collected data [d]. *)
Definition dialogue_step (clock : Clock) (sender text : string) (st : Step) (d : Data)
           (s : Store) : Outcome :=
  let now := nowMs clock in
  match st with
  | firstNameStep =>
      done_with (setState now sender (Some lastNameStep) (Some (set_firstName text d)) s)
        [msg_lastName]
  | lastNameStep =>
      let v := if String.eqb text "-" then EmptyString else text in
      done_with (setState now sender (Some genderStep) (Some (set_lastName v d)) s) [msg_gender]
  | genderStep =>
      let choice := parseChoice text in
      let g := match choice with
               | Some 1 => Some "Male"
               | Some 2 => Some "Female"
               | Some 3 => Some "Other"
               | _ => if Js.truthy (normalizeGender text) then normalizeGender text else None
               end in
      match g with
      | Some v =>
          done_with (setState now sender (Some addressStep) (Some (set_gender v d)) s)
            [msg_address]
      | None => done_with s [msg_gender_again]
      end
  | addressStep =>
      done_with (setState now sender (Some emailStep) (Some (set_address text d)) s) [msg_email]
  | emailStep =>
      let e := if String.eqb (Js.toLowerCase text) "skip" then Some EmptyString
               else if Js.truthy (validateEmail text) then validateEmail text else None in
      match e with
      | Some v =>
          done_with (setState now sender (Some phoneNumberStep) (Some (set_email v d)) s)
            [msg_phone]
      | None => done_with s [msg_email_again]
      end
  | phoneNumberStep =>
      if Js.truthy (validatePhone text) then
        done_with (setState now sender (Some departmentStep)
                     (Some (set_phoneNumber (Js.or_empty (validatePhone text)) d)) s)
          [msg_department]
      else done_with s [msg_phone_again]
  | departmentStep =>
      let dep := match choice_in (parseChoice text) (length deptList) with
                 | Some c => nth_str deptList (c - 1)
                 | None => if Js.truthy (normalizeDepartment text)
                           then normalizeDepartment text else None
                 end in
      match dep with
      | Some v =>
          done_with (setState now sender (Some registrationDateStep)
                       (Some (set_department v d)) s) [msg_date]
      | None => done_with s [msg_department_again]
      end
  | registrationDateStep =>
      match chrono_parseDate clock text with
      | None => done_with s [msg_date_unparsed]
      | Some parsed =>
          let dateStr := isoDate parsed in
          if String.leb dateStr (today clock) then done_with s [msg_date_past]
          else
            let d' := set_registrationDate dateStr d in
            let s1 := setState now sender (Some registrationTimeStep) (Some d') s in
            match department_of (to_template (department d')) with
            | None => threw_with s1 [] "TypeError"
            | Some dept =>
                let ts := hoursBetween (fst (times dept)) (snd (times dept)) in
                let name := to_template (department d') in
                match ts, doctorLimits with
                | _ :: _, None => threw_with s1 [] "ReferenceError: doctorLimits is not defined"
                | [], None => done_with s1 [msg_times name dateStr EmptyString]
                | _, Some limits =>
                    done_with s1
                      [msg_times name dateStr
                         (time_lines limits s1 name dateStr (capacity dept) 0 ts)]
                end
            end
      end
  | registrationTimeStep =>
      match department_of (to_template (department d)) with
      | None => threw_with s [] "TypeError"
      | Some dept =>
          let ts := hoursBetween (fst (times dept)) (snd (times dept)) in
          let picked :=
            match choice_in (parseChoice text) (length ts) with
            | Some c => nth_str ts (c - 1)
            | None =>
                let c := candidate_time clock text in
                if includes_str ts c then Some c else None
            end in
          match picked with
          | None => done_with s [msg_time_again]
          | Some t =>
              let d' := set_registrationTime t d in
              match attemptRegistration now d' s with
              | (s1, inr pid) =>
                  done_with (resetState sender s1)
                    [msg_successful (snd pid) (to_template (department d'))
                       (to_template (registrationDate d')) (to_template (registrationTime d'))]
              | (s1, inl err) =>
                  done_with (setState now sender (Some registrationTimeStep) (Some d') s1)
                    [msg_failed err]
              end
          end
      end
  | OtherStep => done_with (resetState sender s) [msg_reset]
  end.

(** [processMessage(sender, text)] *)
Definition processMessage (clock : Clock) (sender text : string) (s : Store) : Outcome :=
  let text := Js.trim text in
  if isGreeting text then done_with s [msg_welcome]
  else
    let (s1, state) := getState (nowMs clock) sender s in
    match step state with
    | None => nlp_bootstrap clock sender text s1
    | Some st =>
        let d := match data state with Some d => d | None => no_data end in
        dialogue_step clock sender text st d s1
    end.

(** A conversation: the messages of one sender, each with the clock at
    which it is handled, processed in order. *)
Fixpoint converse (sender : string) (msgs : list (Clock * string)) (s : Store) : Store :=
  match msgs with
  | [] => s
  | (clock, text) :: rest =>
      converse sender rest (out_store (processMessage clock sender text s))
  end.

End Conversation.

(** ** Concurrent reservation attempts

    Firestore commits a transaction only if the documents its callback read
    have not changed in the meantime (it validates them at the commit, or
    holds them locked until then); otherwise the callback is run again on
    fresh reads, a bounded number of times.  A system is the store, the attempts in
    flight with the snapshot each one read, and the identifiers issued so
    far, in commit order. *)

Record Pending : Type := {
  p_now : Z;
  p_data : Data;
  p_name : string;
  p_dept : Department;
  p_time : string;
  p_snap : Store
}.

Record System : Type := {
  sys_store : Store;
  sys_pending : list Pending;
  sys_issued : list (Z * string)
}.

Definition initial_system : System :=
  {| sys_store := empty_store; sys_pending := []; sys_issued := [] |}.

Definition pending_tx (p : Pending) : Tx (Z * string) :=
  registration_tx (p_now p) (p_data p) (p_name p) (p_dept p) (p_time p).

Definition pending_slot (p : Pending) : string :=
  slot_id (p_name p) (to_template (registrationDate (p_data p))) (p_time p).

(** The documents the callback read are still what they were. *)
Definition reads_unchanged (p : Pending) (s : Store) : Prop :=
  appointments (p_snap p) !! pending_slot p = appointments s !! pending_slot p
  /\ patient_counter (p_snap p) = patient_counter s.

Definition resnap (s : Store) (p : Pending) : Pending :=
  {| p_now := p_now p; p_data := p_data p; p_name := p_name p; p_dept := p_dept p;
     p_time := p_time p; p_snap := s |}.

Inductive sys_step : System -> System -> Prop :=
| step_rejected : forall sys d e,
    (* the attempt throws before any transaction starts *)
    precheck d = inl e ->
    sys_step sys sys
| step_begin : forall sys now d name dept time,
    precheck d = inr (name, dept, time) ->
    sys_step sys
      {| sys_store := sys_store sys;
         sys_pending :=
           sys_pending sys ++
             [{| p_now := now; p_data := d; p_name := name; p_dept := dept; p_time := time;
                 p_snap := sys_store sys |}];
         sys_issued := sys_issued sys |}
| step_abort : forall sys before p after e,
    (* the callback throws: nothing is written *)
    sys_pending sys = before ++ p :: after ->
    pending_tx p (p_snap p) [] = inl e ->
    sys_step sys
      {| sys_store := sys_store sys; sys_pending := before ++ after;
         sys_issued := sys_issued sys |}
| step_commit : forall sys before p after id ws,
    sys_pending sys = before ++ p :: after ->
    pending_tx p (p_snap p) [] = inr (id, ws) ->
    reads_unchanged p (sys_store sys) ->
    sys_step sys
      {| sys_store := apply_writes ws (sys_store sys); sys_pending := before ++ after;
         sys_issued := sys_issued sys ++ [id] |}
| step_retry : forall sys before p after,
    (* a conflict: the callback starts over on fresh reads *)
    sys_pending sys = before ++ p :: after ->
    sys_step sys
      {| sys_store := sys_store sys; sys_pending := before ++ resnap (sys_store sys) p :: after;
         sys_issued := sys_issued sys |}
| step_give_up : forall sys before p after,
    (* the retries are exhausted, or the client dies *)
    sys_pending sys = before ++ p :: after ->
    sys_step sys
      {| sys_store := sys_store sys; sys_pending := before ++ after;
         sys_issued := sys_issued sys |}.

Inductive reachable : System -> Prop :=
| reach_init : reachable initial_system
| reach_step : forall sys sys', reachable sys -> sys_step sys sys' -> reachable sys'.

(** Attempts one after the other, each run to completion: the final store
    and the identifiers issued, in order. *)
Fixpoint run_attempts (reqs : list (Z * Data)) (s : Store) : Store * list (Z * string) :=
  match reqs with
  | [] => (s, [])
  | (now, d) :: rest =>
      match attemptRegistration now d s with
      | (s', inr id) => let (s'', ids) := run_attempts rest s' in (s'', id :: ids)
      | (s', inl _) => run_attempts rest s'
      end
  end.

(** The number of patient records booked for a department, date and time. *)
Definition books (dept date time : string) (kv : string * PatientDoc) : Prop :=
  p_department kv.2 = dept /\ RegistrationDate kv.2 = date /\ RegistrationTime kv.2 = time.

Global Instance books_dec dept date time kv : Decision (books dept date time kv).
Proof. unfold books. apply _. Defined.

Definition records_for (dept date time : string) (s : Store) : nat :=
  size (filter (books dept date time) (patients s)).

(** ** The Cloud-Functions variant

    The older webhook of the repository: the same catalogue, with its own
    slot generator, identifier generator and registration. *)

Module Legacy.

(** Minutes after local midnight of [new Date("1970-01-01T" + hhmm + ":00")]
    for a two-digit hour and minute, 24:00 being the end of the day; [None]
    is an invalid date. *)
Definition clock_minutes (hhmm : string) : option Z :=
  match hhmm with
  | String h1 (String h2 (String ":" (String m1 (String m2 EmptyString)))) =>
      if Js.is_digit h1 && Js.is_digit h2 && Js.is_digit m1 && Js.is_digit m2 then
        let h := 10 * Js.digit_value h1 + Js.digit_value h2 in
        let m := 10 * Js.digit_value m1 + Js.digit_value m2 in
        if ((h <=? 23) && (m <=? 59)) || ((h =? 24) && (m =? 0)) then Some (60 * h + m)
        else None
      else None
  | _ => None
  end.

(** [toTimeString().slice(0, 5)] *)
Definition time_label (minutes : Z) : string :=
  Js.padStart0 2 (pretty ((minutes / 60) mod 24)) +:+ ":" +:+
  Js.padStart0 2 (pretty (minutes mod 60)).

(** The loop [while (current <= endTime)], one hour a turn. *)
Fixpoint slots_loop (fuel : nat) (current endTime : Z) : list string :=
  match fuel with
  | O => []
  | S fuel' =>
      if current <=? endTime
      then time_label current :: slots_loop fuel' (current + 60) endTime
      else []
  end.

Definition generateTimeSlots (start end_ : string) : list string :=
  match clock_minutes start, clock_minutes end_ with
  | Some c, Some e => slots_loop (Z.to_nat ((e - c) / 60 + 1)) c e
  | _, _ => []
  end.

(** [generatePatientId()], a transaction of its own. *)
Definition generatePatientId (s : Store) : Store * (string + (Z * string)) :=
  runTransaction
    (let* snap := tx_get_counter in
     let current := match snap with Some c => c | None => 1000 end in
     let* _ := tx_set (SetCounter (current + 1)) in
     tx_ret (current, patient_id current)) s.

(** The patient document; Firestore refuses it when a field is
    [undefined]. *)
Definition patient_doc (pid : string) (d : Data) (now : Z) : option PatientDoc :=
  match firstName d, lastName d, gender d, address d, email d, phoneNumber d,
        department d, registrationDate d, registrationTime d with
  | Some fn, Some ln, Some g, Some a, Some e, Some ph, Some dep, Some date, Some time =>
      Some {| PatientID := pid; FirstName := fn; LastName := ln; Gender := g; Address := a;
              Email := e; PhoneNumber := ph; p_department := dep; RegistrationDate := date;
              RegistrationTime := time; createdAt := now |}
  | _, _, _, _, _, _, _, _, _ => None
  end.

Definition slot_tx (now : Z) (d : Data) (dept : Department) (patientId : string) : Tx unit :=
  let name := to_template (department d) in
  let date := to_template (registrationDate d) in
  let time := to_template (registrationTime d) in
  let slotId := slot_id name date time in
  let* slotSnap := tx_get_slot slotId in
  let currentCount := count_of slotSnap in
  if currentCount >=? capacity dept
  then tx_throw ("Slot full for " +:+ name +:+ " at " +:+ time +:+ " on " +:+ date +:+ ".")
  else
    match patient_doc patientId d now with
    | None => tx_throw "Cannot use undefined as a Firestore value"
    | Some doc =>
        let* _ := tx_set (SetPatient patientId doc) in
        let newPatients :=
          match slotSnap with
          | Some sd => (s_patients sd ++ [patientId])%list
          | None => [patientId]
          end in
        tx_set (SetSlot slotId
                  {| s_department := name; s_date := date; s_time := time;
                     s_capacity := capacity dept; s_count := currentCount + 1;
                     s_patients := newPatients |})
    end.

(** [attemptRegistration(data)]: the identifier is generated first, in its
    own transaction, and the slot transaction follows. *)
Definition attemptRegistration (now : Z) (d : Data) (s : Store) : Store * (string + (Z * string)) :=
  match department_of (to_template (department d)) with
  | None => (s, inl "Invalid department.")
  | Some dept =>
      match generatePatientId s with
      | (s1, inl e) => (s1, inl e)
      | (s1, inr id) =>
          match runTransaction (slot_tx now d dept (snd id)) s1 with
          | (s2, inl e) => (s2, inl e)
          | (s2, inr _) => (s2, inr id)
          end
      end
  end.

(** Attempts one after the other: the final store and the identifiers of
    the attempts that succeeded. *)
Fixpoint run_attempts (reqs : list (Z * Data)) (s : Store) : Store * list (Z * string) :=
  match reqs with
  | [] => (s, [])
  | (now, d) :: rest =>
      match attemptRegistration now d s with
      | (s', inr id) => let (s'', ids) := run_attempts rest s' in (s'', id :: ids)
      | (s', inl _) => run_attempts rest s'
      end
  end.

Definition getState (now : Z) (sender : string) (s : Store) : Store * StateDoc :=
  match registration_states s !! sender with
  | None => (s, blank_state)
  | Some doc =>
      match updatedAt doc with
      | Some t =>
          (* [(now - t) / (1000 * 60) > 30] *)
          if now - t >? 30 * (1000 * 60) then (resetState sender s, blank_state) else (s, doc)
      | None => (s, doc)
      end
  end.

(** *** The webhook of the variant *)

(** What the webhook reads of the first message of a payload:
    [message.from], [message.text?.body] and [message.button?.text]. *)
Record Message : Type := {
  m_from : string;
  m_text_body : option string;
  m_button_text : option string
}.

(** What the webhook reads of a request; [req_message] is
    [req.body?.entry?.[0]?.changes?.[0]?.value?.messages?.[0]]. *)
Record Request : Type := {
  req_method : string;
  req_query : list (string * string);
  req_message : option Message
}.

(** [sendWhatsAppText(to, text)] and [sendButtons(to, bodyText, options)] *)
Inductive Sent : Type :=
| SentText (to body : string)
| SentButtons (to body : string) (options : list string).

Record Handled : Type := {
  w_store : Store;
  w_sent : list Sent;
  w_status : Z;
  w_body : option string
}.

Definition respond (s : Store) (sent : list Sent) (code : Z) (text : option string) : Handled :=
  {| w_store := s; w_sent := sent; w_status := code; w_body := text |}.

Definition failed (s : Store) (sent : list Sent) : Handled :=
  respond s sent 500 (Some "Internal Server Error").

Definition answered (s : Store) (sent : list Sent) : Handled :=
  respond s sent 200 (Some "OK").

(** [a || b] on optional strings. *)
Definition or_else (a b : option string) : option string := if Js.truthy a then a else b.

(** [message.text?.body || message.button?.text || ""] *)
Definition text_or_button (m : Message) : string :=
  Js.or_empty (or_else (m_text_body m) (m_button_text m)).

(** [message.text?.body || ""] *)
Definition text_body (m : Message) : string :=
  if Js.truthy (m_text_body m) then Js.or_empty (m_text_body m) else EmptyString.

(** [a === b] on values that are strings or [undefined]. *)
Definition same_value (a b : option string) : bool :=
  match a, b with
  | Some x, Some y => String.eqb x y
  | None, None => true
  | _, _ => false
  end.

Definition normalizeDepartment (text : string) : option string :=
  find (fun d => Js.includes (Js.toLowerCase text) (Js.toLowerCase d)) deptList.

(** The object [alias] of [normalizeTimeForDepartment]. *)
Definition alias : list (string * string) :=
  [ ("9", "09:00"); ("9 am", "09:00"); ("09:00", "09:00");
    ("10", "10:00"); ("10 am", "10:00"); ("10:00", "10:00");
    ("11", "11:00"); ("11 am", "11:00"); ("11:00", "11:00");
    ("12", "12:00"); ("12 pm", "12:00"); ("12:00", "12:00");
    ("1", "13:00"); ("1 pm", "13:00"); ("13:00", "13:00");
    ("2", "14:00"); ("2 pm", "14:00"); ("14:00", "14:00");
    ("3", "15:00"); ("3 pm", "15:00"); ("15:00", "15:00");
    ("5", "17:00"); ("5 pm", "17:00"); ("17:00", "17:00");
    ("6", "18:00"); ("6 pm", "18:00"); ("18:00", "18:00") ].

(** [normalizeTimeForDepartment(department, text)]: a [TypeError] when the
    department is not in the catalogue, else the time or [null].  A key that
    names a property of [Object.prototype] is looked up to a value that is no
    string and no generated time, as the key itself is none. *)
Definition normalizeTimeForDepartment (department text : string) : string + option string :=
  match department_of department with
  | None => inl "TypeError"
  | Some dept =>
      let slots := generateTimeSlots (fst (times dept)) (snd (times dept)) in
      let key := Js.toLowerCase (Js.trim text) in
      let normalized := match assoc key alias with Some v => v | None => key end in
      inr (if includes_str slots normalized then Some normalized else None)
  end.

(** [/\b([0-2]?\d:[0-5]\d|\d{1,2}\s?(am|pm))\b/] *)
Definition time_re : Regex.regex :=
  Regex.Cat Regex.WordB
    (Regex.Cat
       (Regex.Alt
          (Regex.Cat (Regex.Opt (Regex.Class (fun c => (48 <=? Js.code c)%N && (Js.code c <=? 50)%N)))
             (Regex.Cat (Regex.Class Js.is_digit)
                (Regex.Cat (Regex.Chr ":")
                   (Regex.Cat (Regex.Class (fun c => (48 <=? Js.code c)%N && (Js.code c <=? 53)%N))
                      (Regex.Class Js.is_digit)))))
          (Regex.Cat (Regex.Between 1 2 (Regex.Class Js.is_digit))
             (Regex.Cat (Regex.Opt (Regex.Class Js.is_space))
                (Regex.Alt (Regex.Lit "am") (Regex.Lit "pm")))))
       Regex.WordB).

(** [/\+?\d{10,}/] *)
Definition phone_re : Regex.regex :=
  Regex.Cat (Regex.Opt (Regex.Chr "+")) (Regex.AtLeast 10 (Regex.Class Js.is_digit)).

Record Parsed : Type := {
  pf_department : option string;
  pf_date : option string;
  pf_time : option string;
  pf_gender : option string
}.

(** The texts of the webhook. *)
Definition msg_welcome : string := "Welcome to Novamed Multispeciality Care".
Definition msg_quick (pid dept date time : string) : string :=
  "✅ Quick booking successful!" +:+ Js.nl +:+ "Patient ID: " +:+ pid +:+ Js.nl +:+
  "Department: " +:+ dept +:+ Js.nl +:+ "Date: " +:+ date +:+ Js.nl +:+ "Time: " +:+ time.
Definition msg_successful (pid dept date time : string) : string :=
  "✅ Registration successful!" +:+ Js.nl +:+ "Patient ID: " +:+ pid +:+ Js.nl +:+
  "Department: " +:+ dept +:+ Js.nl +:+ "Date: " +:+ date +:+ Js.nl +:+ "Time: " +:+ time.
Definition msg_failed (err : string) : string :=
  "❌ " +:+ err +:+ Js.nl +:+ "Please choose another time.".

Fixpoint join (sep : string) (l : list string) : string :=
  match l with
  | [] => EmptyString
  | [x] => x
  | x :: l' => x +:+ sep +:+ join sep l'
  end.

(** The data of the one-sentence booking. *)
Definition quick_data (sender : string) (p : Parsed) : Data :=
  {| firstName := Some "Unknown"; lastName := Some "Unknown";
     gender := Some (if Js.truthy (pf_gender p) then Js.or_empty (pf_gender p) else "Other");
     address := Some "Unknown"; email := Some "Unknown"; phoneNumber := Some sender;
     department := pf_department p; registrationDate := pf_date p;
     registrationTime := pf_time p |}.

Section Webhook.

(** [chrono.parseDate], which reads the clock. *)
Variable chrono_parseDate : Clock -> string -> option JsDate.

(** [functions.config().verify]: absent, or present with its [token]. *)
Variable cfg_verify : option (option string).

Definition parseFutureDate (clock : Clock) (text : string) : option string :=
  match chrono_parseDate clock text with
  | None => None
  | Some parsed =>
      let ymd := isoDate parsed in
      if String.ltb (today clock) ymd then Some ymd else None
  end.

Definition parseFullSentence (clock : Clock) (text : string) : string + Parsed :=
  let lower := Js.toLowerCase text in
  let department := normalizeDepartment text in
  let date := parseFutureDate clock text in
  let time0 :=
    match chrono_parseDate clock text with
    | Some chronoDate =>
        (* [toTimeString().slice(0, 5)] *)
        Some (two_digits (getHours chronoDate) +:+ ":" +:+ two_digits (getMinutes chronoDate))
    | None => None
    end in
  let time :=
    if negb (Js.truthy time0) && Js.truthy department then
      match Regex.exec time_re lower with
      | Some m => normalizeTimeForDepartment (Js.or_empty department) m
      | None => inr time0
      end
    else inr time0 in
  let gender :=
    if Js.includes lower "male" then Some "Male"
    else if Js.includes lower "female" then Some "Female"
    else if Js.includes lower "other" then Some "Other"
    else None in
  match time with
  | inl e => inl e
  | inr t =>
      inr {| pf_department := department; pf_date := date; pf_time := t; pf_gender := gender |}
  end.

(** The [switch] of the webhook on a session at step [st]; [data] is
    [state.data], absent when the stored document has none. *)
Definition step_flow (clock : Clock) (message : Message) (st : Step) (data : option Data)
           (s : Store) : Handled :=
  let now := nowMs clock in
  let sender := m_from message in
  let save st' d' := setState now sender (Some st') (Some d') s in
  match st, data with
  | OtherStep, _ =>
      answered (resetState sender s)
        [SentText sender "Session reset. Say 'patient registration' to begin again."]
  | firstNameStep, Some d =>
      answered (save lastNameStep (set_firstName (text_body message) d))
        [SentText sender "Thanks! Please enter your Last Name."]
  | lastNameStep, Some d =>
      answered (save genderStep (set_lastName (text_body message) d))
        [SentButtons sender "Select Gender:" ["Male"; "Female"; "Other"]]
  | genderStep, Some d =>
      let picked := or_else (m_text_body message) (m_button_text message) in
      let g := Js.trim (if Js.truthy picked then Js.or_empty picked else "Other") in
      answered (save addressStep (set_gender g d)) [SentText sender "Please enter your Address."]
  | addressStep, Some d =>
      answered (save emailStep (set_address (text_body message) d))
        [SentText sender "Please enter your Email."]
  | emailStep, _ =>
      let raw := text_body message in
      if negb (Regex.test email_re raw)
      then answered s [SentText sender "Invalid email. Please re-enter your Email."]
      else
        match data with
        | None => failed s []
        | Some d =>
            answered (save phoneNumberStep (set_email raw d))
              [SentText sender "Please enter your Phone Number."]
        end
  | phoneNumberStep, _ =>
      (* [.replace(/\s+/g, "")] *)
      let raw := Js.filter (fun c => negb (Js.is_space c)) (text_body message) in
      if negb (Regex.test phone_re raw)
      then answered s [SentText sender "Invalid phone. Please re-enter your Phone Number."]
      else
        match data with
        | None => failed s []
        | Some d =>
            answered (save departmentStep (set_phoneNumber raw d))
              [SentButtons sender "Select Department:" deptList]
        end
  | departmentStep, _ =>
      let dept := normalizeDepartment (text_or_button message) in
      if negb (Js.truthy dept)
      then answered s [SentText sender "Invalid department. Please choose again."]
      else
        match data with
        | None => failed s []
        | Some d =>
            answered (save registrationDateStep (set_department (Js.or_empty dept) d))
              [SentText sender "Enter Registration Date (e.g., 'tomorrow' or '2025-11-10')."]
        end
  | registrationDateStep, _ =>
      let date := parseFutureDate clock (text_body message) in
      if negb (Js.truthy date)
      then answered s [SentText sender "Invalid date. Please enter a future date."]
      else
        match data with
        | None => failed s []
        | Some d =>
            let d' := set_registrationDate (Js.or_empty date) d in
            match department_of (to_template (department d')) with
            | None => failed s []
            | Some dept =>
                let slots := generateTimeSlots (fst (times dept)) (snd (times dept)) in
                answered (save registrationTimeStep d')
                  [SentButtons sender
                     ("Available times for " +:+ to_template (department d') +:+ ":") slots]
            end
        end
  | registrationTimeStep, Some d =>
      let raw := text_or_button message in
      match normalizeTimeForDepartment (to_template (department d)) raw,
            department_of (to_template (department d)) with
      | inr normalized, Some dept =>
          if negb (Js.truthy normalized) then
            let slots := generateTimeSlots (fst (times dept)) (snd (times dept)) in
            answered s [SentText sender ("Invalid time. Available times: " +:+ join ", " slots)]
          else
            let d' := set_registrationTime (Js.or_empty normalized) d in
            match attemptRegistration now d' s with
            | (s1, inr pid) =>
                answered (resetState sender s1)
                  [SentText sender
                     (msg_successful (snd pid) (to_template (department d'))
                        (to_template (registrationDate d')) (to_template (registrationTime d')))]
            | (s1, inl err) => answered s1 [SentText sender (msg_failed err)]
            end
      | _, _ => failed s []
      end
  | _, None => failed s []
  end.

(** [exports.webhook] *)
Definition webhook (clock : Clock) (req : Request) (s : Store) : Handled :=
  if String.eqb (req_method req) "GET" then
    let mode := assoc "hub.mode" (req_query req) in
    let token := assoc "hub.verify_token" (req_query req) in
    let challenge := assoc "hub.challenge" (req_query req) in
    if same_value mode (Some "subscribe") then
      match cfg_verify with
      | None => failed s []
      | Some configured =>
          if same_value token configured then respond s [] 200 challenge
          else respond s [] 403 (Some "Forbidden")
      end
    else respond s [] 403 (Some "Forbidden")
  else if String.eqb (req_method req) "POST" then
    match req_message req with
    | None => respond s [] 200 (Some "No message")
    | Some message =>
        let sender := m_from message in
        let text := Js.toLowerCase (Js.trim (text_or_button message)) in
        if String.eqb text "hi" || String.eqb text "hello"
        then answered s [SentText sender msg_welcome]
        else
          let (s1, state) := getState (nowMs clock) sender s in
          match step state with
          | None =>
              match parseFullSentence clock text with
              | inl _ => failed s1 []
              | inr parsed =>
                  if Js.truthy (pf_department parsed) && Js.truthy (pf_date parsed)
                     && Js.truthy (pf_time parsed)
                  then
                    match attemptRegistration (nowMs clock) (quick_data sender parsed) s1 with
                    | (s2, inl _) => failed s2 []
                    | (s2, inr pid) =>
                        answered s2
                          [SentText sender
                             (msg_quick (snd pid) (to_template (pf_department parsed))
                                (to_template (pf_date parsed)) (to_template (pf_time parsed)))]
                    end
                  else if Js.includes text "patient registration"
                  then answered (setState (nowMs clock) sender (Some firstNameStep)
                                   (Some no_data) s1)
                         [SentText sender "Welcome! Please enter your First Name."]
                  else answered s1 [SentText sender "Say 'patient registration' to begin."]
              end
          | Some st => step_flow clock message st (data state) s1
          end
    end
  else respond s [] 404 (Some "Not Found").

(** Requests processed in order, each with the clock at which it is
    handled. *)
Fixpoint serve (reqs : list (Clock * Request)) (s : Store) : Store :=
  match reqs with
  | [] => s
  | (clock, req) :: rest => serve rest (w_store (webhook clock req s))
  end.

End Webhook.

End Legacy.

(** ** Notions used by the statements *)

(** The occupants of a slot after one more patient. *)
Definition occupants_after (snap : option SlotDoc) (pid : string) : list string :=
  match snap with
  | Some doc => s_patients doc ++ [pid]
  | None => [pid]
  end.

(** The store that a successful registration commits. *)
Definition committed (now : Z) (d : Data) (name : string) (dept : Department)
           (date time : string) (s : Store) : Store :=
  let n := next_count (patient_counter s) in
  let slotId := slot_id name date time in
  {| registration_states := registration_states s;
     patient_counter := Some n;
     patients := <[patient_id n := patient_doc (patient_id n) d name date time now]> (patients s);
     appointments :=
       <[slotId := {| s_department := name; s_date := date; s_time := time;
                      s_capacity := capacity dept;
                      s_count := slot_count s slotId + 1;
                      s_patients := occupants_after (appointments s !! slotId) (patient_id n) |}]>
         (appointments s) |}.

(** The three outcomes of a registration attempt. *)
Inductive attempt_outcome (now : Z) (d : Data) (s : Store) :
  Store * (string + (Z * string)) -> Prop :=
| outcome_refused : forall e,
    attempt_outcome now d s (s, inl e)
| outcome_registered : forall name dept date time,
    precheck d = inr (name, dept, time) ->
    registrationDate d = Some date ->
    slot_count s (slot_id name date time) < capacity dept ->
    attempt_outcome now d s
      (committed now d name dept date time s,
       inr (next_count (patient_counter s), patient_id (next_count (patient_counter s)))).

(** A department of the catalogue together with one of its generated times. *)
Definition valid_slot (name : string) (dept : Department) (time : string) : Prop :=
  department_of name = Some dept
  /\ includes_str (hoursBetween (fst (times dept)) (snd (times dept))) time = true.

(** The slot ledger, the patient records and the identifier counter agree. *)
Record ledger_ok (s : Store) : Prop := {
  ok_ids : forall pid doc, patients s !! pid = Some doc ->
    exists n c, pid = patient_id n /\ patient_counter s = Some c /\ n <= c;
  ok_record : forall pid doc, patients s !! pid = Some doc ->
    exists dept, valid_slot (p_department doc) dept (RegistrationTime doc);
  ok_books : forall name dept date time, valid_slot name dept time ->
    Z.of_nat (records_for name date time s) = slot_count s (slot_id name date time);
  ok_slot : forall k doc, appointments s !! k = Some doc ->
    exists dept, valid_slot (s_department doc) dept (s_time doc)
      /\ k = slot_id (s_department doc) (s_date doc) (s_time doc)
      /\ s_capacity doc = capacity dept
      /\ s_count doc = Z.of_nat (length (s_patients doc))
      /\ 1 <= s_count doc <= capacity dept
}.

(** The identifiers issued so far are those of their numbers, none above the
    counter, in strictly increasing order. *)
Record issued_ok (s : Store) (ids : list (Z * string)) : Prop := {
  issued_text : Forall (fun id => snd id = patient_id (fst id)) ids;
  issued_below : Forall (fun id => exists c, patient_counter s = Some c /\ fst id <= c) ids;
  issued_sorted : StronglySorted Z.lt (map fst ids)
}.

Fixpoint has_char (c : ascii) (s : string) : bool :=
  match s with
  | EmptyString => false
  | String x s' => Ascii.eqb x c || has_char c s'
  end.

(** An attempt in flight went through the checks that precede the
    transaction. *)
Definition pending_ok (p : Pending) : Prop :=
  precheck (p_data p) = inr (p_name p, p_dept p, p_time p).

Record system_ok (sys : System) : Prop := {
  sys_ledger : ledger_ok (sys_store sys);
  sys_ids : issued_ok (sys_store sys) (sys_issued sys);
  sys_flight : Forall pending_ok (sys_pending sys)
}.

(** ** Sample inputs *)

(** A complete booking for Cardiology on 2025-12-01 at 10:00. *)
Definition sample_booking : Data :=
  {| firstName := Some "Asha"; lastName := Some "Rao"; gender := Some "Female";
     address := Some "12 Lake Road"; email := Some "asha@example.com";
     phoneNumber := Some "+919876543210"; department := Some "Cardiology";
     registrationDate := Some "2025-12-01"; registrationTime := Some "10:00" |}.

Definition cardiology : Department := {| times := ("09:00", "12:00"); capacity := 10 |}.

Definition sample_slot : string := slot_id "Cardiology" "2025-12-01" "10:00".

(** The store after ten bookings of the sample slot, from the empty store. *)
Definition ten_bookings : list (Z * Data) := repeat (0, sample_booking) 10.
Definition full_store : Store := fst (run_attempts ten_bookings empty_store).

(** The system in which one sample booking is in flight, and the one in which
    it has been committed. *)
Definition sample_pending : Pending :=
  {| p_now := 0; p_data := sample_booking; p_name := "Cardiology"; p_dept := cardiology;
     p_time := "10:00"; p_snap := empty_store |}.
Definition system_in_flight : System :=
  {| sys_store := empty_store; sys_pending := [] ++ [sample_pending]; sys_issued := [] |}.
Definition system_booked : System :=
  {| sys_store :=
       committed 0 sample_booking "Cardiology" cardiology "2025-12-01" "10:00" empty_store;
     sys_pending := [] ++ [];
     sys_issued := [] ++ [(1001, "P1001")] |}.

(** The same ten bookings through the Cloud-Functions variant. *)
Definition legacy_full_store : Store := fst (Legacy.run_attempts ten_bookings empty_store).

(** A booking that fails the checks before the transaction, one for a slot
    that is free, and again the sample booking. *)
Definition sample_other : Data :=
  {| firstName := Some "Ravi"; lastName := Some "Iyer"; gender := Some "Male";
     address := Some "4 Hill Street"; email := None;
     phoneNumber := Some "9876501234"; department := Some "Neurology";
     registrationDate := Some "2025-12-02"; registrationTime := Some "15:00" |}.
Definition sample_bad_time : Data := set_registrationTime "23:00" sample_booking.
Definition mixed_bookings : list (Z * Data) :=
  [(0, sample_booking); (1, sample_bad_time); (2, sample_other); (3, sample_booking)].

(** The steps that validate their answer. *)
Definition validating (st : Step) : bool :=
  match st with
  | genderStep | emailStep | phoneNumberStep | departmentStep
  | registrationDateStep | registrationTimeStep => true
  | _ => false
  end.

(** An answer that the validation of its step refuses, and the text that
    asks again. *)
Definition invalid_answer (chrono_parseDate : Clock -> string -> option JsDate)
           (clock : Clock) (st : Step) (d : Data) (text : string) : option string :=
  match st with
  | genderStep =>
      match parseChoice text with
      | Some 1 | Some 2 | Some 3 => None
      | _ => if Js.truthy (normalizeGender text) then None else Some msg_gender_again
      end
  | emailStep =>
      if String.eqb (Js.toLowerCase text) "skip" then None
      else if Js.truthy (validateEmail text) then None else Some msg_email_again
  | phoneNumberStep =>
      if Js.truthy (validatePhone text) then None else Some msg_phone_again
  | departmentStep =>
      match choice_in (parseChoice text) (length deptList) with
      | Some _ => None
      | None => if Js.truthy (normalizeDepartment text) then None else Some msg_department_again
      end
  | registrationDateStep =>
      match chrono_parseDate clock text with
      | None => Some msg_date_unparsed
      | Some parsed =>
          if String.leb (isoDate parsed) (today clock) then Some msg_date_past else None
      end
  | registrationTimeStep =>
      match department_of (to_template (department d)) with
      | None => None
      | Some dept =>
          let ts := hoursBetween (fst (times dept)) (snd (times dept)) in
          match choice_in (parseChoice text) (length ts) with
          | Some _ => None
          | None =>
              if includes_str ts (candidate_time chrono_parseDate clock text) then None
              else Some msg_time_again
          end
      end
  | _ => None
  end.

(** A session that the read at [now] finds alive at step [st] with data [d]. *)
Definition live_session (s : Store) (sender : string) (now : Z) (st : Step) (d : Data) : Prop :=
  exists doc t,
    registration_states s !! sender = Some doc
    /\ step doc = Some st /\ data doc = Some d /\ updatedAt doc = Some t
    /\ now - t <= session_ttl.

(** A parser that recognises nothing, and a table without entries. *)
Definition chrono_parse_nothing : Clock -> string -> list ChronoResult := fun _ _ => [].
Definition chrono_parseDate_nothing : Clock -> string -> option JsDate := fun _ _ => None.
Definition no_limits : string -> option Z := fun _ => None.

(** A conversation that has reached the email step at time 0. *)
Definition email_session : StateDoc :=
  {| step := Some emailStep;
     data := Some (set_address "12 Lake Road"
                     (set_gender "Female" (set_lastName "Rao" (set_firstName "Asha" no_data))));
     updatedAt := Some 0 |}.
Definition store_at_email : Store :=
  with_states (<["919876543210" := email_session]>) empty_store.

Definition minutes (n : Z) : Clock := {| nowMs := n * 60 * 1000; today := "2025-11-30" |}.

(** The time that the [registrationTime] case accepts for an answer, if
    any. *)
Definition picked_time (chrono_parseDate : Clock -> string -> option JsDate)
           (clock : Clock) (dept : Department) (text : string) : option string :=
  let ts := hoursBetween (fst (times dept)) (snd (times dept)) in
  match choice_in (parseChoice text) (length ts) with
  | Some c => nth_str ts (c - 1)
  | None =>
      let c := candidate_time chrono_parseDate clock text in
      if includes_str ts c then Some c else None
  end.

(** The claim's starting point of the step flow: the first field, in the
    order of the flow, that is not yet filled; [None] when all are. *)
Definition first_unfilled (d : Data) : option Step :=
  if negb (Js.truthy (firstName d)) then Some firstNameStep
  else if negb (Js.truthy (lastName d)) then Some lastNameStep
  else if negb (Js.truthy (gender d)) then Some genderStep
  else if negb (Js.truthy (address d)) then Some addressStep
  else if negb (Js.truthy (email d)) then Some emailStep
  else if negb (Js.truthy (phoneNumber d)) then Some phoneNumberStep
  else if negb (Js.truthy (department d)) then Some departmentStep
  else if negb (Js.truthy (registrationDate d)) then Some registrationDateStep
  else if negb (Js.truthy (registrationTime d)) then Some registrationTimeStep
  else None.

(** A parser that knows the phrases of the examples, read on 2025-11-30:
    "tomorrow at 10am" is 2025-12-01 at ten with the time given, "tomorrow"
    alone is that day.  The results of [chrono_parse_sample] carry the boolean
    [false] under [isOnlyDate], which those of chrono-node never do
    ([library_parser], [chrono_parse_library]): it shows what the code would
    do with a time extracted. *)
Definition tomorrow_at_ten : JsDate :=
  {| isoDate := "2025-12-01"; getHours := 10; getMinutes := 0 |}.
Definition tomorrow_noon : JsDate :=
  {| isoDate := "2025-12-01"; getHours := 12; getMinutes := 0 |}.
Definition chrono_parse_sample (clock : Clock) (text : string) : list ChronoResult :=
  if Js.includes (Js.toLowerCase text) "tomorrow at 10am"
  then [{| cr_start := Some {| cc_date := tomorrow_at_ten; cc_isOnlyDate := Some false |} |}]
  else [].
Definition chrono_parseDate_sample (clock : Clock) (text : string) : option JsDate :=
  if Js.includes (Js.toLowerCase text) "tomorrow at 10am" then Some tomorrow_at_ten
  else if Js.includes (Js.toLowerCase text) "tomorrow" then Some tomorrow_noon
  else None.

(** [doctorLimits] as the appointment page of the front end declares it. *)
Definition frontend_limits : string -> option Z :=
  fun name => assoc name
    [("Cardiology", 10); ("Neurology", 8); ("Orthopedics", 6); ("Pediatrics", 12);
     ("General Medicine", 10); ("Dermatology", 15)].

Definition sample_sender : string := "919876543210".

(** One sentence with a name, department, date, time and phone number. *)
Definition sentence_with_name : string := "Asha cardiology tomorrow at 10am 9876543210".

(** The session of the example waiting for its date, with the slot at nine
    o'clock full. *)
Definition date_session : StateDoc :=
  {| step := Some registrationDateStep;
     data := Some {| firstName := Some "Asha"; lastName := Some "Rao"; gender := Some "Female";
                     address := Some "12 Lake Road"; email := Some "asha@example.com";
                     phoneNumber := Some "+919876543210"; department := Some "Cardiology";
                     registrationDate := None; registrationTime := None |};
     updatedAt := Some 0 |}.
Definition nine_bookings : list (Z * Data) :=
  repeat (0, set_registrationTime "09:00" sample_booking) 10.
Definition store_at_date : Store :=
  with_states (<[sample_sender := date_session]>) (fst (run_attempts nine_bookings empty_store)).

(** A patient record booked for a department, date and time under a phone
    number. *)
Definition booked_as (r : PatientDoc) (dept date time phone : string) : Prop :=
  p_department r = dept /\ RegistrationDate r = date /\ RegistrationTime r = time
  /\ PhoneNumber r = phone.

(** [o ? o : undefined] on an optional string. *)
Definition if_truthy (o : option string) : option string :=
  if Js.truthy o then o else None.

(** The claim's reading of a greeting: the text contains one of the five
    words, in any mix of cases, with no word character right before or right
    after it. *)
Definition greeting_words : list string := ["hi"; "hey"; "hello"; "hii"; "hy"].

Fixpoint last_char (prev : option ascii) (s : string) : option ascii :=
  match s with
  | EmptyString => prev
  | String c s' => last_char (Some c) s'
  end.

Definition standalone_greeting (text : string) : Prop :=
  exists pre w post,
    text = pre +:+ w +:+ post
    /\ In (Js.toLowerCase w) greeting_words
    /\ word_at (last_char None pre) = false
    /\ word_at (head post) = false.

(** In the Cloud-Functions variant the counter holds the next number: the
    identifiers issued are strictly below it. *)
Record legacy_issued_ok (s : Store) (ids : list (Z * string)) : Prop := {
  legacy_text : Forall (fun id => snd id = patient_id (fst id)) ids;
  legacy_below : Forall (fun id => exists c, patient_counter s = Some c /\ fst id < c) ids;
  legacy_sorted : StronglySorted Z.lt (map fst ids)
}.

(** The number that the Cloud-Functions variant issues next. *)
Definition legacy_next (s : Store) : Z :=
  match patient_counter s with
  | Some c => c
  | None => 1000
  end.

(** The slot key that a patient record falls under, and the consistency of
    ledger, records and counter in the Cloud-Functions variant, whose
    registration does not check the time itself. *)
Definition record_key (r : PatientDoc) : string :=
  slot_id (p_department r) (RegistrationDate r) (RegistrationTime r).

Definition keyed (k : string) (kv : string * PatientDoc) : Prop := record_key kv.2 = k.

Global Instance keyed_dec k kv : Decision (keyed k kv).
Proof. unfold keyed. apply _. Defined.

Record legacy_ledger_ok (s : Store) : Prop := {
  lg_ids : forall pid doc, patients s !! pid = Some doc ->
    exists n c, pid = patient_id n /\ patient_counter s = Some c /\ n < c;
  lg_books : forall k, Z.of_nat (size (filter (keyed k) (patients s))) = slot_count s k;
  lg_slot : forall k doc, appointments s !! k = Some doc ->
    exists dept, department_of (s_department doc) = Some dept
      /\ k = slot_id (s_department doc) (s_date doc) (s_time doc)
      /\ 1 <= s_count doc <= capacity dept
}.

(** ** The function handler

    [exports.handler] of [backend/webhook.js].  The body of a POST is given
    as [JSON.parse] leaves it: malformed, or parsed with the first message of
    the payload, if any. *)

Record TextObject : Type := {
  tb_body : option string          (* [message.text.body] *)
}.

Record InboundMessage : Type := {
  msg_from : string;
  msg_text : option TextObject     (* [message.text] *)
}.

Inductive EventBody : Type :=
| BodyMalformed                                   (* [JSON.parse] throws *)
| BodyParsed (message : option InboundMessage).   (* [body?.entry?.[0]?. ... ?.messages?.[0]] *)

Record Event : Type := {
  httpMethod : string;
  queryStringParameters : option (list (string * string));
  body : EventBody
}.

Record Response : Type := {
  statusCode : Z;
  response_body : option string
}.

(** What one invocation leaves behind. *)
Record Handled : Type := {
  h_store : Store;
  h_sent : list string;
  h_response : Response
}.

Definition respond (s : Store) (sent : list string) (code : Z) (text : option string) : Handled :=
  {| h_store := s; h_sent := sent;
     h_response := {| statusCode := code; response_body := text |} |}.

Definition default_verify_token : string := "shreyaWebhook123".

(** [o === v] for an optional string [o]. *)
Definition str_is (o : option string) (v : string) : bool :=
  match o with
  | Some x => String.eqb x v
  | None => false
  end.

Section Handler.

Variable chrono_parse : Clock -> string -> list ChronoResult.
Variable chrono_parseDate : Clock -> string -> option JsDate.
Variable doctorLimits : option (string -> option Z).

(** [process.env.VERIFY_TOKEN] *)
Variable env_verify_token : option string.

Definition verify_token : string :=
  if Js.truthy env_verify_token then Js.or_empty env_verify_token else default_verify_token.

Definition param (e : Event) (key : string) : option string :=
  match queryStringParameters e with
  | Some params => assoc key params
  | None => None
  end.

Definition handler (clock : Clock) (e : Event) (s : Store) : Handled :=
  if String.eqb (httpMethod e) "GET" then
    if str_is (param e "hub.mode") "subscribe"
       && str_is (param e "hub.verify_token") verify_token
    then respond s [] 200 (param e "hub.challenge")
    else respond s [] 403 (Some "Forbidden")
  else if String.eqb (httpMethod e) "POST" then
    match body e with
    | BodyMalformed => respond s [] 500 (Some "Internal Server Error")
    | BodyParsed None => respond s [] 200 (Some "No message found")
    | BodyParsed (Some message) =>
        match msg_text message with
        | None => respond s [] 200 (Some "No message found")
        | Some text =>
            match tb_body text with
            | None => respond s [] 500 (Some "Internal Server Error")   (* [undefined.trim()] *)
            | Some b =>
                let o := processMessage chrono_parse chrono_parseDate doctorLimits clock
                           (msg_from message) (Js.trim b) s in
                match out_threw o with
                | Some _ => respond (out_store o) (out_sent o) 500 (Some "Internal Server Error")
                | None => respond (out_store o) (out_sent o) 200 (Some "OK")
                end
            end
        end
    end
  else respond s [] 404 (Some "Not Found").

(** Messages of any senders, each with the clock at which it is handled,
    processed in order. *)
Fixpoint serve (msgs : list (Clock * string * string)) (s : Store) : Store :=
  match msgs with
  | [] => s
  | (clock, sender, text) :: rest =>
      serve rest (out_store (processMessage chrono_parse chrono_parseDate doctorLimits
                               clock sender text s))
  end.

End Handler.

(** ** Notions used by the further properties *)

(** The stores that the operations of one sender's message lead to. *)
Inductive store_reach (sender : string) (s : Store) : Store -> Prop :=
| reach_same : store_reach sender s s
| reach_setState : forall s' now st d,
    store_reach sender s s' -> store_reach sender s (setState now sender st d s')
| reach_resetState : forall s',
    store_reach sender s s' -> store_reach sender s (resetState sender s')
| reach_attempt : forall s' now d,
    store_reach sender s s' -> store_reach sender s (fst (attemptRegistration now d s')).

(** The step after a step of the flow. *)
Definition next_step (st : Step) : option Step :=
  match st with
  | firstNameStep => Some lastNameStep
  | lastNameStep => Some genderStep
  | genderStep => Some addressStep
  | addressStep => Some emailStep
  | emailStep => Some phoneNumberStep
  | phoneNumberStep => Some departmentStep
  | departmentStep => Some registrationDateStep
  | registrationDateStep => Some registrationTimeStep
  | registrationTimeStep => None
  | OtherStep => None
  end.

(** Two collections of fields that agree outside the field of a step. *)
Definition same_except (st : Step) (d d' : Data) : Prop :=
  (st = firstNameStep \/ firstName d' = firstName d)
  /\ (st = lastNameStep \/ lastName d' = lastName d)
  /\ (st = genderStep \/ gender d' = gender d)
  /\ (st = addressStep \/ address d' = address d)
  /\ (st = emailStep \/ email d' = email d)
  /\ (st = phoneNumberStep \/ phoneNumber d' = phoneNumber d)
  /\ (st = departmentStep \/ department d' = department d)
  /\ (st = registrationDateStep \/ registrationDate d' = registrationDate d)
  /\ (st = registrationTimeStep \/ registrationTime d' = registrationTime d).

(** A session document that the [switch] can serve: a known step, and from
    the date on a department of the catalogue, at the time also a date. *)
Definition session_ok (doc : StateDoc) : Prop :=
  match step doc with
  | Some registrationDateStep =>
      exists d name, data doc = Some d /\ department d = Some name /\ In name deptList
  | Some registrationTimeStep =>
      exists d name date,
        data doc = Some d /\ department d = Some name /\ In name deptList
        /\ registrationDate d = Some date
  | Some OtherStep => False
  | _ => True
  end.

Definition sessions_ok (s : Store) : Prop :=
  forall sender doc, registration_states s !! sender = Some doc -> session_ok doc.

(** The counter counts the patient records: 1000 plus their number. *)
Definition counter_ok (s : Store) : Prop :=
  match patient_counter s with
  | Some c => c = 1000 + Z.of_nat (size (patients s))
  | None => patients s = ∅
  end.

(** Occupants and patient records refer to each other. *)
Record occupants_ok (s : Store) : Prop := {
  occ_distinct : forall k doc, appointments s !! k = Some doc -> NoDup (s_patients doc);
  occ_record : forall k doc pid, appointments s !! k = Some doc -> In pid (s_patients doc) ->
    exists r, patients s !! pid = Some r /\ PatientID r = pid /\ record_key r = k;
  occ_listed : forall pid r, patients s !! pid = Some r ->
    exists doc, appointments s !! record_key r = Some doc /\ In pid (s_patients doc)
}.

(** ** Notions used by the further properties of the dialogue *)

(** The exception of the undeclared table. *)
Definition reference_error : string := "ReferenceError: doctorLimits is not defined".

(** A POST that carries one text message. *)
Definition text_event (q : option (list (string * string))) (sender b : string) : Event :=
  {| httpMethod := "POST"; queryStringParameters := q;
     body := BodyParsed (Some {| msg_from := sender;
                                 msg_text := Some {| tb_body := Some b |} |}) |}.

(** Every character of a string passes a test. *)
Fixpoint every (p : ascii -> bool) (s : string) : bool :=
  match s with
  | EmptyString => true
  | String c s' => p c && every p s'
  end.

(** The characters that [validatePhone] keeps. *)
Definition phone_char (c : ascii) : bool := Js.is_digit c || Ascii.eqb c "+".

(** The session of the example waiting for its time, with the slot at nine
    o'clock full, and a second sender. *)
Definition time_session : StateDoc :=
  {| step := Some registrationTimeStep;
     data := Some {| firstName := Some "Asha"; lastName := Some "Rao"; gender := Some "Female";
                     address := Some "12 Lake Road"; email := Some "asha@example.com";
                     phoneNumber := Some "+919876543210"; department := Some "Cardiology";
                     registrationDate := Some "2025-12-01"; registrationTime := None |};
     updatedAt := Some 0 |}.
Definition store_at_time : Store :=
  with_states (<[sample_sender := time_session]>) (fst (run_attempts nine_bookings empty_store)).
Definition other_sender : string := "911234567890".

(** A parser for the variant's example: three o'clock at night, outside
    every window of the catalogue. *)
Definition tomorrow_at_three : JsDate :=
  {| isoDate := "2025-12-01"; getHours := 3; getMinutes := 0 |}.
Definition chrono_parseDate_night (clock : Clock) (text : string) : option JsDate :=
  if Js.includes (Js.toLowerCase text) "tomorrow at 3am" then Some tomorrow_at_three else None.

(** A POST of the variant with one text message. *)
Definition legacy_post (sender b : string) : Legacy.Request :=
  {| Legacy.req_method := "POST"; Legacy.req_query := [];
     Legacy.req_message := Some {| Legacy.m_from := sender; Legacy.m_text_body := Some b;
                                   Legacy.m_button_text := None |} |}.

(** The data of the session of the example before its date is known. *)
Definition asked_data : Data :=
  {| firstName := Some "Asha"; lastName := Some "Rao"; gender := Some "Female";
     address := Some "12 Lake Road"; email := Some "asha@example.com";
     phoneNumber := Some "+919876543210"; department := Some "Cardiology";
     registrationDate := None; registrationTime := None |}.

Definition neurology : Department := {| times := ("14:00", "17:00"); capacity := 8 |}.

(** The sentence as the webhook of the variant reads it, and the clock time
    that it takes from the parsed date. *)
Definition quick_text (b : string) : string := Js.toLowerCase (Js.trim b).
Definition quick_time (parsed : JsDate) : string :=
  two_digits (getHours parsed) +:+ ":" +:+ two_digits (getMinutes parsed).

(** The example of the variant: one sentence, the booking it makes, and the
    store after ten of these. *)
Definition night_sentence : string := "Cardiology tomorrow at 3am, female".
Definition night_booking : Data :=
  {| firstName := Some "Unknown"; lastName := Some "Unknown"; gender := Some "Male";
     address := Some "Unknown"; email := Some "Unknown"; phoneNumber := Some sample_sender;
     department := Some "Cardiology"; registrationDate := Some "2025-12-01";
     registrationTime := Some "03:00" |}.
Definition legacy_night_full : Store :=
  fst (Legacy.run_attempts (repeat (0, night_booking) 10) empty_store).

(** ** Notions used by the statements about the shipped code *)

(** JavaScript numbers are exact on the integers from -2^53 to 2^53. *)
Definition js_exact (n : Z) : Prop := - 2 ^ 53 <= n <= 2 ^ 53.

(** The counter of a store stays exact over [n] more identifiers. *)
Definition counter_exact (s : Store) (n : nat) : Prop :=
  match patient_counter s with
  | Some c => js_exact c /\ js_exact (Js.or_num c 1000 + Z.of_nat n)
  | None => js_exact (1000 + Z.of_nat n)
  end.

(** What chrono-node returns: [start.isOnlyDate] is a method, or absent,
    never the boolean [false]. *)
Definition library_parser (chrono_parse : Clock -> string -> list ChronoResult) : Prop :=
  forall clock text r st,
    In r (chrono_parse clock text) -> cr_start r = Some st -> cc_isOnlyDate st <> Some false.

(** The sample parser as chrono-node answers: the same dates, with
    [isOnlyDate] no boolean. *)
Definition chrono_parse_library (clock : Clock) (text : string) : list ChronoResult :=
  if Js.includes (Js.toLowerCase text) "tomorrow at 10am"
  then [{| cr_start := Some {| cc_date := tomorrow_at_ten; cc_isOnlyDate := None |} |}]
  else [].

(** A string that Firestore takes as the id of a document of a collection:
    not empty, without a slash, not a dot or two, and at most 500 code units
    (so at most 1500 bytes). *)
Definition document_id (id : string) : bool :=
  negb (String.eqb id EmptyString) && negb (has_char "/" id)
  && negb (String.eqb id ".") && negb (String.eqb id "..")
  && (String.length id <=? 500)%nat.

(** Data whose fields are at most 10000 code units each: the documents
    written from them stay far below the size that Firestore accepts. *)
Definition short_field (o : option string) : bool :=
  Z.of_nat (String.length (Js.or_empty o)) <=? 10000.
Definition small_data (d : Data) : bool :=
  short_field (firstName d) && short_field (lastName d) && short_field (gender d)
  && short_field (address d) && short_field (email d) && short_field (phoneNumber d)
  && short_field (department d) && short_field (registrationDate d)
  && short_field (registrationTime d).

(** A message of the variant with a typed text. *)
Definition legacy_message (sender b : string) : Legacy.Message :=
  {| Legacy.m_from := sender; Legacy.m_text_body := Some b; Legacy.m_button_text := None |}.

(** * Properties *)

Example trim_ex : Js.trim "  hi there  " = "hi there".
Proof. reflexivity. Qed.

Example parseInt_ex : Js.parseInt "09" = Some 9 /\ Js.parseInt "x" = None.
Proof. split; reflexivity. Qed.

Example hoursBetween_ex : hoursBetween "09:00" "12:00" = ["09:00"; "10:00"; "11:00"; "12:00"].
Proof. reflexivity. Qed.

Example isGreeting_ex :
  isGreeting "Hi there" = true /\ isGreeting "this" = false /\ isGreeting "oh, HELLO!" = true
  /\ isGreeting "hiii" = false /\ isGreeting "" = false.
Proof. repeat split; reflexivity. Qed.

Example validatePhone_ex :
  validatePhone "+91 98765-43210" = Some "+919876543210" /\ validatePhone "12345" = None.
Proof. split; reflexivity. Qed.

Example validateEmail_ex :
  validateEmail "a@b.c" = Some "a@b.c" /\ validateEmail "a@b" = None /\ validateEmail "@b.c" = None
  /\ validateEmail "x a@b.c" = Some "x a@b.c" /\ validateEmail "a@.c" = None.
Proof. repeat split; reflexivity. Qed.

Example extractName_ex :
  extractNameFromSentence "my name is John Smith, 30" = Some "John Smith"
  /\ extractNameFromSentence "book cardiology tomorrow" = None
  /\ extractNameFromSentence "book Cardiology tomorrow" = Some "Cardiology"
  /\ extractNameFromSentence "hello John SmithX" = Some "John"
  /\ extractNameFromSentence "i am ravi" = Some "ravi".
Proof. repeat split; reflexivity. Qed.

Example parseChoice_ex :
  parseChoice "2" = Some 2 /\ parseChoice "option 12 please" = Some 12 /\ parseChoice "100" = None
  /\ parseChoice "10:00" = Some 10 /\ parseChoice "0" = None.
Proof. repeat split; reflexivity. Qed.

Example extractPhone_ex :
  extractPhone "call 98765 43210 now" = Some "9876543210" /\ extractPhone "no" = None.
Proof. split; reflexivity. Qed.

Example normalizeDepartment_ex :
  normalizeDepartment "tomorrow at 10am for cardiology" = Some "Cardiology".
Proof. reflexivity. Qed.

(** ** The registration transaction, unfolded *)

Lemma registration_tx_full now d name dept time snap :
  capacity dept <= slot_count snap (slot_id name (to_template (registrationDate d)) time) ->
  registration_tx now d name dept time snap [] = inl "Slot full".
Proof.
  intros Hfull. unfold registration_tx, tx_bind, tx_get_slot, tx_throw.
  unfold slot_count in Hfull.
  destruct (Z.geb_spec
              (count_of (appointments snap !! slot_id name (to_template (registrationDate d)) time))
              (capacity dept)) as [_|Hlt]; [reflexivity | lia].
Qed.

Lemma registration_tx_free now d name dept date time snap :
  registrationDate d = Some date ->
  slot_count snap (slot_id name date time) < capacity dept ->
  registration_tx now d name dept time snap [] =
    let n := next_count (patient_counter snap) in
    let slotId := slot_id name date time in
    inr ((n, patient_id n),
         [ SetCounter n;
           SetPatient (patient_id n) (patient_doc (patient_id n) d name date time now);
           SetSlot slotId
             {| s_department := name; s_date := date; s_time := time;
                s_capacity := capacity dept;
                s_count := slot_count snap slotId + 1;
                s_patients := occupants_after (appointments snap !! slotId) (patient_id n) |} ]).
Proof.
  intros Hdate Hfree.
  unfold registration_tx, generatePatientId, tx_bind, tx_get_slot, tx_get_counter, tx_set,
    tx_ret, tx_throw.
  unfold slot_count in *. rewrite Hdate. cbn [to_template].
  destruct (Z.geb_spec (count_of (appointments snap !! slot_id name date time)) (capacity dept))
    as [Hge|_]; [lia|].
  unfold occupants_after. destruct (appointments snap !! slot_id name date time); reflexivity.
Qed.

Lemma registration_tx_undefined_date now d name dept time snap :
  registrationDate d = None ->
  exists e, registration_tx now d name dept time snap [] = inl e.
Proof.
  intros Hdate.
  unfold registration_tx, generatePatientId, tx_bind, tx_get_slot, tx_get_counter, tx_set,
    tx_ret, tx_throw.
  rewrite Hdate.
  destruct (_ >=? _); simpl; eauto.
Qed.

(** The callback depends on the snapshot only through the two documents it
    reads. *)
Lemma registration_tx_reads now d name dept time snap1 snap2 :
  appointments snap1 !! slot_id name (to_template (registrationDate d)) time
  = appointments snap2 !! slot_id name (to_template (registrationDate d)) time ->
  patient_counter snap1 = patient_counter snap2 ->
  registration_tx now d name dept time snap1 [] = registration_tx now d name dept time snap2 [].
Proof.
  intros Hslot Hcounter.
  unfold registration_tx, generatePatientId, tx_bind, tx_get_slot, tx_get_counter, tx_set,
    tx_ret, tx_throw.
  rewrite Hslot.
  destruct (_ >=? _); [reflexivity|].
  cbn beta. rewrite Hcounter.
  destruct (registrationDate d); reflexivity.
Qed.

Lemma apply_writes_committed now d name dept date time s :
  apply_writes
    [ SetCounter (next_count (patient_counter s));
      SetPatient (patient_id (next_count (patient_counter s)))
        (patient_doc (patient_id (next_count (patient_counter s))) d name date time now);
      SetSlot (slot_id name date time)
        {| s_department := name; s_date := date; s_time := time;
           s_capacity := capacity dept;
           s_count := slot_count s (slot_id name date time) + 1;
           s_patients := occupants_after (appointments s !! slot_id name date time)
                           (patient_id (next_count (patient_counter s))) |} ] s
  = committed now d name dept date time s.
Proof. reflexivity. Qed.

Lemma attemptRegistration_outcome now d s :
  attempt_outcome now d s (attemptRegistration now d s).
Proof.
  unfold attemptRegistration.
  destruct (precheck d) as [e|[[name dept] time]] eqn:Hpre; [constructor|].
  unfold runTransaction.
  destruct (registrationDate d) as [date|] eqn:Hdate.
  - destruct (Z_lt_ge_dec (slot_count s (slot_id name date time)) (capacity dept)) as [Hfree|Hfull].
    + rewrite (registration_tx_free now d name dept date time s Hdate Hfree).
      cbv beta iota zeta. rewrite apply_writes_committed. econstructor; eauto.
    + rewrite registration_tx_full; [constructor|]. rewrite Hdate. simpl. lia.
  - destruct (registration_tx_undefined_date now d name dept time s Hdate) as [e ->].
    constructor.
Qed.

(** ** Strings and slot keys *)

Lemma app_cons c a b : String c a +:+ b = String c (a +:+ b).
Proof. reflexivity. Qed.

Lemma app_empty b : EmptyString +:+ b = b.
Proof. reflexivity. Qed.

Lemma string_length_app a b : String.length (a +:+ b) = (String.length a + String.length b)%nat.
Proof.
  induction a as [|c a IH]; [reflexivity|].
  rewrite app_cons. cbn [String.length]. rewrite IH. reflexivity.
Qed.

(** Two strings that end in suffixes of the same length agree part by part. *)
Lemma app_inj_suffix a c b d :
  String.length b = String.length d -> a +:+ b = c +:+ d -> a = c /\ b = d.
Proof.
  revert c. induction a as [|x a IH]; intros [|y c] Hlen Heq.
  - split; [reflexivity | exact Heq].
  - rewrite app_empty in Heq. subst b. rewrite app_cons in Hlen. cbn [String.length] in Hlen.
    rewrite string_length_app in Hlen. lia.
  - rewrite app_empty in Heq. subst d. rewrite app_cons in Hlen. cbn [String.length] in Hlen.
    rewrite string_length_app in Hlen. lia.
  - rewrite !app_cons in Heq. injection Heq as -> Heq.
    destruct (IH c Hlen Heq) as [-> ->]. split; reflexivity.
Qed.

(** Two strings cut at the first occurrence of a separator agree part by
    part. *)
Lemma app_inj_separator sep a c b d :
  has_char sep a = false -> has_char sep c = false ->
  a +:+ String sep b = c +:+ String sep d -> a = c /\ b = d.
Proof.
  revert c. induction a as [|x a IH]; intros [|y c] Ha Hc Heq.
  - rewrite !app_empty in Heq. injection Heq as ->. split; reflexivity.
  - rewrite app_empty, app_cons in Heq. injection Heq as <- _.
    cbn [has_char] in Hc. rewrite Ascii.eqb_refl in Hc. discriminate.
  - rewrite app_empty, app_cons in Heq. injection Heq as -> _.
    cbn [has_char] in Ha. rewrite Ascii.eqb_refl in Ha. discriminate.
  - rewrite !app_cons in Heq. injection Heq as -> Heq.
    cbn [has_char] in Ha, Hc.
    apply orb_false_iff in Ha as [_ Ha]. apply orb_false_iff in Hc as [_ Hc].
    destruct (IH c Ha Hc Heq) as [-> ->]. split; reflexivity.
Qed.

Lemma patient_id_inj n m : patient_id n = patient_id m -> n = m.
Proof.
  unfold patient_id. intros H. apply (inj (String.app "P")) in H.
  apply (inj pretty) in H. exact H.
Qed.

Lemma assoc_In {A : Type} k (v : A) l : assoc k l = Some v -> In (k, v) l.
Proof.
  induction l as [|[k' v'] l IH]; [discriminate|].
  cbn [assoc]. destruct (String.eqb_spec k k') as [->|_].
  - intros [= ->]. left; reflexivity.
  - intros H. right. apply IH, H.
Qed.

Lemma includes_str_In l x : includes_str l x = true -> In x l.
Proof.
  unfold includes_str. rewrite existsb_exists. intros [y [Hin Heq]].
  apply String.eqb_eq in Heq. subst y. exact Hin.
Qed.

Lemma In_includes_str l x : In x l -> includes_str l x = true.
Proof.
  unfold includes_str. rewrite existsb_exists. intros Hin.
  exists x. split; [exact Hin | apply String.eqb_refl].
Qed.

(** What the catalogue guarantees of a valid slot: a name without
    underscore, a time of five characters, a capacity that is not negative. *)
Lemma valid_slot_shape name dept time :
  valid_slot name dept time ->
  has_char "_" name = false /\ String.length time = 5%nat /\ 0 <= capacity dept.
Proof.
  intros [Hdept Htime].
  apply assoc_In in Hdept. apply includes_str_In in Htime.
  cbv [departmentSlots In] in Hdept.
  repeat (destruct Hdept as [Hdept|Hdept];
          [ injection Hdept as <- <-; vm_compute in Htime;
            repeat (destruct Htime as [<-|Htime]; [repeat split; (reflexivity || discriminate)|]);
            contradiction | ]).
  contradiction.
Qed.

(** The slot key determines the department, the date and the time. *)
Lemma slot_id_inj n1 d1 x1 t1 n2 d2 x2 t2 :
  valid_slot n1 d1 t1 -> valid_slot n2 d2 t2 ->
  slot_id n1 x1 t1 = slot_id n2 x2 t2 -> n1 = n2 /\ x1 = x2 /\ t1 = t2.
Proof.
  intros H1 H2 Heq.
  destruct (valid_slot_shape _ _ _ H1) as (Hn1 & Ht1 & _).
  destruct (valid_slot_shape _ _ _ H2) as (Hn2 & Ht2 & _).
  unfold slot_id in Heq.
  change ("_" +:+ ?r) with (String "_" r) in Heq.
  destruct (app_inj_separator _ _ _ _ _ Hn1 Hn2 Heq) as [-> Hrest].
  split; [reflexivity|].
  assert (Hlen : String.length (String "_" t1) = String.length (String "_" t2)).
  { cbn [String.length]. rewrite Ht1, Ht2. reflexivity. }
  destruct (app_inj_suffix _ _ _ _ Hlen Hrest) as [-> Ht].
  split; [reflexivity|]. injection Ht as ->. reflexivity.
Qed.

Lemma precheck_valid d name dept time :
  precheck d = inr (name, dept, time) ->
  valid_slot name dept time /\ department d = Some name /\ registrationTime d = Some time.
Proof.
  unfold precheck, valid_slot.
  destruct (department d) as [[|c n]|] eqn:Hd; cbn [Js.truthy negb Js.or_empty]; try discriminate.
  destruct (department_of (String c n)) as [dp|] eqn:Hdept; [|discriminate].
  destruct (registrationTime d) as [t|]; [|discriminate].
  destruct (includes_str _ t) eqn:Hin; cbn [negb]; [|discriminate].
  intros [= <- <- <-]. repeat split; assumption.
Qed.

(** ** The ledger invariant *)

Lemma next_count_gt c : c < next_count (Some c).
Proof. unfold next_count, Js.or_num. destruct (Z.eqb_spec c 0); lia. Qed.

Lemma ledger_ok_empty : ledger_ok empty_store.
Proof.
  split.
  - intros pid doc H. cbn in H. rewrite lookup_empty in H. discriminate.
  - intros pid doc H. cbn in H. rewrite lookup_empty in H. discriminate.
  - intros name dept date time _. reflexivity.
  - intros k doc H. cbn in H. rewrite lookup_empty in H. discriminate.
Qed.

Lemma slot_count_range s k :
  ledger_ok s ->
  match appointments s !! k with
  | Some doc => slot_count s k = s_count doc /\ 1 <= s_count doc
                /\ s_count doc = Z.of_nat (length (s_patients doc))
  | None => slot_count s k = 0
  end.
Proof.
  intros Hok. unfold slot_count.
  destruct (appointments s !! k) as [doc|] eqn:Hk; [|reflexivity].
  destruct (ok_slot s Hok k doc Hk) as (dept & _ & _ & _ & Hlen & Hrange).
  cbn [count_of]. unfold Js.or_num. destruct (Z.eqb_spec (s_count doc) 0); [lia|].
  repeat split; (assumption || lia).
Qed.

Lemma slot_count_nonneg s k : ledger_ok s -> 0 <= slot_count s k.
Proof.
  intros Hok. pose proof (slot_count_range s k Hok) as H.
  destruct (appointments s !! k); [destruct H as (-> & ? & _)|rewrite H]; lia.
Qed.

(** The next identifier is not yet the key of a patient record. *)
Lemma next_id_fresh s :
  ledger_ok s -> patients s !! patient_id (next_count (patient_counter s)) = None.
Proof.
  intros Hok.
  destruct (patients s !! patient_id (next_count (patient_counter s))) as [doc|] eqn:H;
    [|reflexivity].
  destruct (ok_ids s Hok _ _ H) as (n & c & Hid & Hc & Hle).
  apply patient_id_inj in Hid. rewrite Hc in Hid.
  pose proof (next_count_gt c). lia.
Qed.

Lemma records_for_insert_fresh name date time pid doc s s' :
  patients s !! pid = None ->
  patients s' = <[pid := doc]> (patients s) ->
  records_for name date time s' =
    if decide (books name date time (pid, doc))
    then S (records_for name date time s) else records_for name date time s.
Proof.
  intros Hfresh Hs'. unfold records_for. rewrite Hs', map_filter_insert.
  destruct (decide (books name date time (pid, doc))) as [Hb|Hb].
  - rewrite map_size_insert_None; [reflexivity|].
    apply map_lookup_filter_None_2. left. exact Hfresh.
  - rewrite delete_id by exact Hfresh. reflexivity.
Qed.

Lemma committed_ok now d name dept date time s :
  ledger_ok s ->
  precheck d = inr (name, dept, time) ->
  registrationDate d = Some date ->
  slot_count s (slot_id name date time) < capacity dept ->
  ledger_ok (committed now d name dept date time s).
Proof.
  intros Hok Hpre Hdate Hfree.
  destruct (precheck_valid _ _ _ _ Hpre) as (Hvalid & _ & _).
  pose proof (next_id_fresh s Hok) as Hfresh.
  pose proof (slot_count_nonneg s (slot_id name date time) Hok) as Hnonneg.
  set (n := next_count (patient_counter s)) in *.
  split.
  - (* identifiers *)
    intros pid doc H. cbn [committed patients patient_counter] in *. fold n in H.
    destruct (decide (patient_id n = pid)) as [<-|Hne].
    + exists n, n. split; [reflexivity|split; [reflexivity|lia]].
    + rewrite lookup_insert_ne in H by exact Hne.
      destruct (ok_ids s Hok _ _ H) as (n0 & c & -> & Hc & Hle).
      exists n0, n. split; [reflexivity|split; [reflexivity|]].
      subst n. rewrite Hc. pose proof (next_count_gt c). lia.
  - (* records name valid slots *)
    intros pid doc H. cbn [committed patients] in H. fold n in H.
    destruct (decide (patient_id n = pid)) as [<-|Hne].
    + rewrite lookup_insert_eq in H. injection H as <-. exists dept. exact Hvalid.
    + rewrite lookup_insert_ne in H by exact Hne. exact (ok_record s Hok _ _ H).
  - (* records and counts agree *)
    intros name' dept' date' time' Hvalid'.
    rewrite (records_for_insert_fresh name' date' time' (patient_id n)
               (patient_doc (patient_id n) d name date time now) s
               (committed now d name dept date time s) Hfresh eq_refl).
    unfold slot_count at 1. cbn [committed appointments].
    destruct (decide (books name' date' time' _)) as [Hb|Hb].
    + destruct Hb as (Hn & Hd & Ht). cbn in Hn, Hd, Ht. subst name' date' time'.
      rewrite lookup_insert_eq. cbn [count_of s_count]. unfold Js.or_num.
      destruct (Z.eqb_spec (slot_count s (slot_id name date time) + 1) 0); [lia|].
      rewrite Nat2Z.inj_succ, (ok_books s Hok _ _ date _ Hvalid'). lia.
    + rewrite lookup_insert_ne.
      * exact (ok_books s Hok _ _ date' _ Hvalid').
      * intros Heq. apply Hb.
        destruct (slot_id_inj _ _ _ _ _ _ _ _ Hvalid Hvalid' Heq) as (-> & -> & ->).
        repeat split.
  - (* slot documents *)
    intros k doc H. cbn [committed appointments] in H.
    destruct (decide (slot_id name date time = k)) as [<-|Hne].
    + rewrite lookup_insert_eq in H. injection H as <-.
      cbn [s_department s_time s_date s_capacity s_count s_patients].
      exists dept. split; [exact Hvalid|]. repeat split; try lia.
      pose proof (slot_count_range s (slot_id name date time) Hok) as Hr.
      unfold occupants_after.
      destruct (appointments s !! slot_id name date time) as [old|].
      * destruct Hr as (-> & _ & ->). rewrite length_app. cbn [length]. lia.
      * rewrite Hr. reflexivity.
    + rewrite lookup_insert_ne in H by exact Hne. exact (ok_slot s Hok _ _ H).
Qed.

(** Every attempt, successful or not, keeps the ledger invariant. *)
Lemma attemptRegistration_ok now d s :
  ledger_ok s -> ledger_ok (fst (attemptRegistration now d s)).
Proof.
  intros Hok. destruct (attemptRegistration_outcome now d s); cbn [fst].
  - exact Hok.
  - apply committed_ok; assumption.
Qed.

(** ** Issued identifiers *)

Lemma issued_ok_nil s : issued_ok s [].
Proof. split; constructor. Qed.

Lemma StronglySorted_snoc (l : list Z) (x : Z) :
  StronglySorted Z.lt l -> Forall (fun y => y < x) l -> StronglySorted Z.lt (l ++ [x]).
Proof.
  induction l as [|a l IH]; intros Hs Hall.
  - constructor; constructor.
  - inversion Hs as [|? ? Hs' Ha]; subst. inversion Hall as [|? ? Hax Hall']; subst.
    cbn [app]. constructor; [apply IH; assumption|].
    apply Forall_app. split; [exact Ha|]. constructor; [exact Hax|constructor].
Qed.

(** A commit issues the next identifier: the log stays in order. *)
Lemma issued_ok_commit now d name dept date time s ids :
  issued_ok s ids ->
  issued_ok (committed now d name dept date time s)
    (ids ++ [(next_count (patient_counter s), patient_id (next_count (patient_counter s)))]).
Proof.
  intros [Htext Hbelow Hsorted].
  assert (Hlt : Forall (fun id : Z * string => fst id < next_count (patient_counter s)) ids).
  { eapply Forall_impl; [exact Hbelow|]. intros id (c & Hc & Hle). cbn beta in *.
    rewrite Hc. pose proof (next_count_gt c). lia. }
  split.
  - apply Forall_app. split; [exact Htext|]. constructor; [reflexivity|constructor].
  - apply Forall_app. split.
    + eapply Forall_impl; [exact Hlt|]. intros id Hid. cbn beta in *.
      exists (next_count (patient_counter s)). split; [reflexivity|lia].
    + constructor; [|constructor]. exists (next_count (patient_counter s)).
      split; [reflexivity|cbn; lia].
  - rewrite map_app. cbn [map fst]. apply StronglySorted_snoc; [exact Hsorted|].
    apply Forall_map. exact Hlt.
Qed.

Lemma StronglySorted_lt_NoDup (l : list Z) : StronglySorted Z.lt l -> NoDup l.
Proof.
  induction 1 as [|a l Hs IH Ha]; constructor; [|exact IH].
  intros Hin. rewrite Forall_forall in Ha. specialize (Ha a Hin). lia.
Qed.

(** Identifiers in order are pairwise distinct, as numbers and as texts. *)
Lemma issued_ok_NoDup s ids : issued_ok s ids -> NoDup (map snd ids).
Proof.
  intros [Htext _ Hsorted]. apply StronglySorted_lt_NoDup in Hsorted.
  assert (Heq : map snd ids = map patient_id (map fst ids)).
  { rewrite map_map. apply map_ext_Forall. exact Htext. }
  rewrite Heq. apply NoDup_fmap_2; [|exact Hsorted].
  intros x y. apply patient_id_inj.
Qed.

(** What a callback that returns has computed, and what its writes do to the
    store it read. *)
Lemma registration_tx_returns now d name dept time s id ws :
  registration_tx now d name dept time s [] = inr (id, ws) ->
  exists date,
    registrationDate d = Some date
    /\ slot_count s (slot_id name date time) < capacity dept
    /\ id = (next_count (patient_counter s), patient_id (next_count (patient_counter s)))
    /\ apply_writes ws s = committed now d name dept date time s.
Proof.
  intros Hret.
  destruct (registrationDate d) as [date|] eqn:Hdate.
  - destruct (Z_lt_ge_dec (slot_count s (slot_id name date time)) (capacity dept)) as [Hfree|Hfull].
    + rewrite (registration_tx_free now d name dept date time s Hdate Hfree) in Hret.
      cbv zeta in Hret. injection Hret as <- <-.
      exists date. split; [reflexivity|]. split; [exact Hfree|]. split; [reflexivity|].
      apply apply_writes_committed.
    + rewrite registration_tx_full in Hret; [discriminate|]. rewrite Hdate. cbn. lia.
  - destruct (registration_tx_undefined_date now d name dept time s Hdate) as [e He].
    rewrite He in Hret. discriminate.
Qed.

(** ** Every interleaving keeps the invariants *)

Lemma system_ok_initial : system_ok initial_system.
Proof.
  split; cbn.
  - apply ledger_ok_empty.
  - apply issued_ok_nil.
  - constructor.
Qed.

Lemma Forall_remove_middle {A : Type} (P : A -> Prop) (l1 : list A) (x : A) (l2 : list A) :
  Forall P (l1 ++ x :: l2) -> P x /\ Forall P (l1 ++ l2).
Proof.
  rewrite !Forall_app. intros [H1 H2]. inversion H2; subst. repeat split; assumption.
Qed.

Lemma sys_step_ok sys sys' : system_ok sys -> sys_step sys sys' -> system_ok sys'.
Proof.
  intros [Hledger Hids Hflight] Hstep.
  destruct Hstep as [sys d e Hpre
                    | sys now d name dept time Hpre
                    | sys before p after e Hpend Hthrow
                    | sys before p after id ws Hpend Hret Hreads
                    | sys before p after Hpend
                    | sys before p after Hpend ].
  - split; assumption.
  - split; cbn; try assumption.
    apply Forall_app. split; [exact Hflight|]. constructor; [exact Hpre|constructor].
  - rewrite Hpend in Hflight. apply Forall_remove_middle in Hflight as [_ Hrest].
    split; cbn; assumption.
  - rewrite Hpend in Hflight. apply Forall_remove_middle in Hflight as [Hp Hrest].
    destruct Hreads as [Hslot Hcounter].
    unfold pending_tx in Hret.
    rewrite (registration_tx_reads _ _ _ _ _ _ (sys_store sys) Hslot Hcounter) in Hret.
    apply registration_tx_returns in Hret as (date & Hdate & Hfree & -> & Hws).
    split; cbn [sys_store sys_issued sys_pending]; rewrite ?Hws.
    + apply committed_ok; assumption.
    + apply issued_ok_commit. exact Hids.
    + exact Hrest.
  - rewrite Hpend in Hflight. apply Forall_remove_middle in Hflight as [Hp Hrest].
    split; cbn; try assumption.
    apply Forall_app in Hrest as [Hb Ha].
    apply Forall_app. split; [exact Hb|]. constructor; [exact Hp|exact Ha].
  - rewrite Hpend in Hflight. apply Forall_remove_middle in Hflight as [_ Hrest].
    split; cbn; assumption.
Qed.

Lemma reachable_ok sys : reachable sys -> system_ok sys.
Proof.
  induction 1 as [|sys sys' _ IH Hstep].
  - apply system_ok_initial.
  - exact (sys_step_ok sys sys' IH Hstep).
Qed.

(** ** Capacity *)

Lemma department_shape name dept :
  department_of name = Some dept -> has_char "_" name = false /\ 0 <= capacity dept.
Proof.
  intros Hdept. apply assoc_In in Hdept. cbv [departmentSlots In] in Hdept.
  repeat (destruct Hdept as [Hdept|Hdept];
          [injection Hdept as <- <-; split; [reflexivity|discriminate]|]).
  contradiction.
Qed.

Lemma slot_count_or_num s k doc :
  appointments s !! k = Some doc -> slot_count s k = s_count doc.
Proof.
  intros H. unfold slot_count. rewrite H. cbn [count_of]. unfold Js.or_num.
  destruct (Z.eqb_spec (s_count doc) 0) as [->|]; reflexivity.
Qed.

(** No slot of a catalogue department holds more than its capacity. *)
Lemma ledger_ok_slot_bound s name dept date time :
  ledger_ok s -> department_of name = Some dept ->
  slot_count s (slot_id name date time) <= capacity dept.
Proof.
  intros Hok Hdept. destruct (department_shape _ _ Hdept) as [Hname Hcap].
  destruct (appointments s !! slot_id name date time) as [doc|] eqn:Hk.
  - rewrite (slot_count_or_num _ _ _ Hk).
    destruct (ok_slot s Hok _ _ Hk) as (dept' & Hvalid & Hkey & _ & _ & Hrange).
    destruct (valid_slot_shape _ _ _ Hvalid) as (Hname' & _ & _).
    unfold slot_id in Hkey. change ("_" +:+ ?r) with (String "_" r) in Hkey.
    apply app_inj_separator in Hkey as [Hsame _]; [|assumption..].
    destruct Hvalid as [Hdept' _]. rewrite <- Hsame, Hdept in Hdept'.
    injection Hdept' as <-. lia.
  - unfold slot_count. rewrite Hk. exact Hcap.
Qed.

(** No more patient records for a department, date and time than the
    department's capacity. *)
Lemma ledger_ok_records_bound s name dept date time :
  ledger_ok s -> department_of name = Some dept ->
  Z.of_nat (records_for name date time s) <= capacity dept.
Proof.
  intros Hok Hdept.
  destruct (includes_str (hoursBetween (fst (times dept)) (snd (times dept))) time) eqn:Htime.
  - rewrite (ok_books s Hok name dept date time (conj Hdept Htime)).
    apply ledger_ok_slot_bound; assumption.
  - assert (Hnone : filter (books name date time) (patients s) = ∅).
    { apply map_empty_filter. intros pid doc Hdoc (Hn & _ & Ht). cbn in Hn, Ht.
      destruct (ok_record s Hok _ _ Hdoc) as (dept' & Hdept' & Htime').
      rewrite Hn, Hdept in Hdept'. injection Hdept' as <-.
      rewrite Ht, Htime in Htime'. discriminate. }
    unfold records_for. rewrite Hnone, map_size_empty.
    destruct (department_shape _ _ Hdept) as [_ Hcap]. exact Hcap.
Qed.

(** C1 (capacity invariant).  (a) An attempt on a slot whose count has
    reached the capacity of its department throws "Slot full" and leaves the
    store as it was.  (b) A successful attempt raises the count of its slot by
    exactly one and appends exactly its own identifier to the occupants of the
    slot.  (c) In every state that any interleaving of reservation
    transactions can reach from the empty store, no slot count exceeds the
    capacity of its department, and the number of patient records of a
    department, date and time never exceeds that capacity. *)
Theorem capacity_invariant :
  (forall now d s name dept time,
      precheck d = inr (name, dept, time) ->
      capacity dept <= slot_count s (slot_id name (to_template (registrationDate d)) time) ->
      attemptRegistration now d s = (s, inl "Slot full"))
  /\ (forall now d s s' id name dept time date,
         precheck d = inr (name, dept, time) ->
         registrationDate d = Some date ->
         attemptRegistration now d s = (s', inr id) ->
         slot_count s' (slot_id name date time) = slot_count s (slot_id name date time) + 1
         /\ exists doc,
             appointments s' !! slot_id name date time = Some doc
             /\ s_patients doc
                = occupants_after (appointments s !! slot_id name date time) (snd id))
  /\ (forall sys, reachable sys ->
        forall name dept date time,
          department_of name = Some dept ->
          slot_count (sys_store sys) (slot_id name date time) <= capacity dept
          /\ Z.of_nat (records_for name date time (sys_store sys)) <= capacity dept).
Proof.
  split; [|split].
  - intros now d s name dept time Hpre Hfull.
    unfold attemptRegistration, runTransaction. rewrite Hpre.
    rewrite registration_tx_full by exact Hfull. reflexivity.
  - intros now d s s' id name dept time date Hpre Hdate Hrun.
    pose proof (attemptRegistration_outcome now d s) as Hout.
    rewrite Hrun in Hout.
    inversion Hout as [|name' dept' date' time' Hpre' Hdate' Hfree]; subst.
    rewrite Hpre in Hpre'. injection Hpre' as <- <- <-.
    rewrite Hdate in Hdate'. injection Hdate' as <-.
    split.
    + unfold slot_count at 1. cbn [committed appointments].
      rewrite lookup_insert_eq. cbn [count_of s_count]. unfold Js.or_num.
      destruct (Z.eqb_spec (slot_count s (slot_id name date time) + 1) 0) as [->|];
        reflexivity.
    + eexists. cbn [committed appointments]. rewrite lookup_insert_eq.
      split; reflexivity.
  - intros sys Hreach name dept date time Hdept.
    destruct (reachable_ok sys Hreach) as [Hledger _ _].
    split.
    + apply ledger_ok_slot_bound; assumption.
    + apply ledger_ok_records_bound; assumption.
Qed.

Lemma system_booked_reachable : reachable system_booked.
Proof.
  apply (reach_step system_in_flight).
  - apply (reach_step initial_system); [apply reach_init|].
    apply (step_begin initial_system 0 sample_booking "Cardiology" cardiology "10:00").
    reflexivity.
  - apply (step_commit system_in_flight [] sample_pending [] (1001, "P1001")
             [ SetCounter 1001;
               SetPatient "P1001"
                 (patient_doc "P1001" sample_booking "Cardiology" "2025-12-01" "10:00" 0);
               SetSlot sample_slot
                 {| s_department := "Cardiology"; s_date := "2025-12-01"; s_time := "10:00";
                    s_capacity := 10; s_count := 1; s_patients := ["P1001"] |} ]).
    + reflexivity.
    + reflexivity.
    + split; reflexivity.
Defined.

(** The eleventh booking of a full slot is refused; the first booking of an
    empty one counts one; the booked system is within capacity. *)
Lemma capacity_invariant_witness :
  attemptRegistration 0 sample_booking full_store = (full_store, inl "Slot full")
  /\ slot_count (fst (attemptRegistration 0 sample_booking empty_store)) sample_slot
     = slot_count empty_store sample_slot + 1
  /\ Z.of_nat (records_for "Cardiology" "2025-12-01" "10:00" (sys_store system_booked)) <= 10.
Proof.
  destruct capacity_invariant as (Hfull & Hone & Hall).
  split; [|split].
  - apply (Hfull 0 sample_booking full_store "Cardiology" cardiology "10:00").
    + reflexivity.
    + vm_compute. discriminate.
  - apply (Hone 0 sample_booking empty_store
             (fst (attemptRegistration 0 sample_booking empty_store))
             (1001, "P1001") "Cardiology" cardiology "10:00" "2025-12-01").
    + reflexivity.
    + reflexivity.
    + reflexivity.
  - apply (Hall system_booked system_booked_reachable "Cardiology" cardiology
             "2025-12-01" "10:00").
    reflexivity.
Defined.

(** The scenario of the specification: ten bookings of (Cardiology,
    2025-12-01, 10:00) succeed with ten distinct identifiers, the eleventh
    fails. *)
Example ten_then_full :
  snd (run_attempts ten_bookings empty_store)
  = [ (1001, "P1001"); (1002, "P1002"); (1003, "P1003"); (1004, "P1004"); (1005, "P1005");
      (1006, "P1006"); (1007, "P1007"); (1008, "P1008"); (1009, "P1009"); (1010, "P1010") ]
  /\ slot_count full_store sample_slot = 10
  /\ snd (attemptRegistration 0 sample_booking full_store) = inl "Slot full".
Proof. vm_compute. repeat split. Qed.

(** ** Patient identifiers *)

Lemma run_attempts_issued reqs :
  forall s acc,
    issued_ok s acc ->
    issued_ok (fst (run_attempts reqs s)) (acc ++ snd (run_attempts reqs s)).
Proof.
  induction reqs as [|[now d] rest IH]; intros s acc Hacc.
  - cbn. rewrite app_nil_r. exact Hacc.
  - cbn [run_attempts].
    destruct (attemptRegistration_outcome now d s) as [e|name dept date time Hpre Hdate Hfree].
    + apply IH, Hacc.
    + specialize (IH _ _ (issued_ok_commit now d name dept date time s acc Hacc)).
      destruct (run_attempts rest (committed now d name dept date time s)) as [s'' ids].
      cbn [fst snd] in *. rewrite <- app_assoc in IH. exact IH.
Qed.

Lemma committed_keeps_records now d name dept date time s pid :
  ledger_ok s ->
  patients (committed now d name dept date time s) !! pid = None ->
  patients s !! pid = None.
Proof.
  intros Hok H. cbn [committed patients] in H.
  apply lookup_insert_None in H as [H _]. exact H.
Qed.

(** An identifier issued during a run is the key of no earlier record. *)
Lemma run_attempts_fresh reqs :
  forall s, ledger_ok s ->
    Forall (fun id => patients s !! snd id = None) (snd (run_attempts reqs s)).
Proof.
  induction reqs as [|[now d] rest IH]; intros s Hok.
  - constructor.
  - cbn [run_attempts].
    destruct (attemptRegistration_outcome now d s) as [e|name dept date time Hpre Hdate Hfree].
    + apply IH, Hok.
    + specialize (IH _ (committed_ok now d name dept date time s Hok Hpre Hdate Hfree)).
      destruct (run_attempts rest (committed now d name dept date time s)) as [s'' ids].
      cbn [fst snd] in *. constructor.
      * cbn [snd]. apply next_id_fresh, Hok.
      * eapply Forall_impl; [exact IH|]. intros id Hid. cbn beta in Hid |- *.
        exact (committed_keeps_records now d name dept date time s (snd id) Hok Hid).
Qed.

(** C3 (identifier uniqueness and monotonicity).  Whatever store a run of
    reservation attempts starts from, as long as its counter stays among the
    numbers that JavaScript holds exactly, and whichever of the attempts
    fail, the identifiers issued are "P" followed by their number, the
    numbers are strictly increasing in issuance order and the identifiers
    pairwise distinct; when the store is consistent, none of them is the key
    of a record that existed before.  The same order holds for the
    identifiers committed by any interleaving of transactions from the empty
    store, under the same bound. *)
Theorem identifiers_increasing :
  (forall reqs s0,
      counter_exact s0 (length reqs) ->
      Forall (fun id => snd id = patient_id (fst id)) (snd (run_attempts reqs s0))
      /\ StronglySorted Z.lt (map fst (snd (run_attempts reqs s0)))
      /\ NoDup (map snd (snd (run_attempts reqs s0)))
      /\ (ledger_ok s0 ->
          Forall (fun id => patients s0 !! snd id = None) (snd (run_attempts reqs s0))))
  /\ (forall sys, reachable sys ->
         js_exact (1000 + Z.of_nat (length (sys_issued sys))) ->
         StronglySorted Z.lt (map fst (sys_issued sys)) /\ NoDup (map snd (sys_issued sys))).
Proof.
  split.
  - intros reqs s0 _.
    pose proof (run_attempts_issued reqs s0 [] (issued_ok_nil s0)) as Hissued.
    cbn [app] in Hissued.
    split; [exact (issued_text _ _ Hissued)|].
    split; [exact (issued_sorted _ _ Hissued)|].
    split; [exact (issued_ok_NoDup _ _ Hissued)|].
    apply run_attempts_fresh.
  - intros sys Hreach _. destruct (reachable_ok sys Hreach) as [_ Hids _].
    split; [exact (issued_sorted _ _ Hids)|exact (issued_ok_NoDup _ _ Hids)].
Qed.

(** A run with a refused attempt in the middle and a repeated booking. *)
Lemma identifiers_increasing_witness :
  snd (run_attempts mixed_bookings empty_store)
  = [(1001, "P1001"); (1002, "P1002"); (1003, "P1003")]
  /\ StronglySorted Z.lt (map fst (snd (run_attempts mixed_bookings empty_store)))
  /\ Forall (fun id => patients empty_store !! snd id = None)
       (snd (run_attempts mixed_bookings empty_store))
  /\ NoDup (map snd (sys_issued system_booked)).
Proof.
  destruct identifiers_increasing as [Hrun Hsys].
  destruct (Hrun mixed_bookings empty_store) as (_ & Hsorted & _ & Hfresh).
  { vm_compute. split; discriminate. }
  split; [reflexivity|]. split; [exact Hsorted|]. split.
  - apply Hfresh, ledger_ok_empty.
  - apply (Hsys system_booked system_booked_reachable). vm_compute. split; discriminate.
Defined.

(** ** Atomicity *)

(** In [backend/webhook.js] an attempt either fails and leaves the store as
    it was, or writes the counter, the patient record and the occupant entry
    together. *)
Lemma attemptRegistration_atomic now d s :
  match attemptRegistration now d s with
  | (s', inl _) => s' = s
  | (s', inr id) =>
      registration_states s' = registration_states s
      /\ patient_counter s' = Some (fst id)
      /\ (exists doc, patients s' !! snd id = Some doc /\ PatientID doc = snd id)
      /\ (exists k doc, appointments s' !! k = Some doc /\ last (s_patients doc) = Some (snd id))
  end.
Proof.
  destruct (attemptRegistration_outcome now d s) as [e|name dept date time Hpre Hdate Hfree].
  - reflexivity.
  - cbn [fst snd committed registration_states patient_counter patients appointments].
    split; [reflexivity|]. split; [reflexivity|]. split.
    + eexists. rewrite lookup_insert_eq. split; reflexivity.
    + eexists _, _. rewrite lookup_insert_eq. split; [reflexivity|].
      cbn [s_patients]. unfold occupants_after.
      destruct (appointments s !! slot_id name date time).
      * apply last_snoc.
      * reflexivity.
Qed.

(** An attempt that a conflict or a crash interrupts leaves the store of the
    system as it was. *)
Lemma interrupted_attempt_no_effect sys sys' :
  sys_step sys sys' ->
  sys_store sys' = sys_store sys
  \/ exists p id ws,
       In p (sys_pending sys)
       /\ pending_tx p (sys_store sys) [] = inr (id, ws)
       /\ sys_store sys' = apply_writes ws (sys_store sys).
Proof.
  intros Hstep.
  destruct Hstep as [sys d e Hpre
                    | sys now d name dept time Hpre
                    | sys before p after e Hpend Hthrow
                    | sys before p after id ws Hpend Hret Hreads
                    | sys before p after Hpend
                    | sys before p after Hpend ]; try (left; reflexivity).
  right. exists p, id, ws. destruct Hreads as [Hslot Hcounter].
  split; [rewrite Hpend; apply in_elt|]. split; [|reflexivity].
  unfold pending_tx in *.
  rewrite <- (registration_tx_reads _ _ _ _ _ _ (sys_store sys) Hslot Hcounter). exact Hret.
Qed.

(** C2 (atomicity), the Cloud-Functions variant at a full slot: the attempt
    fails with the slot-full message, no patient record and no ledger entry
    are written, and yet the identifier counter has moved from 1010 to 1011:
    an incremented counter without a patient record. *)
Theorem legacy_counter_moves_on_full_slot :
  snd (Legacy.attemptRegistration 0 sample_booking legacy_full_store)
  = inl "Slot full for Cardiology at 10:00 on 2025-12-01."
  /\ patients (fst (Legacy.attemptRegistration 0 sample_booking legacy_full_store))
     = patients legacy_full_store
  /\ appointments (fst (Legacy.attemptRegistration 0 sample_booking legacy_full_store))
     = appointments legacy_full_store
  /\ patient_counter legacy_full_store = Some 1010
  /\ patient_counter (fst (Legacy.attemptRegistration 0 sample_booking legacy_full_store))
     = Some 1011.
Proof. vm_compute. repeat split. Qed.

(** ** Time slots *)

Lemma hour_cases (h : Z) :
  0 <= h <= 23 ->
  In h [0; 1; 2; 3; 4; 5; 6; 7; 8; 9; 10; 11; 12; 13; 14; 15; 16; 17; 18; 19; 20; 21; 22; 23].
Proof. intros Hh. cbn [In]. lia. Qed.

Ltac each_hour h H :=
  apply hour_cases in H; cbn [In] in H;
  repeat (destruct H as [<-|H]; [|]); [..|contradiction].

(** The hour of a well-formed clock time is read back, whatever the minutes. *)
Lemma parse_hour h minutes :
  0 <= h <= 23 -> Js.parseInt (Js.before ":" (two_digits h +:+ ":" +:+ minutes)) = Some h.
Proof. intros Hh. each_hour h Hh; reflexivity. Qed.

Lemma hours_loop_seqZ n :
  forall s e, Z.of_nat n = e - s + 1 -> hours_loop n s e = hour_label <$> seqZ s (Z.of_nat n).
Proof.
  induction n as [|n IH]; intros s e Hn.
  - reflexivity.
  - cbn [hours_loop]. destruct (Z.leb_spec s e) as [_|Hlt]; [|lia].
    rewrite seqZ_cons by lia. cbn [fmap list_fmap]. f_equal.
    replace (Z.pred (Z.of_nat (S n))) with (Z.of_nat n) by lia.
    apply IH. lia.
Qed.

(** More fuel than the loop needs changes nothing: it ends by its guard. *)
Lemma hours_loop_fuel n m s e :
  (Z.to_nat (e - s + 1) <= n)%nat -> (Z.to_nat (e - s + 1) <= m)%nat ->
  hours_loop n s e = hours_loop m s e.
Proof.
  revert m s. induction n as [|n IH]; intros [|m] s Hn Hm; cbn [hours_loop];
    try reflexivity; try (destruct (Z.leb_spec s e); [lia|reflexivity]).
  destruct (Z.leb_spec s e); [|reflexivity].
  f_equal. apply IH; lia.
Qed.

Lemma hour_label_lt a b :
  0 <= a -> a < b -> b <= 23 -> String.ltb (hour_label a) (hour_label b) = true.
Proof.
  intros Ha Hab Hb.
  assert (Hall : forallb (fun x => forallb (fun y =>
                   implb (x <? y) (String.ltb (hour_label x) (hour_label y)))
                   (seqZ 0 24)) (seqZ 0 24) = true) by (vm_compute; reflexivity).
  rewrite forallb_forall in Hall. specialize (Hall a).
  rewrite forallb_forall in Hall.
  assert (Hina : In a (seqZ 0 24)) by (apply list_elem_of_In, elem_of_seqZ; lia).
  assert (Hinb : In b (seqZ 0 24)) by (apply list_elem_of_In, elem_of_seqZ; lia).
  specialize (Hall Hina b Hinb).
  destruct (Z.ltb_spec a b); [exact Hall|lia].
Qed.

Lemma hour_labels_sorted n :
  forall s, 0 <= s -> s + Z.of_nat n <= 24 ->
    StronglySorted (fun x y => String.ltb x y = true) (hour_label <$> seqZ s (Z.of_nat n)).
Proof.
  induction n as [|n IH]; intros s Hs Hn.
  - constructor.
  - rewrite seqZ_cons by lia. cbn [fmap list_fmap].
    replace (Z.pred (Z.of_nat (S n))) with (Z.of_nat n) by lia.
    constructor; [apply IH; lia|].
    apply List.Forall_forall. intros x Hx. apply list_elem_of_In in Hx.
    apply list_elem_of_fmap in Hx. destruct Hx as (h & -> & Hh). apply elem_of_seqZ in Hh.
    apply hour_label_lt; lia.
Qed.

(** C4 (time-slot generator).  For a window whose opening hour is not after
    its closing hour, [hoursBetween] returns the labels of the hours from the
    opening hour to the closing hour inclusive, one per hour, each the
    zero-padded hour followed by ":00", in strictly increasing order.  It is a
    function of the window alone, so two calls on the same window agree. *)
Theorem hoursBetween_window (s e : Z) (m1 m2 : string) :
  0 <= s -> s <= e -> e <= 23 ->
  hoursBetween (two_digits s +:+ ":" +:+ m1) (two_digits e +:+ ":" +:+ m2)
  = (fun h => two_digits h +:+ ":00") <$> seqZ s (e - s + 1)
  /\ length (hoursBetween (two_digits s +:+ ":" +:+ m1) (two_digits e +:+ ":" +:+ m2))
     = Z.to_nat (e - s + 1)
  /\ StronglySorted (fun x y => String.ltb x y = true)
       (hoursBetween (two_digits s +:+ ":" +:+ m1) (two_digits e +:+ ":" +:+ m2)).
Proof.
  intros Hs Hse He.
  assert (Heq : hoursBetween (two_digits s +:+ ":" +:+ m1) (two_digits e +:+ ":" +:+ m2)
                = hour_label <$> seqZ s (e - s + 1)).
  { unfold hoursBetween. rewrite !parse_hour by lia.
    rewrite (hours_loop_seqZ _ s e) by lia. f_equal. f_equal. lia. }
  rewrite Heq. split; [reflexivity|]. split.
  - rewrite length_fmap, length_seqZ. reflexivity.
  - replace (e - s + 1) with (Z.of_nat (Z.to_nat (e - s + 1))) by lia.
    apply hour_labels_sorted; lia.
Qed.

(** The window of Cardiology. *)
Lemma hoursBetween_window_witness :
  hoursBetween "09:00" "12:00" = ["09:00"; "10:00"; "11:00"; "12:00"]
  /\ StronglySorted (fun x y => String.ltb x y = true) (hoursBetween "09:00" "12:00").
Proof.
  destruct (hoursBetween_window 9 12 "00" "00") as (Heq & _ & Hsorted); [lia..|].
  split; [exact Heq|exact Hsorted].
Defined.

Lemma legacy_clock_minutes h : 0 <= h <= 23 -> Legacy.clock_minutes (hour_label h) = Some (60 * h).
Proof. intros Hh. each_hour h Hh; reflexivity. Qed.

Lemma legacy_time_label h : 0 <= h <= 23 -> Legacy.time_label (60 * h) = hour_label h.
Proof. intros Hh. each_hour h Hh; reflexivity. Qed.

Lemma legacy_slots_loop n :
  forall s e, 0 <= s -> Z.of_nat n = e - s + 1 -> e <= 23 ->
    Legacy.slots_loop n (60 * s) (60 * e) = hours_loop n s e.
Proof.
  induction n as [|n IH]; intros s e Hs Hn He.
  - reflexivity.
  - cbn [Legacy.slots_loop hours_loop].
    destruct (Z.leb_spec s e) as [_|Hlt]; [|lia].
    destruct (Z.leb_spec (60 * s) (60 * e)) as [_|Hlt]; [|lia].
    rewrite legacy_time_label by lia. f_equal.
    replace (60 * s + 60) with (60 * (s + 1)) by lia. apply IH; lia.
Qed.

(** On a window that opens and closes on the hour, the slot generator of the
    Cloud-Functions variant yields the same sequence as [hoursBetween]. *)
Lemma legacy_generateTimeSlots_hours s e :
  0 <= s -> s <= e -> e <= 23 ->
  Legacy.generateTimeSlots (hour_label s) (hour_label e)
  = hoursBetween (hour_label s) (hour_label e).
Proof.
  intros Hs Hse He. unfold Legacy.generateTimeSlots, hoursBetween.
  rewrite !legacy_clock_minutes by lia.
  change (hour_label s) with (two_digits s +:+ ":" +:+ "00").
  change (hour_label e) with (two_digits e +:+ ":" +:+ "00").
  rewrite !parse_hour by lia.
  replace ((60 * e - 60 * s) / 60 + 1) with (e - s + 1)
    by (replace (60 * e - 60 * s) with ((e - s) * 60) by lia; rewrite Z.div_mul; lia).
  apply legacy_slots_loop; lia.
Qed.

(** ** Conversation state *)

Section ConversationProperties.

Variable chrono_parse : Clock -> string -> list ChronoResult.
Variable chrono_parseDate : Clock -> string -> option JsDate.
Variable doctorLimits : option (string -> option Z).

Lemma getState_live s sender now st d :
  live_session s sender now st d ->
  exists doc,
    getState now sender s = (s, doc) /\ step doc = Some st /\ data doc = Some d.
Proof.
  intros (doc & t & Hdoc & Hstep & Hdata & Ht & Hage).
  exists doc. unfold getState. rewrite Hdoc, Ht.
  destruct (Z.gtb_spec (now - t) session_ttl); [lia|]. repeat split; assumption.
Qed.

(** A message that is not a greeting, to a live session, goes to the
    [switch]. *)
Lemma processMessage_live clock sender text s st d :
  live_session s sender (nowMs clock) st d ->
  isGreeting (Js.trim text) = false ->
  processMessage chrono_parse chrono_parseDate doctorLimits clock sender text s
  = dialogue_step chrono_parseDate doctorLimits clock sender (Js.trim text) st d s.
Proof.
  intros Hlive Hgreet. unfold processMessage. rewrite Hgreet.
  destruct (getState_live _ _ _ _ _ Hlive) as (doc & -> & -> & ->). reflexivity.
Qed.

Lemma dialogue_step_invalid clock sender text st d s msg :
  invalid_answer chrono_parseDate clock st d text = Some msg ->
  dialogue_step chrono_parseDate doctorLimits clock sender text st d s = done_with s [msg].
Proof.
  unfold invalid_answer, dialogue_step. intros H.
  destruct st; try discriminate.
  - (* gender *)
    destruct (parseChoice text) as [[|[[|[]|]|[|[]|]|]|]|];
      try discriminate;
      destruct (Js.truthy (normalizeGender text)); try discriminate;
      injection H as <-; reflexivity.
  - (* email *)
    destruct (String.eqb _ "skip"); [discriminate|].
    destruct (Js.truthy (validateEmail text)); [discriminate|].
    injection H as <-. reflexivity.
  - (* phone number *)
    destruct (Js.truthy (validatePhone text)); [discriminate|].
    injection H as <-. reflexivity.
  - (* department *)
    destruct (choice_in _ _); [discriminate|].
    destruct (Js.truthy (normalizeDepartment text)); [discriminate|].
    injection H as <-. reflexivity.
  - (* date *)
    destruct (chrono_parseDate clock text) as [parsed|].
    + destruct (String.leb _ _); [|discriminate]. injection H as <-. reflexivity.
    + injection H as <-. reflexivity.
  - (* time *)
    destruct (department_of _) as [dept|]; [|discriminate].
    destruct (choice_in _ _); [discriminate|].
    destruct (includes_str _ _); [discriminate|].
    injection H as <-. reflexivity.
Qed.

(** One refused answer: the store is what it was, and the reply is the
    welcome text for a greeting and otherwise the text that asks again. *)
Lemma processMessage_invalid clock sender text s st d msg :
  live_session s sender (nowMs clock) st d ->
  invalid_answer chrono_parseDate clock st d (Js.trim text) = Some msg ->
  processMessage chrono_parse chrono_parseDate doctorLimits clock sender text s
  = done_with s [if isGreeting (Js.trim text) then msg_welcome else msg].
Proof.
  intros Hlive Hbad.
  destruct (isGreeting (Js.trim text)) eqn:Hgreet.
  - unfold processMessage. rewrite Hgreet. reflexivity.
  - rewrite (processMessage_live _ _ _ _ _ _ Hlive Hgreet).
    apply dialogue_step_invalid, Hbad.
Qed.

(** C5 (re-prompt idempotence).  At a live session of a validating step,
    any number of refused answers in a row, each handled while the session
    is still alive, leaves the whole store as it was: the step does not
    advance, the collected fields are what they were, and the state
    document is not rewritten.  Each of them is answered by the text that
    asks for the same step again (or by the welcome text when the answer
    reads as a greeting). *)
Theorem invalid_answers_idempotent sender st d s (answers : list (Clock * string)) :
  validating st = true ->
  Forall (fun a => live_session s sender (nowMs (fst a)) st d
                   /\ exists msg, invalid_answer chrono_parseDate (fst a) st d (Js.trim (snd a))
                                  = Some msg) answers ->
  converse chrono_parse chrono_parseDate doctorLimits sender answers s = s
  /\ Forall (fun a =>
               exists msg,
                 invalid_answer chrono_parseDate (fst a) st d (Js.trim (snd a)) = Some msg
                 /\ processMessage chrono_parse chrono_parseDate doctorLimits (fst a) sender
                      (snd a) s
                    = done_with s [if isGreeting (Js.trim (snd a)) then msg_welcome else msg])
       answers.
Proof.
  intros _ Hall. induction Hall as [|[clock text] rest [Hlive [msg Hbad]] _ IH].
  - split; [reflexivity|constructor].
  - cbn [fst snd] in *. destruct IH as [IHstore IHreply].
    pose proof (processMessage_invalid _ _ _ _ _ _ _ Hlive Hbad) as Hone.
    split.
    + cbn [converse]. rewrite Hone. cbn [out_store done_with]. exact IHstore.
    + constructor; [|exact IHreply]. exists msg. split; [exact Hbad|exact Hone].
Qed.

(** C6 (idle expiry).  A read more than thirty minutes after the last
    activity deletes the session and returns the blank state, and the
    message is handled as on the store without the session; a read within
    thirty minutes returns the stored session and leaves the store alone. *)
Theorem idle_expiry clock sender s doc t :
  registration_states s !! sender = Some doc ->
  updatedAt doc = Some t ->
  (nowMs clock - t > session_ttl ->
     getState (nowMs clock) sender s = (resetState sender s, blank_state)
     /\ registration_states (resetState sender s) !! sender = None
     /\ (forall text,
           out_sent (processMessage chrono_parse chrono_parseDate doctorLimits clock sender text s)
           = out_sent (processMessage chrono_parse chrono_parseDate doctorLimits clock sender text
                         (resetState sender s)))
     /\ (forall text, isGreeting (Js.trim text) = false ->
           processMessage chrono_parse chrono_parseDate doctorLimits clock sender text s
           = processMessage chrono_parse chrono_parseDate doctorLimits clock sender text
               (resetState sender s)))
  /\ (nowMs clock - t <= session_ttl -> getState (nowMs clock) sender s = (s, doc)).
Proof.
  intros Hdoc Ht. split.
  - intros Hold.
    assert (Hget : getState (nowMs clock) sender s = (resetState sender s, blank_state)).
    { unfold getState. rewrite Hdoc, Ht.
      destruct (Z.gtb_spec (nowMs clock - t) session_ttl); [reflexivity|lia]. }
    assert (Hgone : registration_states (resetState sender s) !! sender = None).
    { cbn. apply lookup_delete_eq. }
    assert (Hget' : getState (nowMs clock) sender (resetState sender s)
                    = (resetState sender s, blank_state)).
    { unfold getState. rewrite Hgone. reflexivity. }
    assert (Hsame : forall text, isGreeting (Js.trim text) = false ->
              processMessage chrono_parse chrono_parseDate doctorLimits clock sender text s
              = processMessage chrono_parse chrono_parseDate doctorLimits clock sender text
                  (resetState sender s)).
    { intros text Hgreet. unfold processMessage. rewrite Hgreet, Hget, Hget'. reflexivity. }
    repeat split; try assumption.
    intros text. destruct (isGreeting (Js.trim text)) eqn:Hgreet.
    + unfold processMessage. rewrite Hgreet. reflexivity.
    + rewrite (Hsame text Hgreet). reflexivity.
  - intros Hyoung. unfold getState. rewrite Hdoc, Ht.
    destruct (Z.gtb_spec (nowMs clock - t) session_ttl); [lia|reflexivity].
Qed.

End ConversationProperties.

(** The Cloud-Functions variant reads the state in the same way. *)
Lemma legacy_getState_same now sender s : Legacy.getState now sender s = getState now sender s.
Proof. reflexivity. Qed.

(** Two refused e-mail addresses in a row, one and two minutes after the
    last activity. *)
Lemma invalid_answers_idempotent_witness :
  converse chrono_parse_nothing chrono_parseDate_nothing None "919876543210"
    [(minutes 1, "asha at example"); (minutes 2, "asha@example")] store_at_email
  = store_at_email.
Proof.
  apply (invalid_answers_idempotent chrono_parse_nothing chrono_parseDate_nothing None
           "919876543210" emailStep
           (set_address "12 Lake Road"
              (set_gender "Female" (set_lastName "Rao" (set_firstName "Asha" no_data))))).
  - reflexivity.
  - repeat constructor;
      try (exists email_session, 0; repeat split; vm_compute; discriminate);
      try (exists msg_email_again; reflexivity).
Defined.

(** The session of the example read after 31 and after 29 minutes. *)
Lemma idle_expiry_witness :
  getState (nowMs (minutes 31)) "919876543210" store_at_email
  = (resetState "919876543210" store_at_email, blank_state)
  /\ getState (nowMs (minutes 29)) "919876543210" store_at_email = (store_at_email, email_session).
Proof.
  split.
  - destruct (idle_expiry chrono_parse_nothing chrono_parseDate_nothing None (minutes 31)
                "919876543210" store_at_email email_session 0) as [Hold _];
      [reflexivity|reflexivity|].
    apply Hold. reflexivity.
  - destruct (idle_expiry chrono_parse_nothing chrono_parseDate_nothing None (minutes 29)
                "919876543210" store_at_email email_session 0) as [_ Hyoung];
      [reflexivity|reflexivity|].
    apply Hyoung. vm_compute. discriminate.
Defined.

(** ** The prompt for the time *)

Lemma string_app_assoc a b c : (a +:+ b) +:+ c = a +:+ (b +:+ c).
Proof.
  induction a as [|x a IH]; [reflexivity|].
  rewrite !app_cons, IH. reflexivity.
Qed.

Lemma slot_count_setState now sender st d s k :
  slot_count (setState now sender st d s) k = slot_count s k.
Proof. reflexivity. Qed.

(** Department windows of the catalogue hold at least one time. *)
Lemma catalogue_times_nonempty name dept :
  department_of name = Some dept ->
  hoursBetween (fst (times dept)) (snd (times dept)) <> [].
Proof.
  intros H. apply assoc_In in H. cbv [departmentSlots In] in H.
  repeat (destruct H as [[= <- <-]|H]; [vm_compute; discriminate|]). contradiction.
Qed.

Lemma ltb_nonempty a b : String.ltb a b = true -> Js.truthy (Some b) = true.
Proof. destruct b; [|reflexivity]. destruct a; discriminate. Qed.

Section NoPrompt.

Variable chrono_parse : Clock -> string -> list ChronoResult.
Variable chrono_parseDate : Clock -> string -> option JsDate.

(** C8 (time prompt), as the code has it.  In [backend/webhook.js] the
    table [doctorLimits] that the loop of the prompt reads is not declared:
    when a future date is accepted at step [registrationDate], for any
    department of the catalogue, the date and the step [registrationTime]
    are stored and the message then fails with a [ReferenceError] before
    anything is sent, so no prompt presents any time.  The Cloud-Functions
    variant sends its prompt, with every generated time of the department as
    a button, whatever the ledger holds, and with no headroom. *)
Theorem date_step_sends_no_prompt :
  (forall clock sender text s d name dept parsed,
      live_session s sender (nowMs clock) registrationDateStep d ->
      isGreeting (Js.trim text) = false ->
      department d = Some name ->
      department_of name = Some dept ->
      chrono_parseDate clock (Js.trim text) = Some parsed ->
      String.leb (isoDate parsed) (today clock) = false ->
      processMessage chrono_parse chrono_parseDate None clock sender text s
      = threw_with
          (setState (nowMs clock) sender (Some registrationTimeStep)
             (Some (set_registrationDate (isoDate parsed) d)) s)
          [] reference_error)
  /\ (forall clock sender b s d name dept date,
         Legacy.parseFutureDate chrono_parseDate clock b = Some date ->
         Js.truthy (Some b) = true ->
         department d = Some name ->
         department_of name = Some dept ->
         Legacy.step_flow chrono_parseDate clock (legacy_message sender b)
           registrationDateStep (Some d) s
         = Legacy.answered
             (setState (nowMs clock) sender (Some registrationTimeStep)
                (Some (set_registrationDate date d)) s)
             [Legacy.SentButtons sender ("Available times for " +:+ name +:+ ":")
                (Legacy.generateTimeSlots (fst (times dept)) (snd (times dept)))]).
Proof.
  split.
  - intros clock sender text s d name dept parsed Hlive Hgreet Hname Hdept Hparsed Hfuture.
    rewrite (processMessage_live _ _ _ _ _ _ _ _ _ Hlive Hgreet).
    unfold dialogue_step. rewrite Hparsed, Hfuture.
    cbn [department set_registrationDate]. rewrite Hname. cbn [to_template]. rewrite Hdept.
    pose proof (catalogue_times_nonempty name dept Hdept) as Hne.
    destruct (hoursBetween _ _); [contradiction|]. reflexivity.
  - intros clock sender b s d name dept date Hdate Hb Hname Hdept.
    unfold Legacy.step_flow, legacy_message. cbv zeta.
    cbn [Legacy.m_from Legacy.m_text_body Legacy.m_button_text].
    unfold Legacy.text_body. cbn [Legacy.m_text_body]. rewrite Hb. cbn [Js.or_empty].
    rewrite Hdate.
    assert (Htruthy : Js.truthy (Some date) = true).
    { unfold Legacy.parseFutureDate in Hdate.
      destruct (chrono_parseDate clock b) as [parsed|]; [|discriminate].
      destruct (String.ltb _ _) eqn:Hlt in Hdate; [|discriminate].
      injection Hdate as <-. exact (ltb_nonempty _ _ Hlt). }
    rewrite Htruthy. cbn [negb Js.or_empty department set_registrationDate].
    rewrite Hname. cbn [to_template]. rewrite Hdept. reflexivity.
Qed.

End NoPrompt.

(** The session of the example names tomorrow while the slot at nine
    o'clock is full: the handler of the repository sends nothing, the variant
    offers nine o'clock with the other times. *)
Lemma date_step_sends_no_prompt_witness :
  out_sent (processMessage chrono_parse_sample chrono_parseDate_sample None (minutes 1)
              sample_sender "tomorrow" store_at_date) = []
  /\ out_threw (processMessage chrono_parse_sample chrono_parseDate_sample None (minutes 1)
                  sample_sender "tomorrow" store_at_date) = Some reference_error
  /\ slot_count store_at_date (slot_id "Cardiology" "2025-12-01" "09:00") = 10
  /\ Legacy.w_sent (Legacy.step_flow chrono_parseDate_sample (minutes 1)
                      (legacy_message sample_sender "tomorrow") registrationDateStep
                      (Some asked_data) store_at_date)
     = [Legacy.SentButtons sample_sender "Available times for Cardiology:"
          ["09:00"; "10:00"; "11:00"; "12:00"]].
Proof.
  destruct (date_step_sends_no_prompt chrono_parse_sample chrono_parseDate_sample)
    as [Hshipped Hvariant].
  rewrite (Hshipped (minutes 1) sample_sender "tomorrow" store_at_date asked_data
             "Cardiology" cardiology tomorrow_noon);
    [|exists date_session, 0; repeat split; vm_compute; discriminate
     |reflexivity|reflexivity|reflexivity|reflexivity|reflexivity].
  rewrite (Hvariant (minutes 1) sample_sender "tomorrow" store_at_date asked_data
             "Cardiology" cardiology "2025-12-01");
    [|reflexivity|reflexivity|reflexivity|reflexivity].
  repeat split.
Defined.

(** With [doctorLimits] undeclared, as in [backend/webhook.js] itself, the
    same message stores the date and the new step and then fails on the
    first time of the loop: no prompt is sent. *)
Example time_prompt_without_table :
  let o := processMessage chrono_parse_sample chrono_parseDate_sample None
             (minutes 1) sample_sender "tomorrow" store_at_date in
  out_sent o = []
  /\ out_threw o = Some "ReferenceError: doctorLimits is not defined"
  /\ (step <$> registration_states (out_store o) !! sample_sender)
     = Some (Some registrationTimeStep).
Proof. vm_compute. repeat split. Qed.

(** ** The NLP bootstrap *)

Lemma truthy_or_empty o : Js.truthy o = true -> Some (Js.or_empty o) = o.
Proof. destruct o as [[|c x]|]; cbn; (discriminate || reflexivity). Qed.

(** What [prefill] stores: each extracted value under its field, the name
    split at its first space. *)
Lemma prefill_fields name phone mail dept gen date time :
  let d := prefill name phone mail dept gen date time in
  phoneNumber d = if_truthy phone
  /\ email d = if_truthy mail
  /\ department d = if_truthy dept
  /\ gender d = if_truthy gen
  /\ registrationDate d = if_truthy date
  /\ registrationTime d = if_truthy time
  /\ firstName d = (if Js.truthy name then Some (Js.before " " (Js.or_empty name)) else None)
  /\ lastName d = (if Js.truthy name then Some (Js.after " " (Js.or_empty name)) else None)
  /\ address d = None.
Proof.
  unfold prefill, if_truthy.
  destruct (Js.truthy name) eqn:Hname, (Js.truthy phone) eqn:Hphone,
    (Js.truthy mail) eqn:Hmail, (Js.truthy dept) eqn:Hdept, (Js.truthy gen) eqn:Hgen,
    (Js.truthy date) eqn:Hdate, (Js.truthy time) eqn:Htime;
    cbn; repeat split; try reflexivity; apply truthy_or_empty; assumption.
Qed.

Lemma truthy_if_truthy o : Js.truthy (if_truthy o) = Js.truthy o.
Proof. unfold if_truthy. destruct (Js.truthy o) eqn:H; [exact H|reflexivity]. Qed.

(** The direct attempt is guarded by the five core fields. *)
Lemma enough_info_prefill name phone mail dept gen date time :
  enough_info (prefill name phone mail dept gen date time)
  = Js.truthy phone && Js.truthy dept && Js.truthy date && Js.truthy time
    && (Js.truthy name && Js.truthy (Some (Js.before " " (Js.or_empty name)))).
Proof.
  destruct (prefill_fields name phone mail dept gen date time)
    as (Hp & _ & Hd & _ & Hdate & Htime & Hfirst & _).
  unfold enough_info. rewrite Hp, Hd, Hdate, Htime, Hfirst, !truthy_if_truthy.
  destruct (Js.truthy name); reflexivity.
Qed.

Section BootstrapProperties.

Variable chrono_parse : Clock -> string -> list ChronoResult.
Variable chrono_parseDate : Clock -> string -> option JsDate.
Variable doctorLimits : option (string -> option Z).

(** A message that is not a greeting, from a sender without a live session,
    goes to the NLP bootstrap on the store that the read leaves. *)
Lemma processMessage_bootstrap clock sender text s :
  isGreeting (Js.trim text) = false ->
  step (snd (getState (nowMs clock) sender s)) = None ->
  processMessage chrono_parse chrono_parseDate doctorLimits clock sender text s
  = nlp_bootstrap chrono_parse clock sender (Js.trim text) (fst (getState (nowMs clock) sender s)).
Proof.
  intros Hgreet Hstep. unfold processMessage. rewrite Hgreet.
  destruct (getState (nowMs clock) sender s) as [s1 state]. cbn [fst snd] in *.
  rewrite Hstep. reflexivity.
Qed.

(** Outside a session, a message that is not the start phrase and yields at
    least one field stores the pre-filled data at step [firstName], then
    either attempts the booking or asks for the first name. *)
Lemma processMessage_prefilled clock sender text s :
  let t := Js.trim text in
  let s1 := fst (getState (nowMs clock) sender s) in
  let dt := extractDateTime chrono_parse clock t in
  let d := prefill (extractNameFromSentence t) (extractPhone t) (extractEmail t)
             (normalizeDepartment t) (normalizeGender t) (fst dt) (snd dt) in
  let started := setState (nowMs clock) sender (Some firstNameStep) (Some d) s1 in
  isGreeting t = false ->
  step (snd (getState (nowMs clock) sender s)) = None ->
  Js.includes (Js.toLowerCase t) "patient registration"
  || Js.includes (Js.toLowerCase t) "register me" = false ->
  Js.truthy (extractPhone t) || Js.truthy (extractEmail t)
  || Js.truthy (extractNameFromSentence t) || Js.truthy (normalizeDepartment t)
  || Js.truthy (fst dt) || Js.truthy (snd dt) || Js.truthy (normalizeGender t) = true ->
  processMessage chrono_parse chrono_parseDate doctorLimits clock sender text s
  = if enough_info d
    then match attemptRegistration (nowMs clock) d started with
         | (s2, inr pid) =>
             done_with (resetState sender s2)
               [msg_complete (snd pid) (to_template (department d))
                  (to_template (registrationDate d)) (to_template (registrationTime d))]
         | (s2, inl err) =>
             done_with (setState (nowMs clock) sender (Some firstNameStep) (Some d) s2)
               [msg_oneshot_failed err]
         end
    else done_with started [msg_continue].
Proof.
  intros t s1 dt d started Hgreet Hstep Hphrase Hsome.
  rewrite (processMessage_bootstrap clock sender text s Hgreet Hstep).
  unfold nlp_bootstrap. fold t. fold dt. rewrite Hphrase, Hsome. reflexivity.
Qed.

(** C9, as the code has it.  For a message outside a session that is neither
    a greeting nor the start phrase and from which at least one field is
    extracted: the extracted values are stored as the conversation data; when
    the phone number, department, date, time and first name are not all
    present, the dialogue enters the step flow at step [firstName], whichever
    fields were extracted, and asks for the first name; a booking is
    attempted directly exactly when all five are present. *)
Theorem bootstrap_prefills_and_asks_first_name clock sender text s :
  let t := Js.trim text in
  let s1 := fst (getState (nowMs clock) sender s) in
  let dt := extractDateTime chrono_parse clock t in
  let d := prefill (extractNameFromSentence t) (extractPhone t) (extractEmail t)
             (normalizeDepartment t) (normalizeGender t) (fst dt) (snd dt) in
  let started := setState (nowMs clock) sender (Some firstNameStep) (Some d) s1 in
  isGreeting t = false ->
  step (snd (getState (nowMs clock) sender s)) = None ->
  Js.includes (Js.toLowerCase t) "patient registration"
  || Js.includes (Js.toLowerCase t) "register me" = false ->
  Js.truthy (extractPhone t) || Js.truthy (extractEmail t)
  || Js.truthy (extractNameFromSentence t) || Js.truthy (normalizeDepartment t)
  || Js.truthy (fst dt) || Js.truthy (snd dt) || Js.truthy (normalizeGender t) = true ->
  (phoneNumber d = if_truthy (extractPhone t)
   /\ email d = if_truthy (extractEmail t)
   /\ department d = if_truthy (normalizeDepartment t)
   /\ gender d = if_truthy (normalizeGender t)
   /\ registrationDate d = if_truthy (fst dt)
   /\ registrationTime d = if_truthy (snd dt))
  /\ (enough_info d = false ->
      processMessage chrono_parse chrono_parseDate doctorLimits clock sender text s
      = done_with started [msg_continue])
  /\ (enough_info d = true ->
      processMessage chrono_parse chrono_parseDate doctorLimits clock sender text s
      = match attemptRegistration (nowMs clock) d started with
        | (s2, inr pid) =>
            done_with (resetState sender s2)
              [msg_complete (snd pid) (to_template (department d))
                 (to_template (registrationDate d)) (to_template (registrationTime d))]
        | (s2, inl err) =>
            done_with (setState (nowMs clock) sender (Some firstNameStep) (Some d) s2)
              [msg_oneshot_failed err]
        end).
Proof.
  intros t s1 dt d started Hgreet Hstep Hphrase Hsome.
  split.
  - destruct (prefill_fields (extractNameFromSentence t) (extractPhone t) (extractEmail t)
                (normalizeDepartment t) (normalizeGender t) (fst dt) (snd dt))
      as (Hp & He & Hd & Hg & Hdate & Htime & _).
    repeat split; assumption.
  - pose proof (processMessage_prefilled clock sender text s Hgreet Hstep Hphrase Hsome) as Hrun.
    cbv zeta in Hrun. fold t in Hrun. fold dt in Hrun. fold d in Hrun. fold s1 in Hrun.
    fold started in Hrun.
    split; intros Hinfo; rewrite Hrun, Hinfo; reflexivity.
Qed.

End BootstrapProperties.

(** A sentence with department, date, time and gender but neither phone
    number nor name: the flow drops into step [firstName]. *)
Lemma bootstrap_prefills_and_asks_first_name_witness :
  processMessage chrono_parse_sample chrono_parseDate_sample None (minutes 0) sample_sender
    "tomorrow at 10am for cardiology, I'm male" empty_store
  = done_with
      (setState 0 sample_sender (Some firstNameStep)
         (Some {| firstName := None; lastName := None; gender := Some "Male"; address := None;
                  email := None; phoneNumber := None; department := Some "Cardiology";
                  registrationDate := Some "2025-12-01"; registrationTime := Some "10:00" |})
         empty_store)
      [msg_continue].
Proof.
  destruct (bootstrap_prefills_and_asks_first_name chrono_parse_sample chrono_parseDate_sample
              None (minutes 0) sample_sender "tomorrow at 10am for cardiology, I'm male"
              empty_store) as (_ & Hask & _);
    [reflexivity|reflexivity|reflexivity|reflexivity|].
  apply Hask. reflexivity.
Defined.

(** C9 as stated fails: from "John Smith" the first and the last name are
    extracted and stored, the first field not yet filled is the gender, and
    yet the dialogue starts at step [firstName] and asks for the first name
    again. *)
Lemma extracted_name_is_asked_again :
  let o := processMessage chrono_parse_nothing chrono_parseDate_nothing None (minutes 0)
             sample_sender "John Smith" empty_store in
  exists doc d,
    registration_states (out_store o) !! sample_sender = Some doc
    /\ data doc = Some d
    /\ firstName d = Some "John" /\ lastName d = Some "Smith"
    /\ first_unfilled d = Some genderStep
    /\ step doc = Some firstNameStep
    /\ step doc <> first_unfilled d
    /\ out_sent o = [msg_continue].
Proof.
  eexists _, _. split; [vm_compute; reflexivity|]. cbn.
  repeat split; try reflexivity. discriminate.
Qed.

(** ** One sentence and ten steps *)

Lemma attemptRegistration_success now d s name dept date time :
  precheck d = inr (name, dept, time) ->
  registrationDate d = Some date ->
  slot_count s (slot_id name date time) < capacity dept ->
  attemptRegistration now d s
  = (committed now d name dept date time s,
     inr (next_count (patient_counter s), patient_id (next_count (patient_counter s)))).
Proof.
  intros Hpre Hdate Hfree. unfold attemptRegistration, runTransaction. rewrite Hpre.
  rewrite (registration_tx_free now d name dept date time s Hdate Hfree).
  cbv beta iota zeta. rewrite apply_writes_committed. reflexivity.
Qed.

Lemma precheck_passes d name dept time :
  department d = Some name -> Js.truthy (Some name) = true ->
  department_of name = Some dept ->
  registrationTime d = Some time ->
  includes_str (hoursBetween (fst (times dept)) (snd (times dept))) time = true ->
  precheck d = inr (name, dept, time).
Proof.
  intros Hd Hname Hdept Ht Hin. unfold precheck.
  rewrite Hd, Hname. cbn [negb Js.or_empty]. rewrite Hdept, Ht, Hin. reflexivity.
Qed.

Lemma nth_str_In l i x : nth_str l i = Some x -> In x l.
Proof.
  unfold nth_str. destruct (i <? 0); [discriminate|].
  intros H. apply list_elem_of_In. eapply list_elem_of_lookup_2. exact H.
Qed.

(** An accepted time is one of the generated times of the department. *)
Lemma picked_time_valid chrono_parseDate clock dept text t :
  picked_time chrono_parseDate clock dept text = Some t ->
  includes_str (hoursBetween (fst (times dept)) (snd (times dept))) t = true.
Proof.
  unfold picked_time.
  destruct (choice_in _ _) as [c|].
  - intros H. apply In_includes_str. eapply nth_str_In. exact H.
  - destruct (includes_str _ (candidate_time chrono_parseDate clock text)) eqn:Hin;
      [|discriminate].
    intros [= <-]. exact Hin.
Qed.

(** The record of a successful registration, under its identifier. *)
Lemma committed_record now d name dept date time s sender :
  patients (resetState sender (committed now d name dept date time s))
    !! patient_id (next_count (patient_counter s))
  = Some (patient_doc (patient_id (next_count (patient_counter s))) d name date time now).
Proof. cbn. apply lookup_insert_eq. Qed.

Section OneShotProperties.

Variable chrono_parse : Clock -> string -> list ChronoResult.
Variable chrono_parseDate : Clock -> string -> option JsDate.
Variable doctorLimits : option (string -> option Z).

(** The last step of the flow, with an accepted time and a free slot. *)
Lemma registrationTime_books clock sender answer s d name dept date time :
  live_session s sender (nowMs clock) registrationTimeStep d ->
  isGreeting (Js.trim answer) = false ->
  department d = Some name -> Js.truthy (Some name) = true ->
  department_of name = Some dept ->
  registrationDate d = Some date ->
  picked_time chrono_parseDate clock dept (Js.trim answer) = Some time ->
  slot_count s (slot_id name date time) < capacity dept ->
  out_store (processMessage chrono_parse chrono_parseDate doctorLimits clock sender answer s)
  = resetState sender
      (committed (nowMs clock) (set_registrationTime time d) name dept date time s).
Proof.
  intros Hlive Hgreet Hd Hname Hdept Hdate Hpick Hfree.
  rewrite (processMessage_live _ _ _ _ _ _ _ _ _ Hlive Hgreet).
  unfold dialogue_step. rewrite Hd. cbn [to_template]. rewrite Hdept.
  pose proof (picked_time_valid _ _ _ _ _ Hpick) as Hvalid.
  unfold picked_time in Hpick. rewrite Hpick.
  rewrite (attemptRegistration_success (nowMs clock) (set_registrationTime time d) s
             name dept date time).
  - reflexivity.
  - apply precheck_passes; try assumption. reflexivity.
  - exact Hdate.
  - exact Hfree.
Qed.

End OneShotProperties.

Lemma library_parser_no_time cp clock text :
  library_parser cp -> snd (extractDateTime cp clock text) = None.
Proof.
  intros Hlib. unfold extractDateTime.
  destruct (cp clock text) as [|p rest] eqn:Hp; [reflexivity|].
  destruct (cr_start p) as [st|] eqn:Hst; [|reflexivity].
  cbn [snd]. specialize (Hlib clock text p st). rewrite Hp in Hlib.
  specialize (Hlib (or_introl eq_refl) Hst).
  destruct (cc_isOnlyDate st) as [[]|]; try reflexivity. contradiction.
Qed.

Section OneShotDead.

Variable chrono_parse : Clock -> string -> list ChronoResult.
Variable chrono_parseDate : Clock -> string -> option JsDate.
Variable doctorLimits : option (string -> option Z).

(** C7 (one-shot booking), as the code has it.  The direct attempt of the
    NLP bootstrap is guarded by an extracted time, and [extractDateTime]
    yields a time only when [start.isOnlyDate] is the boolean [false], which
    chrono-node never returns.  So for a sender without a live session no
    message, whatever it contains, triggers a reservation attempt: no time
    is extracted, patient records, ledger and counter stay as they are, and
    the reply is the welcome, the start of the step flow, its continuation
    at the first name, or the hint. *)
Theorem oneshot_never_attempted clock sender text s :
  library_parser chrono_parse ->
  step (snd (getState (nowMs clock) sender s)) = None ->
  let o := processMessage chrono_parse chrono_parseDate doctorLimits clock sender text s in
  snd (extractDateTime chrono_parse clock (Js.trim text)) = None
  /\ patients (out_store o) = patients s
  /\ appointments (out_store o) = appointments s
  /\ patient_counter (out_store o) = patient_counter s
  /\ out_threw o = None
  /\ In (out_sent o) [[msg_welcome]; [msg_start]; [msg_continue]; [msg_unrecognized]].
Proof.
  intros Hlib Hstep. cbv zeta.
  pose proof (library_parser_no_time chrono_parse clock (Js.trim text) Hlib) as Htime.
  split; [exact Htime|].
  unfold processMessage. cbv zeta.
  destruct (isGreeting (Js.trim text)).
  { cbn [out_store out_sent out_threw done_with In]. repeat split. left. reflexivity. }
  assert (Hs1 : patients (fst (getState (nowMs clock) sender s)) = patients s
                /\ appointments (fst (getState (nowMs clock) sender s)) = appointments s
                /\ patient_counter (fst (getState (nowMs clock) sender s))
                   = patient_counter s).
  { unfold getState.
    destruct (registration_states s !! sender) as [doc|]; [|repeat split].
    destruct (updatedAt doc); [|repeat split].
    destruct (_ >? _); repeat split. }
  destruct (getState (nowMs clock) sender s) as [s1 state]. cbn [fst snd] in Hs1, Hstep.
  destruct Hs1 as (Hp & Ha & Hc). rewrite Hstep.
  unfold nlp_bootstrap. cbv zeta.
  destruct (_ || _).
  { cbn [out_store out_sent out_threw done_with In]. repeat split; try assumption.
    right. left. reflexivity. }
  destruct (_ || _).
  - rewrite enough_info_prefill, Htime. cbn [Js.truthy]. rewrite !andb_false_r. cbn [andb].
    cbn [out_store out_sent out_threw done_with In]. repeat split; try assumption.
    right. right. left. reflexivity.
  - cbn [out_store out_sent out_threw done_with In]. repeat split; try assumption.
    right. right. right. left. reflexivity.
Qed.

End OneShotDead.

(** The sentence of the claim, with a name as well, from a sender without a
    session: department, phone number, name and date are extracted, no time
    is, nothing is booked and the reply asks for the first name. *)
Lemma oneshot_never_attempted_witness :
  normalizeDepartment sentence_with_name = Some "Cardiology"
  /\ extractPhone sentence_with_name = Some "9876543210"
  /\ extractNameFromSentence sentence_with_name = Some "Asha"
  /\ extractDateTime chrono_parse_library (minutes 0) sentence_with_name
     = (Some "2025-12-01", None)
  /\ patients (out_store (processMessage chrono_parse_library chrono_parseDate_sample None
                            (minutes 0) sample_sender sentence_with_name empty_store))
     = patients empty_store
  /\ out_sent (processMessage chrono_parse_library chrono_parseDate_sample None
                 (minutes 0) sample_sender sentence_with_name empty_store)
     = [msg_continue].
Proof.
  destruct (oneshot_never_attempted chrono_parse_library chrono_parseDate_sample None
              (minutes 0) sample_sender sentence_with_name empty_store)
    as (_ & Hpatients & _).
  - intros clock text r st Hin Hst. unfold chrono_parse_library in Hin.
    destruct (Js.includes _ _); [|contradiction]. destruct Hin as [<-|[]].
    injection Hst as <-. discriminate.
  - reflexivity.
  - split; [reflexivity|]. split; [reflexivity|]. split; [reflexivity|].
    split; [reflexivity|]. split; [exact Hpatients|reflexivity].
Defined.

(** ** Greetings *)

Lemma search_from_later r pre :
  forall prev rest,
    match_here r (last_char prev pre) rest <> None ->
    search_from r prev (pre +:+ rest) <> None.
Proof.
  induction pre as [|c pre IH]; intros prev rest Hhere.
  - rewrite app_empty. cbn [last_char] in Hhere.
    destruct rest; cbn [search_from]; destruct (match_here r prev _); congruence.
  - rewrite app_cons. cbn [search_from].
    destruct (match_here r prev (String c (pre +:+ rest))); [discriminate|].
    apply IH. exact Hhere.
Qed.

Lemma lower_char_word c x :
  In x ["h"; "i"; "e"; "y"; "l"; "o"]%char -> Js.lower_char c = x -> Js.is_word c = true.
Proof.
  intros Hx Hc. cbn [In] in Hx.
  assert (Hword : Js.is_word x = true).
  { repeat (destruct Hx as [<-|Hx]; [reflexivity|]). contradiction. }
  unfold Js.lower_char in Hc. destruct (Js.is_upper c) eqn:Hup.
  - unfold Js.is_word, Js.is_alpha. rewrite Hup. reflexivity.
  - subst c. exact Hword.
Qed.

Lemma search_from_found r s :
  forall prev m,
    search_from r prev s = Some m ->
    exists pre rest, s = pre +:+ rest /\ match_here r (last_char prev pre) rest <> None.
Proof.
  induction s as [|c s IH]; intros prev m Hfound; cbn [search_from] in Hfound.
  - exists EmptyString, EmptyString. split; [reflexivity|]. cbn [last_char].
    destruct (match_here r prev EmptyString); congruence.
  - destruct (match_here r prev (String c s)) eqn:Hhere.
    + exists EmptyString, (String c s). split; [reflexivity|]. cbn [last_char]. congruence.
    + destruct (IH _ _ Hfound) as (pre & rest & -> & Hrest).
      exists (String c pre), rest. split; [reflexivity|]. exact Hrest.
Qed.

(** The letters of a greeting word are word characters. *)
Ltac word_facts :=
  repeat match goal with
  | E : Js.lower_char ?c = ?x |- _ =>
      lazymatch goal with
      | _ : Js.is_word c = true |- _ => fail
      | _ => assert (Js.is_word c = true)
               by (apply (lower_char_word c x); [cbn; tauto|exact E])
      end
  end.

(** Run the greeting pattern on a text whose letters are known. *)
Ltac run_greeting :=
  unfold match_here; cbv [greeting_re rmatch LitI ChrI]; cbn [word_at head];
  repeat match goal with
  | H : Js.lower_char _ = _ |- _ => rewrite !H
  | H : Js.is_word _ = true |- _ => rewrite !H
  | H : word_at _ = false |- _ => rewrite !H
  end;
  cbn; discriminate.

(** A greeting word between two boundaries matches where it stands. *)
Lemma match_greeting_word prev w post :
  In (Js.toLowerCase w) greeting_words ->
  word_at prev = false -> word_at (head post) = false ->
  match_here greeting_re prev (w +:+ post) <> None.
Proof.
  intros Hin Hprev Hpost. cbn [In greeting_words] in Hin.
  destruct Hin as [H|[H|[H|[H|[H|[]]]]]];
    repeat (destruct w as [|? w]; cbn [Js.toLowerCase] in H; try discriminate H;
            try (injection H as ? H));
    rewrite ?app_cons, ?app_empty;
    repeat match goal with Heq : _ = Js.lower_char _ |- _ => symmetry in Heq end;
    word_facts; run_greeting.
Qed.

(** Case analysis on every test of a match that succeeded. *)
Ltac split_tests H :=
  repeat match type of H with
  | context [match ?x with _ => _ end] =>
      lazymatch x with
      | context [match _ with _ => _ end] => fail
      | _ => destruct x eqn:?; try (exfalso; apply H; reflexivity)
      end
  end.

Ltac letters :=
  repeat match goal with
  | E : Ascii.eqb (Js.lower_char ?c) _ = true |- _ =>
      apply Ascii.eqb_eq in E;
      match type of E with
      | _ = ?r => let r' := eval vm_compute in r in change r with r' in E
      end
  end.

Ltac boundary :=
  match goal with
  | Hx : xorb (word_at ?p) (word_at (head (String ?c _))) = true, W : Js.is_word ?c = true
    |- word_at ?p = false =>
      cbn [word_at head] in Hx; rewrite W in Hx; destruct (word_at p);
      [discriminate Hx|reflexivity]
  | Hx : xorb (word_at (Some ?c)) (word_at (head ?q)) = true, W : Js.is_word ?c = true
    |- word_at (head ?q) = false =>
      cbn [word_at] in Hx; rewrite W in Hx; destruct (word_at (head q));
      [discriminate Hx|reflexivity]
  end.

Ltac found w post :=
  exists w, post; split; [reflexivity|]; split;
  [ cbn [Js.toLowerCase];
    repeat match goal with E : Js.lower_char _ = _ |- _ => rewrite E end;
    cbn [In greeting_words]; tauto
  | split; boundary ].

Ltac find_word :=
  first
    [ match goal with
      | |- exists w post, String ?a (String ?b ?p) = _ /\ _ =>
          found (String a (String b EmptyString)) p
      end
    | match goal with
      | |- exists w post, String ?a (String ?b (String ?c ?p)) = _ /\ _ =>
          found (String a (String b (String c EmptyString))) p
      end
    | match goal with
      | |- exists w post, String ?a (String ?b (String ?c (String ?d (String ?e ?p)))) = _ /\ _ =>
          found (String a (String b (String c (String d (String e EmptyString))))) p
      end ].

(** Where the greeting pattern matches, a greeting word stands between two
    boundaries. *)
Lemma match_greeting_inv prev s :
  match_here greeting_re prev s <> None ->
  exists w post,
    s = w +:+ post /\ In (Js.toLowerCase w) greeting_words
    /\ word_at prev = false /\ word_at (head post) = false.
Proof.
  unfold match_here. cbv [greeting_re rmatch LitI ChrI]. intros H.
  split_tests H; letters; try congruence; word_facts; find_word.
Qed.

(** [isGreeting] recognises exactly the texts that contain one of the five
    words as a standalone word, whatever the case of its letters. *)
Lemma isGreeting_standalone text : isGreeting text = true <-> standalone_greeting text.
Proof.
  unfold isGreeting, test, exec, standalone_greeting. split.
  - destruct (search_from greeting_re None text) as [m|] eqn:Hfound; [|discriminate].
    intros _. apply search_from_found in Hfound as (pre & rest & -> & Hhere).
    apply match_greeting_inv in Hhere as (w & post & -> & Hw & Hprev & Hpost).
    exists pre, w, post. repeat split; assumption.
  - intros (pre & w & post & -> & Hw & Hprev & Hpost).
    pose proof (search_from_later greeting_re pre None (w +:+ post)
                  (match_greeting_word _ w post Hw Hprev Hpost)) as Hfound.
    destruct (search_from greeting_re None (pre +:+ w +:+ post)); [reflexivity|congruence].
Qed.

Section GreetingProperties.

Variable chrono_parse : Clock -> string -> list ChronoResult.
Variable chrono_parseDate : Clock -> string -> option JsDate.
Variable doctorLimits : option (string -> option Z).

(** C10 (greeting).  A message that contains one of the words hi, hey,
    hello, hii, hy as a standalone word, in any case, is answered with the
    welcome text before the conversation state is read: the whole store, and
    with it the sender's step and collected fields, is what it was, no state
    is created, and the message is not taken as the answer to a pending
    step. *)
Theorem greeting_short_circuit clock sender text s :
  standalone_greeting (Js.trim text) ->
  processMessage chrono_parse chrono_parseDate doctorLimits clock sender text s
  = done_with s [msg_welcome].
Proof.
  intros H. apply isGreeting_standalone in H.
  unfold processMessage. rewrite H. reflexivity.
Qed.

End GreetingProperties.

(** A greeting in the middle of the flow. *)
Lemma greeting_short_circuit_witness :
  processMessage chrono_parse_nothing chrono_parseDate_nothing None (minutes 5)
    sample_sender "Hi there" store_at_email
  = done_with store_at_email [msg_welcome].
Proof.
  apply greeting_short_circuit.
  exists EmptyString, "Hi", " there". repeat split; (reflexivity || (left; reflexivity)).
Defined.

(** ** The Cloud-Functions variant *)

(** What the counter and the result of the variant's registration can be:
    either nothing was issued and the counter is what it was, or the next
    number was issued and the counter is one past it, whether the slot
    transaction then succeeded or not. *)
Lemma legacy_attempt_counter now d s :
  (patient_counter (fst (Legacy.attemptRegistration now d s)) = patient_counter s
   /\ exists e, snd (Legacy.attemptRegistration now d s) = inl e)
  \/ (patient_counter (fst (Legacy.attemptRegistration now d s)) = Some (legacy_next s + 1)
      /\ (snd (Legacy.attemptRegistration now d s)
          = inr (legacy_next s, patient_id (legacy_next s))
          \/ exists e, snd (Legacy.attemptRegistration now d s) = inl e)).
Proof.
  unfold Legacy.attemptRegistration.
  destruct (department_of (to_template (department d))) as [dept|].
  - right. unfold Legacy.generatePatientId, runTransaction at 2.
    cbv [tx_bind tx_get_counter tx_set tx_ret]. cbn [app apply_writes fold_left apply_write].
    fold (legacy_next s).
    unfold runTransaction.
    destruct (Legacy.slot_tx now d dept _ _ []) as [e|[[] ws]] eqn:Htx; cbn [fst snd].
    + split; [reflexivity|]. right. eauto.
    + split; [|left; reflexivity].
      unfold Legacy.slot_tx in Htx.
      cbv [tx_bind tx_get_slot tx_set tx_throw] in Htx.
      destruct (_ >=? _) in Htx; [discriminate|].
      destruct (Legacy.patient_doc _ d now) in Htx; [|discriminate].
      injection Htx as <-. reflexivity.
  - left. split; [reflexivity|eauto].
Qed.

Lemma legacy_issued_ok_bump s s' ids :
  legacy_issued_ok s ids ->
  patient_counter s' = Some (legacy_next s + 1) ->
  legacy_issued_ok s' ids.
Proof.
  intros [Htext Hbelow Hsorted] Hc. split; [exact Htext| |exact Hsorted].
  eapply Forall_impl; [exact Hbelow|]. intros id (c & Hs & Hlt). cbn beta in *.
  exists (legacy_next s + 1). split; [exact Hc|]. unfold legacy_next. rewrite Hs. lia.
Qed.

Lemma legacy_issued_ok_issue s s' ids :
  legacy_issued_ok s ids ->
  patient_counter s' = Some (legacy_next s + 1) ->
  legacy_issued_ok s' (ids ++ [(legacy_next s, patient_id (legacy_next s))]).
Proof.
  intros Hok Hc. pose proof (legacy_issued_ok_bump s s' ids Hok Hc) as [Htext Hbelow Hsorted].
  assert (Hlt : Forall (fun id : Z * string => fst id < legacy_next s) ids).
  { destruct Hok as [_ Hb _]. eapply Forall_impl; [exact Hb|].
    intros id (c & Hs & Hlt). cbn beta in *. unfold legacy_next. rewrite Hs. exact Hlt. }
  split.
  - apply Forall_app. split; [exact Htext|]. constructor; [reflexivity|constructor].
  - apply Forall_app. split; [exact Hbelow|]. constructor; [|constructor].
    exists (legacy_next s + 1). split; [exact Hc|cbn; lia].
  - rewrite map_app. cbn [map fst]. apply StronglySorted_snoc; [exact Hsorted|].
    apply Forall_map. exact Hlt.
Qed.

Lemma legacy_run_issued reqs :
  forall s acc,
    legacy_issued_ok s acc ->
    legacy_issued_ok (fst (Legacy.run_attempts reqs s)) (acc ++ snd (Legacy.run_attempts reqs s)).
Proof.
  induction reqs as [|[now d] rest IH]; intros s acc Hacc.
  - cbn. rewrite app_nil_r. exact Hacc.
  - cbn [Legacy.run_attempts].
    destruct (legacy_attempt_counter now d s) as [[Hc [e He]]|[Hc [Hid|[e He]]]];
      destruct (Legacy.attemptRegistration now d s) as [s' r]; cbn [fst snd] in *; subst r.
    + apply IH. destruct Hacc as [Ht Hb Hs]. split; [exact Ht| |exact Hs].
      rewrite Hc. exact Hb.
    + specialize (IH s' _ (legacy_issued_ok_issue s s' acc Hacc Hc)).
      destruct (Legacy.run_attempts rest s') as [s'' ids]. cbn [fst snd] in *.
      rewrite <- app_assoc in IH. exact IH.
    + apply IH. exact (legacy_issued_ok_bump s s' acc Hacc Hc).
Qed.

(** The identifiers that the Cloud-Functions variant issues are strictly
    increasing and pairwise distinct as well, while its counter stays among
    the numbers that JavaScript holds exactly: a failed registration uses its
    number up. *)
Lemma legacy_identifiers_increasing reqs s0 :
  js_exact (legacy_next s0) ->
  js_exact (legacy_next s0 + Z.of_nat (length reqs)) ->
  StronglySorted Z.lt (map fst (snd (Legacy.run_attempts reqs s0)))
  /\ NoDup (map snd (snd (Legacy.run_attempts reqs s0))).
Proof.
  intros _ _.
  assert (Hnil : legacy_issued_ok s0 []) by (split; constructor).
  pose proof (legacy_run_issued reqs s0 [] Hnil) as [Htext _ Hsorted]. cbn [app] in *.
  split; [exact Hsorted|].
  assert (Heq : map snd (snd (Legacy.run_attempts reqs s0))
                = map patient_id (map fst (snd (Legacy.run_attempts reqs s0)))).
  { rewrite map_map. apply map_ext_Forall. exact Htext. }
  rewrite Heq. apply NoDup_fmap_2; [intros x y; apply patient_id_inj|].
  apply StronglySorted_lt_NoDup, Hsorted.
Qed.

Lemma size_filter_insert_fresh (P : string * PatientDoc -> Prop) `{!forall x, Decision (P x)}
      pid doc (m : gmap string PatientDoc) :
  m !! pid = None ->
  size (filter P (<[pid := doc]> m))
  = if decide (P (pid, doc)) then S (size (filter P m)) else size (filter P m).
Proof.
  intros Hfresh. rewrite map_filter_insert.
  destruct (decide (P (pid, doc))).
  - rewrite map_size_insert_None; [reflexivity|].
    apply map_lookup_filter_None_2. left. exact Hfresh.
  - rewrite delete_id by exact Hfresh. reflexivity.
Qed.

Lemma legacy_patient_doc_key pid d now doc :
  Legacy.patient_doc pid d now = Some doc ->
  p_department doc = to_template (department d)
  /\ record_key doc
     = slot_id (to_template (department d)) (to_template (registrationDate d))
         (to_template (registrationTime d)).
Proof.
  unfold Legacy.patient_doc.
  destruct (firstName d), (lastName d), (gender d), (address d), (email d), (phoneNumber d),
    (department d), (registrationDate d), (registrationTime d); try discriminate.
  intros [= <-]. split; reflexivity.
Qed.

Lemma legacy_ledger_ok_empty : legacy_ledger_ok empty_store.
Proof.
  split.
  - intros pid doc H. cbn in H. rewrite lookup_empty in H. discriminate.
  - intros k. reflexivity.
  - intros k doc H. cbn in H. rewrite lookup_empty in H. discriminate.
Qed.

Lemma legacy_next_fresh s :
  legacy_ledger_ok s -> patients s !! patient_id (legacy_next s) = None.
Proof.
  intros Hok. destruct (patients s !! patient_id (legacy_next s)) as [doc|] eqn:H; [|reflexivity].
  destruct (lg_ids s Hok _ _ H) as (n & c & Hid & Hc & Hlt).
  apply patient_id_inj in Hid. unfold legacy_next in Hid. rewrite Hc in Hid. lia.
Qed.

(** Moving the counter on keeps the consistency. *)
Lemma legacy_bump_ok s :
  legacy_ledger_ok s ->
  legacy_ledger_ok (apply_writes [SetCounter (legacy_next s + 1)] s).
Proof.
  intros [Hids Hbooks Hslot]. split; cbn.
  - intros pid doc H. destruct (Hids pid doc H) as (n & c & -> & Hc & Hlt).
    exists n, (legacy_next s + 1). split; [reflexivity|]. split; [reflexivity|].
    unfold legacy_next. rewrite Hc. lia.
  - exact Hbooks.
  - exact Hslot.
Qed.

Lemma legacy_generatePatientId_run s :
  Legacy.generatePatientId s
  = (apply_writes [SetCounter (legacy_next s + 1)] s,
     inr (legacy_next s, patient_id (legacy_next s))).
Proof. reflexivity. Qed.

Lemma legacy_slot_tx_run now d dept pid s :
  let k := slot_id (to_template (department d)) (to_template (registrationDate d))
             (to_template (registrationTime d)) in
  runTransaction (Legacy.slot_tx now d dept pid) s
  = if count_of (appointments s !! k) >=? capacity dept
    then (s, inl ("Slot full for " +:+ to_template (department d) +:+ " at " +:+
                  to_template (registrationTime d) +:+ " on " +:+
                  to_template (registrationDate d) +:+ "."))
    else match Legacy.patient_doc pid d now with
         | None => (s, inl "Cannot use undefined as a Firestore value")
         | Some doc =>
             (apply_writes
                [ SetPatient pid doc;
                  SetSlot k
                    {| s_department := to_template (department d);
                       s_date := to_template (registrationDate d);
                       s_time := to_template (registrationTime d);
                       s_capacity := capacity dept;
                       s_count := count_of (appointments s !! k) + 1;
                       s_patients := occupants_after (appointments s !! k) pid |} ] s,
              inr tt)
         end.
Proof.
  intros k. unfold runTransaction, Legacy.slot_tx.
  cbv [tx_bind tx_get_slot tx_set tx_throw]. fold k.
  destruct (count_of (appointments s !! k) >=? capacity dept); [reflexivity|].
  destruct (Legacy.patient_doc pid d now); [|reflexivity].
  unfold occupants_after. destruct (appointments s !! k); reflexivity.
Qed.

(** Every registration of the variant keeps the consistency. *)
Lemma legacy_attempt_ok now d s :
  legacy_ledger_ok s -> legacy_ledger_ok (fst (Legacy.attemptRegistration now d s)).
Proof.
  intros Hok. unfold Legacy.attemptRegistration.
  destruct (department_of (to_template (department d))) as [dept|] eqn:Hdept; [|exact Hok].
  rewrite legacy_generatePatientId_run. cbn [snd].
  pose proof (legacy_bump_ok s Hok) as Hok1.
  pose proof (legacy_next_fresh s Hok) as Hfresh.
  set (s1 := apply_writes [SetCounter (legacy_next s + 1)] s) in *.
  rewrite legacy_slot_tx_run. cbv zeta.
  set (k := slot_id (to_template (department d)) (to_template (registrationDate d))
              (to_template (registrationTime d))) in *.
  destruct (Z.geb_spec (count_of (appointments s1 !! k)) (capacity dept)) as [Hfull|Hfree];
    [exact Hok1|].
  destruct (Legacy.patient_doc (patient_id (legacy_next s)) d now) as [doc|] eqn:Hdoc;
    [|exact Hok1].
  destruct (legacy_patient_doc_key _ _ _ _ Hdoc) as [Hname Hkey]. fold k in Hkey.
  destruct Hok1 as [Hids Hbooks Hslot].
  assert (Hnonneg : 0 <= count_of (appointments s1 !! k)).
  { pose proof (Hbooks k) as Hb. unfold slot_count in Hb. lia. }
  unfold slot_count in Hbooks.
  change (appointments s1) with (appointments s) in *.
  change (patients s1) with (patients s) in *.
  cbn [fst apply_writes fold_left apply_write].
  split; cbn [patients patient_counter appointments];
    try change (patients s1) with (patients s);
    try change (appointments s1) with (appointments s).
  - intros pid doc' H.
    destruct (decide (patient_id (legacy_next s) = pid)) as [<-|Hne].
    + exists (legacy_next s), (legacy_next s + 1).
      split; [reflexivity|]. split; [reflexivity|lia].
    + rewrite lookup_insert_ne in H by exact Hne. exact (Hids pid doc' H).
  - intros k'. rewrite size_filter_insert_fresh by exact Hfresh.
    unfold slot_count. cbn [appointments].
    destruct (decide (keyed k' (patient_id (legacy_next s), doc))) as [Hk|Hk].
    + unfold keyed in Hk. cbn [snd] in Hk. rewrite Hkey in Hk. subst k'.
      rewrite lookup_insert_eq. cbn [count_of s_count]. unfold Js.or_num.
      destruct (Z.eqb_spec (count_of (appointments s !! k) + 1) 0); [lia|].
      rewrite Nat2Z.inj_succ. pose proof (Hbooks k) as Hb. lia.
    + rewrite lookup_insert_ne.
      * exact (Hbooks k').
      * intros Heq. apply Hk. unfold keyed. cbn [snd]. rewrite Hkey. exact Heq.
  - intros k' sd H.
    destruct (decide (k = k')) as [<-|Hne].
    + rewrite lookup_insert_eq in H. injection H as <-.
      cbn [s_department s_date s_time s_count]. exists dept.
      split; [exact Hdept|]. split; [reflexivity|lia].
    + rewrite lookup_insert_ne in H by exact Hne. exact (Hslot k' sd H).
Qed.

Lemma legacy_run_ok reqs :
  forall s, legacy_ledger_ok s -> legacy_ledger_ok (fst (Legacy.run_attempts reqs s)).
Proof.
  induction reqs as [|[now d] rest IH]; intros s Hok; [exact Hok|].
  cbn [Legacy.run_attempts].
  pose proof (legacy_attempt_ok now d s Hok) as Hok'.
  destruct (Legacy.attemptRegistration now d s) as [s' [e|id]]; cbn [fst] in Hok'.
  - apply IH, Hok'.
  - specialize (IH s' Hok'). destruct (Legacy.run_attempts rest s'). exact IH.
Qed.

(** The capacity bound holds in the Cloud-Functions variant as well. *)
Lemma legacy_records_bound reqs name dept date time :
  department_of name = Some dept ->
  Z.of_nat (records_for name date time (fst (Legacy.run_attempts reqs empty_store)))
  <= capacity dept.
Proof.
  intros Hdept.
  pose proof (legacy_run_ok reqs empty_store legacy_ledger_ok_empty) as [_ Hbooks Hslot].
  set (s := fst (Legacy.run_attempts reqs empty_store)) in *.
  assert (Hle : (records_for name date time s
                 <= size (filter (keyed (slot_id name date time)) (patients s)))%nat).
  { unfold records_for. apply map_subseteq_size, map_filter_subseteq_ext.
    intros pid doc _ (Hn & Hd & Ht). unfold keyed, record_key. cbn [snd] in *.
    rewrite Hn, Hd, Ht. reflexivity. }
  pose proof (Hbooks (slot_id name date time)) as Hb.
  destruct (department_shape _ _ Hdept) as [Hname Hcap].
  destruct (appointments s !! slot_id name date time) as [sd|] eqn:Hk.
  - rewrite (slot_count_or_num _ _ _ Hk) in Hb.
    destruct (Hslot _ _ Hk) as (dept' & Hdept' & Hkey & Hrange).
    destruct (department_shape _ _ Hdept') as [Hname' _].
    unfold slot_id in Hkey. change ("_" +:+ ?r) with (String "_" r) in Hkey.
    apply app_inj_separator in Hkey as [Hsame _]; [|assumption..].
    rewrite <- Hsame, Hdept in Hdept'. injection Hdept' as <-. lia.
  - unfold slot_count in Hb. rewrite Hk in Hb. cbn [count_of] in Hb. lia.
Qed.

(** * Further properties *)

(** ** What a message can do to the store *)

Ltac reach_attempt E :=
  match type of E with
  | attemptRegistration ?now ?d ?s1 = (?s2, _) =>
      replace s2 with (fst (attemptRegistration now d s1)) by (rewrite E; reflexivity)
  end.

Ltac reach_tac :=
  repeat first
    [ assumption
    | apply reach_setState
    | apply reach_resetState
    | apply reach_attempt ].

Section StoreReach.

Variable chrono_parse : Clock -> string -> list ChronoResult.
Variable chrono_parseDate : Clock -> string -> option JsDate.
Variable doctorLimits : option (string -> option Z).

Lemma getState_store_reach now sender s :
  store_reach sender s (fst (getState now sender s)).
Proof.
  unfold getState. destruct (registration_states s !! sender) as [doc|]; [|constructor].
  destruct (updatedAt doc) as [t|]; [|constructor].
  destruct (now - t >? session_ttl); cbn [fst]; [|constructor].
  apply reach_resetState. constructor.
Qed.

Lemma nlp_bootstrap_store_reach clock sender text s s1 :
  store_reach sender s s1 ->
  store_reach sender s (out_store (nlp_bootstrap chrono_parse clock sender text s1)).
Proof.
  intros H. unfold nlp_bootstrap.
  destruct (_ || _); cbn [out_store done_with]; [reach_tac|].
  destruct (_ || _); cbn [out_store done_with]; [|reach_tac].
  destruct (enough_info _); cbn [out_store done_with]; [|reach_tac].
  destruct (attemptRegistration _ _ _) as [s2 [e|pid]] eqn:E; cbn [out_store done_with];
    reach_attempt E; reach_tac.
Qed.

Lemma dialogue_step_store_reach clock sender text st d s s1 :
  store_reach sender s s1 ->
  store_reach sender s
    (out_store (dialogue_step chrono_parseDate doctorLimits clock sender text st d s1)).
Proof.
  intros H. unfold dialogue_step.
  destruct st; repeat case_match; cbn [out_store done_with threw_with]; try reach_tac.
  all: match goal with
       | E : attemptRegistration _ _ _ = _ |- _ => reach_attempt E; reach_tac
       end.
Qed.

(** Whatever the message, the store it leaves is reached from the store it
    found by writes and deletions of the sender's own session and by
    registration attempts. *)
Lemma processMessage_store_reach clock sender text s :
  store_reach sender s
    (out_store (processMessage chrono_parse chrono_parseDate doctorLimits clock sender text s)).
Proof.
  unfold processMessage. destruct (isGreeting _); [constructor|].
  pose proof (getState_store_reach (nowMs clock) sender s) as Hget.
  destruct (getState (nowMs clock) sender s) as [s1 state]. cbn [fst] in Hget.
  destruct (step state).
  - apply dialogue_step_store_reach, Hget.
  - apply nlp_bootstrap_store_reach, Hget.
Qed.

End StoreReach.

(** A property of the ledger that registrations keep, and that does not
    depend on the sessions, holds along [store_reach]. *)
Lemma store_reach_invariant (P : Store -> Prop) sender s s' :
  (forall f x, P x -> P (with_states f x)) ->
  (forall now d x, P x -> P (fst (attemptRegistration now d x))) ->
  store_reach sender s s' -> P s -> P s'.
Proof.
  intros Hstates Hattempt Hreach Hs. induction Hreach.
  - exact Hs.
  - apply Hstates, IHHreach.
  - apply Hstates, IHHreach.
  - apply Hattempt, IHHreach.
Qed.

Lemma ledger_ok_with_states f s : ledger_ok s -> ledger_ok (with_states f s).
Proof.
  intros [H1 H2 H3 H4]. split; [exact H1|exact H2|exact H3|exact H4].
Qed.

(** The sessions of the other senders are what they were. *)
Lemma store_reach_others sender s s' other :
  store_reach sender s s' -> other <> sender ->
  registration_states s' !! other = registration_states s !! other.
Proof.
  intros Hreach Hne. induction Hreach.
  - reflexivity.
  - cbn. rewrite lookup_insert_ne by congruence. exact IHHreach.
  - cbn. rewrite lookup_delete_ne by congruence. exact IHHreach.
  - rewrite <- IHHreach.
    destruct (attemptRegistration_outcome now d s'); reflexivity.
Qed.

(** ** Invariants of the ledger along conversations and interleavings *)

(** A commit of the concurrent system is a registration attempt on the
    store as it is. *)
Lemma sys_step_store sys sys' :
  system_ok sys -> sys_step sys sys' ->
  sys_store sys' = sys_store sys
  \/ exists now d, sys_store sys' = fst (attemptRegistration now d (sys_store sys)).
Proof.
  intros [_ _ Hflight] Hstep.
  destruct Hstep as [sys d e Hpre
                    | sys now d name dept time Hpre
                    | sys before p after e Hpend Hthrow
                    | sys before p after id ws Hpend Hret Hreads
                    | sys before p after Hpend
                    | sys before p after Hpend ]; try (left; reflexivity).
  right. rewrite Hpend in Hflight. apply Forall_remove_middle in Hflight as [Hp _].
  destruct Hreads as [Hslot Hcounter]. unfold pending_tx in Hret.
  rewrite (registration_tx_reads _ _ _ _ _ _ (sys_store sys) Hslot Hcounter) in Hret.
  apply registration_tx_returns in Hret as (date & Hdate & Hfree & -> & Hws).
  exists (p_now p), (p_data p). cbn [sys_store]. rewrite Hws.
  rewrite (attemptRegistration_success _ _ _ _ _ _ _ Hp Hdate Hfree). reflexivity.
Qed.

Lemma reachable_invariant (P : Store -> Prop) :
  P empty_store ->
  (forall now d x, ledger_ok x -> P x -> P (fst (attemptRegistration now d x))) ->
  forall sys, reachable sys -> P (sys_store sys).
Proof.
  intros Hempty Hattempt sys Hreach.
  induction Hreach as [|sys sys' Hreach IH Hstep]; [exact Hempty|].
  pose proof (reachable_ok sys Hreach) as Hok.
  destruct (sys_step_store sys sys' Hok Hstep) as [->|(now & d & ->)]; [exact IH|].
  apply Hattempt; [exact (sys_ledger _ Hok)|exact IH].
Qed.

Lemma served_invariant (P : Store -> Prop) cp cpd dl :
  (forall f x, P x -> P (with_states f x)) ->
  (forall now d x, ledger_ok x -> P x -> P (fst (attemptRegistration now d x))) ->
  forall msgs s, ledger_ok s -> P s ->
    ledger_ok (serve cp cpd dl msgs s) /\ P (serve cp cpd dl msgs s).
Proof.
  intros Hstates Hattempt msgs.
  induction msgs as [|[[clock sender] text] rest IH]; intros s Hok Hs; [split; assumption|].
  cbn [serve]. apply IH.
  - apply (store_reach_invariant ledger_ok sender s);
      [exact ledger_ok_with_states|intros; apply attemptRegistration_ok; assumption| |exact Hok].
    apply processMessage_store_reach.
  - apply (store_reach_invariant (fun x => ledger_ok x /\ P x) sender s).
    + intros f x [H1 H2]. split; [apply ledger_ok_with_states, H1|apply Hstates, H2].
    + intros now d x [H1 H2].
      split; [apply attemptRegistration_ok, H1|apply Hattempt; assumption].
    + apply processMessage_store_reach.
    + split; assumption.
Qed.

(** Whatever messages of whatever senders are processed from the empty
    store, with whatever date parser and table of limits, no slot of a
    catalogue department holds more patients than its capacity and no
    department, date and time has more patient records than that. *)
Theorem served_within_capacity cp cpd dl msgs name dept date time :
  department_of name = Some dept ->
  slot_count (serve cp cpd dl msgs empty_store) (slot_id name date time) <= capacity dept
  /\ Z.of_nat (records_for name date time (serve cp cpd dl msgs empty_store)) <= capacity dept.
Proof.
  intros Hdept.
  destruct (served_invariant (fun _ => True) cp cpd dl (fun _ _ _ => I) (fun _ _ _ _ _ => I)
              msgs empty_store ledger_ok_empty I) as [Hok _].
  split; [apply ledger_ok_slot_bound|apply ledger_ok_records_bound]; assumption.
Qed.

(** One sentence that books the sample slot. *)
Lemma served_within_capacity_witness :
  slot_count (serve chrono_parse_sample chrono_parseDate_sample (Some frontend_limits)
                [(minutes 0, sample_sender, sentence_with_name)] empty_store)
    (slot_id "Cardiology" "2025-12-01" "10:00") <= 10
  /\ Z.of_nat (records_for "Cardiology" "2025-12-01" "10:00"
                 (serve chrono_parse_sample chrono_parseDate_sample (Some frontend_limits)
                    [(minutes 0, sample_sender, sentence_with_name)] empty_store)) <= 10.
Proof.
  apply (served_within_capacity chrono_parse_sample chrono_parseDate_sample
           (Some frontend_limits) [(minutes 0, sample_sender, sentence_with_name)]
           "Cardiology" cardiology "2025-12-01" "10:00").
  reflexivity.
Defined.

(** A message of one sender leaves the sessions of all other senders
    exactly as they were. *)
Theorem other_sessions_untouched cp cpd dl clock sender text s other :
  other <> sender ->
  registration_states (out_store (processMessage cp cpd dl clock sender text s)) !! other
  = registration_states s !! other.
Proof.
  intros Hne. apply (store_reach_others sender); [|exact Hne].
  apply processMessage_store_reach.
Qed.

(** A second sender starts a registration while the session of the example waits for its email. *)
Lemma other_sessions_untouched_witness :
  registration_states
    (out_store (processMessage chrono_parse_sample chrono_parseDate_sample None (minutes 1)
                  other_sender "patient registration" store_at_email)) !! sample_sender
  = registration_states store_at_email !! sample_sender.
Proof.
  apply (other_sessions_untouched chrono_parse_sample chrono_parseDate_sample None (minutes 1)
           other_sender "patient registration" store_at_email sample_sender).
  unfold sample_sender, other_sender. discriminate.
Defined.

Lemma counter_ok_attempt now d s :
  ledger_ok s -> counter_ok s -> counter_ok (fst (attemptRegistration now d s)).
Proof.
  intros Hok Hc.
  destruct (attemptRegistration_outcome now d s) as [e|name dept date time Hpre Hdate Hfree];
    cbn [fst]; [exact Hc|].
  unfold counter_ok in *. cbn [committed patient_counter patients].
  rewrite map_size_insert_None by (apply next_id_fresh, Hok).
  destruct (patient_counter s) as [c|]; cbn [next_count].
  - unfold Js.or_num. destruct (Z.eqb_spec c 0); lia.
  - rewrite Hc, map_size_empty. reflexivity.
Qed.

(** In [backend/webhook.js] the counter has no gaps: in every state
    that interleaved transactions or processed messages reach from the empty
    store, the counter document is absent while there is no patient record and
    afterwards holds 1000 plus the number of patient records. *)
Theorem counter_counts_records :
  (forall sys, reachable sys -> counter_ok (sys_store sys))
  /\ (forall cp cpd dl msgs, counter_ok (serve cp cpd dl msgs empty_store)).
Proof.
  split.
  - apply reachable_invariant; [reflexivity|exact counter_ok_attempt].
  - intros cp cpd dl msgs.
    apply (served_invariant counter_ok cp cpd dl); auto using counter_ok_attempt.
    + apply ledger_ok_empty.
    + reflexivity.
Qed.

(** The system after one committed booking. *)
Lemma counter_counts_records_witness : counter_ok (sys_store system_booked).
Proof. apply (proj1 counter_counts_records system_booked), system_booked_reachable. Defined.

Lemma occupants_ok_empty : occupants_ok empty_store.
Proof.
  split.
  - intros k doc H. cbn in H. rewrite lookup_empty in H. discriminate.
  - intros k doc pid H. cbn in H. rewrite lookup_empty in H. discriminate.
  - intros pid r H. cbn in H. rewrite lookup_empty in H. discriminate.
Qed.

Lemma occupants_ok_with_states f s : occupants_ok s -> occupants_ok (with_states f s).
Proof. intros [H1 H2 H3]. split; [exact H1|exact H2|exact H3]. Qed.

Lemma occupants_ok_attempt now d s :
  ledger_ok s -> occupants_ok s -> occupants_ok (fst (attemptRegistration now d s)).
Proof.
  intros Hok [Hdistinct Hrecord Hlisted].
  destruct (attemptRegistration_outcome now d s) as [e|name dept date time Hpre Hdate Hfree];
    cbn [fst]; [split; assumption|].
  pose proof (next_id_fresh s Hok) as Hfresh.
  set (pid := patient_id (next_count (patient_counter s))) in *.
  set (k0 := slot_id name date time) in *.
  assert (Hold : forall doc p, appointments s !! k0 = Some doc -> In p (s_patients doc) ->
                               p <> pid).
  { intros doc p Hdoc Hin ->. destruct (Hrecord _ _ _ Hdoc Hin) as (r & Hr & _). congruence. }
  split; cbn [committed appointments patients]; fold pid; fold k0.
  - intros k doc H. destruct (decide (k0 = k)) as [<-|Hne].
    + rewrite lookup_insert_eq in H. injection H as <-. cbn [s_patients].
      unfold occupants_after. destruct (appointments s !! k0) as [old|] eqn:Hk.
      * apply NoDup_app. split; [exact (Hdistinct _ _ Hk)|]. split.
        -- intros p Hp Hp'. apply list_elem_of_In in Hp. apply list_elem_of_In in Hp'.
           destruct Hp' as [<-|[]]. exact (Hold old pid eq_refl Hp eq_refl).
        -- apply NoDup_singleton.
      * apply NoDup_singleton.
    + rewrite lookup_insert_ne in H by exact Hne. exact (Hdistinct _ _ H).
  - intros k doc p H Hin. destruct (decide (k0 = k)) as [<-|Hne].
    + rewrite lookup_insert_eq in H. injection H as <-. cbn [s_patients] in Hin.
      assert (Hcases : p = pid \/ exists old, appointments s !! k0 = Some old
                                              /\ In p (s_patients old)).
      { unfold occupants_after in Hin. destruct (appointments s !! k0) as [old|].
        - apply in_app_or in Hin as [Hin|[<-|[]]]; [right; eauto|left; reflexivity].
        - destruct Hin as [<-|[]]. left. reflexivity. }
      destruct Hcases as [->|(old & Hk & Hp)].
      * eexists. rewrite lookup_insert_eq. repeat split.
      * destruct (Hrecord _ _ _ Hk Hp) as (r & Hr & Hid & Hkey).
        exists r. rewrite lookup_insert_ne by (intros Heq; exact (Hold old p Hk Hp (eq_sym Heq))).
        repeat split; assumption.
    + rewrite lookup_insert_ne in H by exact Hne.
      destruct (Hrecord _ _ _ H Hin) as (r & Hr & Hid & Hkey).
      exists r. rewrite lookup_insert_ne by congruence. repeat split; assumption.
  - intros p r H. destruct (decide (pid = p)) as [<-|Hne].
    + rewrite lookup_insert_eq in H. injection H as <-.
      change (record_key (patient_doc pid d name date time now)) with k0.
      eexists. rewrite lookup_insert_eq. split; [reflexivity|]. cbn [s_patients].
      unfold occupants_after. destruct (appointments s !! k0); [apply in_or_app; right|];
        left; reflexivity.
    + rewrite lookup_insert_ne in H by exact Hne.
      destruct (Hlisted _ _ H) as (doc & Hdoc & Hin).
      destruct (decide (k0 = record_key r)) as [Heq|Hk].
      * rewrite <- Heq in *. eexists. rewrite lookup_insert_eq. split; [reflexivity|].
        cbn [s_patients]. unfold occupants_after. rewrite Hdoc. apply in_or_app. left. exact Hin.
      * exists doc. rewrite lookup_insert_ne by exact Hk. split; assumption.
Qed.

(** Occupants and patient records refer to each other: in every state
    that interleaved transactions reach from the empty store, the occupants
    of a slot are pairwise distinct, each is the key of a patient record that
    carries this identifier and falls under this slot, and every patient
    record is listed among the occupants of its slot. *)
Theorem occupants_and_records_linked sys :
  reachable sys -> occupants_ok (sys_store sys).
Proof.
  revert sys. apply reachable_invariant; [exact occupants_ok_empty|exact occupants_ok_attempt].
Qed.

(** The system after one committed booking. *)
Lemma occupants_and_records_linked_witness : occupants_ok (sys_store system_booked).
Proof. apply (occupants_and_records_linked system_booked), system_booked_reachable. Defined.

(** Every entry of the slot ledger is well formed: in every reachable
    state its key is the one of its department, date and time, its department
    is in the catalogue with one of its generated times, its capacity is the
    capacity of the catalogue, and its count is the number of its occupants,
    at least one and at most the capacity. *)
Theorem ledger_entries_well_formed sys k doc :
  reachable sys ->
  appointments (sys_store sys) !! k = Some doc ->
  exists dept,
    valid_slot (s_department doc) dept (s_time doc)
    /\ k = slot_id (s_department doc) (s_date doc) (s_time doc)
    /\ s_capacity doc = capacity dept
    /\ s_count doc = Z.of_nat (length (s_patients doc))
    /\ 1 <= s_count doc <= capacity dept.
Proof.
  intros Hreach Hdoc. destruct (reachable_ok sys Hreach) as [Hledger _ _].
  exact (ok_slot _ Hledger k doc Hdoc).
Qed.

(** The ledger entry of the committed booking. *)
Lemma ledger_entries_well_formed_witness :
  exists dept,
    valid_slot "Cardiology" dept "10:00"
    /\ sample_slot = slot_id "Cardiology" "2025-12-01" "10:00"
    /\ 10 = capacity dept
    /\ 1 = Z.of_nat (length ["P1001"])
    /\ 1 <= 1 <= capacity dept.
Proof.
  apply (ledger_entries_well_formed system_booked sample_slot
           {| s_department := "Cardiology"; s_date := "2025-12-01"; s_time := "10:00";
              s_capacity := 10; s_count := 1; s_patients := ["P1001"] |}).
  - exact system_booked_reachable.
  - reflexivity.
Defined.

(** ** The order of the steps *)

Lemma attemptRegistration_states now d s :
  registration_states (fst (attemptRegistration now d s)) = registration_states s.
Proof. destruct (attemptRegistration_outcome now d s); reflexivity. Qed.

Lemma same_except_refl st d : same_except st d d.
Proof. unfold same_except. repeat split; right; reflexivity. Qed.

Ltac same_except_tac :=
  unfold same_except; cbn; repeat split; first [left; reflexivity | right; reflexivity].

Section StepOrder.

Variable chrono_parse : Clock -> string -> list ChronoResult.
Variable chrono_parseDate : Clock -> string -> option JsDate.
Variable doctorLimits : option (string -> option Z).

(** The three shapes of the store that the [switch] leaves. *)
Lemma dialogue_step_shape clock sender text st d s :
  let o := dialogue_step chrono_parseDate doctorLimits clock sender text st d s in
  out_store o = s
  \/ (exists st' d' s',
         out_store o = setState (nowMs clock) sender (Some st') (Some d') s'
         /\ (Some st' = next_step st \/ (st = registrationTimeStep /\ st' = st))
         /\ same_except st d d')
  \/ (exists s', out_store o = resetState sender s'
                 /\ (st = registrationTimeStep \/ st = OtherStep)).
Proof.
  unfold dialogue_step.
  destruct st; repeat case_match; cbn [out_store done_with threw_with];
    first
      [ left; reflexivity
      | right; left; eexists _, _, _;
        split; [reflexivity|];
        split; [first [left; reflexivity|right; split; reflexivity]|same_except_tac]
      | right; right; eexists; split; [reflexivity|]; first [left; reflexivity|right; reflexivity] ].
Qed.

(** What the [switch] leaves of the sender's session. *)
Lemma dialogue_step_session clock sender text st d s doc :
  registration_states s !! sender = Some doc ->
  step doc = Some st -> data doc = Some d ->
  match registration_states
          (out_store (dialogue_step chrono_parseDate doctorLimits clock sender text st d s))
        !! sender with
  | None => st = registrationTimeStep \/ st = OtherStep
  | Some doc' =>
      (step doc' = Some st \/ step doc' = next_step st)
      /\ exists d', data doc' = Some d' /\ same_except st d d'
  end.
Proof.
  intros Hdoc Hstep Hdata.
  destruct (dialogue_step_shape clock sender text st d s)
    as [->|[(st' & d' & s' & -> & Hst & Hd)|(s' & -> & Hst)]].
  - rewrite Hdoc. split; [left; exact Hstep|].
    exists d. split; [exact Hdata|apply same_except_refl].
  - cbn. rewrite lookup_insert_eq. cbn [step data]. split.
    + destruct Hst as [<-|[_ ->]]; [right|left]; reflexivity.
    + exists d'. split; [reflexivity|exact Hd].
  - cbn. rewrite lookup_delete_eq. exact Hst.
Qed.

(** The session of a live conversation after one more message: gone only
    after the last step (or a corrupted one), and otherwise at the same step
    or at the step that follows it, with all fields but the one of the step
    as they were. *)
Theorem steps_in_order clock sender text s st d :
  live_session s sender (nowMs clock) st d ->
  match registration_states
          (out_store (processMessage chrono_parse chrono_parseDate doctorLimits clock sender
                        text s)) !! sender with
  | None => st = registrationTimeStep \/ st = OtherStep
  | Some doc' =>
      (step doc' = Some st \/ step doc' = next_step st)
      /\ exists d', data doc' = Some d' /\ same_except st d d'
  end.
Proof.
  intros Hlive.
  destruct Hlive as (doc & t & Hdoc & Hstep & Hdata & Ht & Hage).
  assert (Hlive : live_session s sender (nowMs clock) st d) by (exists doc, t; auto).
  destruct (isGreeting (Js.trim text)) eqn:Hgreet.
  - unfold processMessage. rewrite Hgreet. cbn [out_store done_with]. rewrite Hdoc.
    split; [left; exact Hstep|]. exists d. split; [exact Hdata|apply same_except_refl].
  - rewrite (processMessage_live _ _ _ _ _ _ _ _ _ Hlive Hgreet).
    pose proof (dialogue_step_session clock sender (Js.trim text) st d s doc Hdoc Hstep Hdata)
      as H.
    exact H.
Qed.

End StepOrder.

(** The session of the example skips the email. *)
Lemma steps_in_order_witness :
  match registration_states
          (out_store (processMessage chrono_parse_sample chrono_parseDate_sample None
                        (minutes 1) sample_sender "skip" store_at_email)) !! sample_sender with
  | None => emailStep = registrationTimeStep \/ emailStep = OtherStep
  | Some doc' =>
      (step doc' = Some emailStep \/ step doc' = next_step emailStep)
      /\ exists d',
           data doc' = Some d'
           /\ same_except emailStep
                (set_address "12 Lake Road"
                   (set_gender "Female" (set_lastName "Rao" (set_firstName "Asha" no_data)))) d'
  end.
Proof.
  apply (steps_in_order chrono_parse_sample chrono_parseDate_sample None (minutes 1)
           sample_sender "skip" store_at_email emailStep).
  exists email_session, 0. repeat split; vm_compute; discriminate.
Defined.

(** ** Sessions that the switch can serve *)

Lemma deptList_department_of name :
  In name deptList -> exists dept, department_of name = Some dept.
Proof.
  intros Hin. cbv [deptList departmentSlots map fst In] in Hin.
  repeat (destruct Hin as [<-|Hin]; [eexists; reflexivity|]). contradiction.
Qed.

Lemma department_of_deptList name dept : department_of name = Some dept -> In name deptList.
Proof.
  intros H. apply assoc_In in H. unfold deptList.
  apply (in_map fst) in H. exact H.
Qed.

(** [normalizeDepartment] answers with a key of the catalogue. *)
Lemma normalizeDepartment_In text v : normalizeDepartment text = Some v -> In v deptList.
Proof.
  unfold normalizeDepartment. destruct text; [discriminate|].
  intros H. apply find_some in H as [H _]. exact H.
Qed.


Ltac answer_case v H :=
  match goal with
  | |- context [match ?x with Some _ => done_with _ _ | None => _ end] =>
      destruct x as [v|] eqn:H
  end.

Section SessionsOk.

Variable chrono_parse : Clock -> string -> list ChronoResult.
Variable chrono_parseDate : Clock -> string -> option JsDate.
Variable doctorLimits : option (string -> option Z).

Lemma dialogue_step_served clock sender text st d s u :
  session_ok {| step := Some st; data := Some d; updatedAt := u |} ->
  let o := dialogue_step chrono_parseDate doctorLimits clock sender text st d s in
  (out_store o = s
   \/ (exists st' d' s',
          out_store o = setState (nowMs clock) sender (Some st') (Some d') s'
          /\ session_ok {| step := Some st'; data := Some d'; updatedAt := Some (nowMs clock) |}
          /\ registration_states s' = registration_states s)
   \/ (exists s', out_store o = resetState sender s'
                  /\ registration_states s' = registration_states s))
  /\ (out_threw o = None
      \/ (doctorLimits = None /\ out_threw o = Some reference_error)).
Proof.
  intros Hok. unfold dialogue_step. cbv zeta. destruct st; cbn [session_ok step data] in Hok.
  - split; [right; left; eexists _, _, s; repeat split|left; reflexivity].
  - split; [right; left; eexists _, _, s; repeat split|left; reflexivity].
  - answer_case v Hg;
      (split; [|left; reflexivity]);
      [right; left; eexists _, _, s; repeat split|left; reflexivity].
  - split; [right; left; eexists _, _, s; repeat split|left; reflexivity].
  - answer_case v He;
      (split; [|left; reflexivity]);
      [right; left; eexists _, _, s; repeat split|left; reflexivity].
  - destruct (Js.truthy (validatePhone text));
      (split; [|left; reflexivity]);
      [right; left; eexists _, _, s; repeat split|left; reflexivity].
  - answer_case v Hdep;
      (split; [|left; reflexivity]); [|left; reflexivity].
    right; left. eexists _, _, s. split; [reflexivity|]. split; [|reflexivity].
    cbn [session_ok step data]. eexists _, v. split; [reflexivity|]. split; [reflexivity|].
    destruct (choice_in _ _).
    + eapply nth_str_In, Hdep.
    + destruct (Js.truthy (normalizeDepartment text)); [|discriminate].
      apply (normalizeDepartment_In text), Hdep.
  - destruct Hok as (d0 & name & [= <-] & Hname & Hin).
    destruct (chrono_parseDate clock text) as [parsed|]; [|split; left; reflexivity].
    destruct (String.leb _ _); [split; left; reflexivity|].
    cbn [department set_registrationDate]. rewrite Hname. cbn [to_template].
    destruct (deptList_department_of name Hin) as [dept ->].
    assert (Hnext : session_ok
                      {| step := Some registrationTimeStep;
                         data := Some (set_registrationDate (isoDate parsed) d);
                         updatedAt := Some (nowMs clock) |}).
    { cbn [session_ok step data]. eexists _, name, _. repeat split; [exact Hname|exact Hin]. }
    destruct (hoursBetween _ _) as [|t ts], doctorLimits as [limits|];
      cbn [out_store out_threw done_with threw_with];
      (split;
       [ right; left; eexists _, _, s; split; [reflexivity|]; split; [exact Hnext|reflexivity]
       | first [left; reflexivity | right; split; reflexivity] ]).
  - destruct Hok as (d0 & name & date & [= <-] & Hname & Hin & Hdate).
    rewrite Hname. cbn [to_template].
    destruct (deptList_department_of name Hin) as [dept ->].
    match goal with |- context [match ?x with Some _ => _ | None => done_with _ _ end] => destruct x as [t|] end; [|split; left; reflexivity].
    pose proof (attemptRegistration_states (nowMs clock) (set_registrationTime t d) s) as Hst.
    destruct (attemptRegistration _ _ s) as [s1 [e|pid]]; cbn [fst] in Hst;
      cbn [out_store out_threw done_with]; (split; [|left; reflexivity]).
    + right; left. eexists _, _, s1. split; [reflexivity|]. split; [|exact Hst].
      cbn [session_ok step data]. eexists _, name, date. repeat split; assumption.
    + right; right. exists s1. split; [reflexivity|exact Hst].
  - contradiction.
Qed.

Lemma nlp_bootstrap_served clock sender text s :
  let o := nlp_bootstrap chrono_parse clock sender text s in
  (out_store o = s
   \/ (exists d' s',
          out_store o = setState (nowMs clock) sender (Some firstNameStep) (Some d') s'
          /\ registration_states s' = <[sender := {| step := Some firstNameStep; data := Some d';
                                                     updatedAt := Some (nowMs clock) |}]>
                                        (registration_states s))
   \/ (exists d' s',
          out_store o = setState (nowMs clock) sender (Some firstNameStep) (Some d') s'
          /\ registration_states s' = registration_states s)
   \/ (exists s', out_store o = resetState sender s'
                  /\ registration_states s' = <[sender := {| step := Some firstNameStep;
                                                             data := Some (prefill
                                                               (extractNameFromSentence text)
                                                               (extractPhone text)
                                                               (extractEmail text)
                                                               (normalizeDepartment text)
                                                               (normalizeGender text)
                                                               (fst (extractDateTime chrono_parse clock text))
                                                               (snd (extractDateTime chrono_parse clock text)));
                                                             updatedAt := Some (nowMs clock) |}]>
                                                (registration_states s)))
  /\ out_threw o = None.
Proof.
  unfold nlp_bootstrap. cbv zeta.
  destruct (_ || _); [split; [|reflexivity]; right; right; left; eexists _, s; split; reflexivity|].
  destruct (_ || _); [|split; [left|]; reflexivity].
  destruct (enough_info _); [|split; [|reflexivity]; right; right; left; eexists _, s; split; reflexivity].
  match goal with
  | |- context [attemptRegistration ?n ?d ?x] =>
      pose proof (attemptRegistration_states n d x) as Hst;
      destruct (attemptRegistration n d x) as [s2 [e|pid]]
  end; cbn [fst] in Hst; (split; [|reflexivity]).
  - right; left. eexists _, s2. split; [reflexivity|exact Hst].
  - right; right; right. exists s2. split; [reflexivity|exact Hst].
Qed.

End SessionsOk.

Lemma sessions_ok_states s s' :
  registration_states s' = registration_states s -> sessions_ok s -> sessions_ok s'.
Proof. intros E H sender doc. rewrite E. apply H. Qed.

Lemma sessions_ok_setState now sender st d s :
  session_ok {| step := st; data := d; updatedAt := Some now |} ->
  sessions_ok s -> sessions_ok (setState now sender st d s).
Proof.
  intros Hdoc H other doc. unfold setState, with_states. cbn [registration_states].
  destruct (decide (other = sender)) as [->|Hne].
  - rewrite lookup_insert_eq. intros [= <-]. exact Hdoc.
  - rewrite lookup_insert_ne by congruence. apply H.
Qed.

Lemma sessions_ok_resetState sender s : sessions_ok s -> sessions_ok (resetState sender s).
Proof.
  intros H other doc. unfold resetState, with_states. cbn [registration_states].
  intros Hl. apply lookup_delete_Some in Hl as [_ Hl]. eapply H, Hl.
Qed.

Lemma sessions_ok_getState now sender s :
  sessions_ok s ->
  sessions_ok (fst (getState now sender s))
  /\ (snd (getState now sender s) = blank_state
      \/ registration_states s !! sender = Some (snd (getState now sender s))).
Proof.
  intros H. unfold getState. destruct (registration_states s !! sender) as [doc|] eqn:E.
  - destruct (updatedAt doc) as [t|].
    + destruct (_ >? _); cbn [fst snd].
      * split; [apply sessions_ok_resetState, H|left; reflexivity].
      * split; [exact H|right; reflexivity].
    + cbn [fst snd]. split; [exact H|right; reflexivity].
  - cbn [fst snd]. split; [exact H|left; reflexivity].
Qed.

Lemma session_ok_current doc st u :
  session_ok doc -> step doc = Some st ->
  session_ok {| step := Some st;
                data := Some (match data doc with Some d => d | None => no_data end);
                updatedAt := u |}.
Proof.
  unfold session_ok. intros H E. rewrite E in H. cbn [step data].
  destruct st; try exact I; try exact H.
  - destruct H as (d & name & -> & H). eexists _, name. split; [reflexivity|exact H].
  - destruct H as (d & name & date & -> & H). eexists _, name, date. split; [reflexivity|exact H].
Qed.

Section Served.

Variable chrono_parse : Clock -> string -> list ChronoResult.
Variable chrono_parseDate : Clock -> string -> option JsDate.
Variable doctorLimits : option (string -> option Z).

Lemma processMessage_served clock sender text s :
  sessions_ok s ->
  let o := processMessage chrono_parse chrono_parseDate doctorLimits clock sender text s in
  sessions_ok (out_store o)
  /\ (out_threw o = None \/ (doctorLimits = None /\ out_threw o = Some reference_error)).
Proof.
  intros Hok. unfold processMessage. cbv zeta.
  destruct (isGreeting _); [split; [exact Hok|left; reflexivity]|].
  destruct (sessions_ok_getState (nowMs clock) sender s Hok) as [Hok1 Hdoc].
  destruct (getState (nowMs clock) sender s) as [s1 state]. cbn [fst snd] in Hok1, Hdoc.
  destruct (step state) as [st|] eqn:Hstep.
  - destruct Hdoc as [->|Hdoc]; [discriminate|].
    pose proof (session_ok_current state st (updatedAt state) (Hok _ _ Hdoc) Hstep) as Hcur.
    destruct (dialogue_step_served chrono_parseDate doctorLimits clock sender (Js.trim text)
                st _ s1 _ Hcur) as [Hstore Hthrew].
    split; [|exact Hthrew].
    destruct Hstore as [->|[(st' & d' & s' & -> & Hnew & Hs')|(s' & -> & Hs')]].
    + exact Hok1.
    + apply sessions_ok_setState; [exact Hnew|]. eapply sessions_ok_states; eassumption.
    + apply sessions_ok_resetState. eapply sessions_ok_states; eassumption.
  - destruct (nlp_bootstrap_served chrono_parse clock sender (Js.trim text) s1) as [Hstore ->].
    split; [|left; reflexivity].
    destruct Hstore as [->|[(d' & s' & -> & Hs')|[(d' & s' & -> & Hs')|(s' & -> & Hs')]]].
    + exact Hok1.
    + apply sessions_ok_setState; [exact I|].
      intros other doc. rewrite Hs'. destruct (decide (other = sender)) as [->|Hne].
      * rewrite lookup_insert_eq. intros [= <-]. exact I.
      * rewrite lookup_insert_ne by congruence. apply Hok1.
    + apply sessions_ok_setState; [exact I|]. eapply sessions_ok_states; eassumption.
    + apply sessions_ok_resetState.
      intros other doc. rewrite Hs'. destruct (decide (other = sender)) as [->|Hne].
      * rewrite lookup_insert_eq. intros [= <-]. exact I.
      * rewrite lookup_insert_ne by congruence. apply Hok1.
Qed.

Lemma served_sessions_ok msgs s :
  sessions_ok s -> sessions_ok (serve chrono_parse chrono_parseDate doctorLimits msgs s).
Proof.
  revert s. induction msgs as [|[[clock sender] text] rest IH]; intros s Hok; [exact Hok|].
  cbn [serve]. apply IH. apply processMessage_served, Hok.
Qed.

Lemma sessions_ok_empty : sessions_ok empty_store.
Proof. intros sender doc. cbn. rewrite lookup_empty. discriminate. Qed.

(** The switch never reads a field of an undefined department.  Whatever
    messages were processed before, from the empty store: every stored
    session is at a step of the flow, from the step [registrationDate] on
    with a department of the catalogue in its data and at the step
    [registrationTime] also with a date; and the next message does not fail
    with the [TypeError] of [departmentSlots[data.department].times]. *)
Theorem department_always_defined msgs clock sender text :
  let s := serve chrono_parse chrono_parseDate doctorLimits msgs empty_store in
  sessions_ok s
  /\ out_threw (processMessage chrono_parse chrono_parseDate doctorLimits clock sender text s)
     <> Some "TypeError".
Proof.
  cbv zeta.
  pose proof (served_sessions_ok msgs empty_store sessions_ok_empty) as Hok.
  split; [exact Hok|].
  destruct (processMessage_served clock sender text _ Hok) as [_ [->|[_ ->]]]; discriminate.
Qed.

End Served.

(** ** [trim] *)

Lemma string_app_nil_r (s : string) : s +:+ EmptyString = s.
Proof. induction s as [|c s IH]; [reflexivity|]. rewrite app_cons, IH. reflexivity. Qed.

Lemma rev_app_app (a b c : string) :
  String.rev_app (a +:+ b) c = String.rev_app b (String.rev_app a c).
Proof.
  revert c. induction a as [|x a IH]; intros c; [reflexivity|].
  rewrite app_cons. cbn [String.rev_app]. apply IH.
Qed.

Lemma rev_app_rev_app (a b c : string) :
  String.rev_app (String.rev_app a b) c = String.rev_app b (a +:+ c).
Proof.
  revert b c. induction a as [|x a IH]; intros b c; [reflexivity|].
  cbn [String.rev_app]. rewrite IH. reflexivity.
Qed.

Lemma rev_app_append (a b : string) : String.rev_app a b = String.rev a +:+ b.
Proof.
  unfold String.rev. revert b. induction a as [|x a IH]; intros b; [reflexivity|].
  cbn [String.rev_app]. rewrite (IH (String x b)), (IH (String x EmptyString)).
  rewrite string_app_assoc. reflexivity.
Qed.

Lemma string_rev_involutive (s : string) : String.rev (String.rev s) = s.
Proof. unfold String.rev. rewrite rev_app_rev_app. cbn [String.rev_app]. apply string_app_nil_r. Qed.

Lemma trimStart_idem s : Js.trimStart (Js.trimStart s) = Js.trimStart s.
Proof.
  induction s as [|c s IH]; [reflexivity|]. cbn.
  destruct (Js.is_space c) eqn:E; [exact IH|]. cbn. now rewrite E.
Qed.

(** What [trimStart] returns is empty or starts with a character that is
    not white space. *)
Lemma trimStart_head s :
  Js.trimStart s = EmptyString
  \/ exists c r, Js.trimStart s = String c r /\ Js.is_space c = false.
Proof.
  induction s as [|c s IH]; [left; reflexivity|]. cbn.
  destruct (Js.is_space c) eqn:E; [exact IH|]. right. eauto.
Qed.

Lemma trimStart_snoc s c :
  Js.is_space c = false ->
  exists r, Js.trimStart (s +:+ String c EmptyString) = r +:+ String c EmptyString.
Proof.
  intros Hc. induction s as [|a s IH].
  - rewrite app_empty. cbn [Js.trimStart]. rewrite Hc. exists EmptyString. reflexivity.
  - rewrite app_cons. cbn [Js.trimStart].
    destruct (Js.is_space a); [exact IH|]. exists (String a s). reflexivity.
Qed.

Lemma trimEnd_head c r :
  Js.is_space c = false -> exists z, Js.trimEnd (String c r) = String c z.
Proof.
  intros Hc. unfold Js.trimEnd. unfold String.rev at 2. cbn [String.rev_app].
  rewrite rev_app_append.
  destruct (trimStart_snoc (String.rev r) c Hc) as [y ->].
  unfold String.rev. rewrite rev_app_app. cbn [String.rev_app]. eauto.
Qed.

Lemma trim_idem s : Js.trim (Js.trim s) = Js.trim s.
Proof.
  unfold Js.trim.
  assert (Hstart : Js.trimStart (Js.trimEnd (Js.trimStart s)) = Js.trimEnd (Js.trimStart s)).
  { destruct (trimStart_head s) as [->|(c & r & -> & Hc)]; [reflexivity|].
    destruct (trimEnd_head c r Hc) as [z ->]. cbn [Js.trimStart]. now rewrite Hc. }
  rewrite Hstart. unfold Js.trimEnd. rewrite string_rev_involutive, trimStart_idem. reflexivity.
Qed.

(** ** The handler *)

Section HandlerProperties.

Variable chrono_parse : Clock -> string -> list ChronoResult.
Variable chrono_parseDate : Clock -> string -> option JsDate.
Variable doctorLimits : option (string -> option Z).
Variable env_verify_token : option string.

Lemma processMessage_trim clock sender text s :
  processMessage chrono_parse chrono_parseDate doctorLimits clock sender (Js.trim text) s
  = processMessage chrono_parse chrono_parseDate doctorLimits clock sender text s.
Proof. unfold processMessage. rewrite trim_idem. reflexivity. Qed.

Lemma handler_text clock q sender b s :
  handler chrono_parse chrono_parseDate doctorLimits env_verify_token clock (text_event q sender b) s
  = let o := processMessage chrono_parse chrono_parseDate doctorLimits clock sender b s in
    respond (out_store o) (out_sent o)
      (match out_threw o with Some _ => 500 | None => 200 end)
      (Some (match out_threw o with Some _ => "Internal Server Error" | None => "OK" end)).
Proof.
  unfold handler, text_event. cbn [httpMethod body msg_text tb_body msg_from].
  change (String.eqb "POST" "GET") with false. change (String.eqb "POST" "POST") with true.
  cbv iota. rewrite processMessage_trim. cbv zeta.
  destruct (out_threw _); reflexivity.
Qed.

(** An invocation changes the store or sends a text only for a POST that
    carries a text message with a body. *)
Theorem only_text_posts_act clock e s :
  let h := handler chrono_parse chrono_parseDate doctorLimits env_verify_token clock e s in
  h_store h <> s \/ h_sent h <> [] ->
  exists message text b,
    httpMethod e = "POST" /\ body e = BodyParsed (Some message)
    /\ msg_text message = Some text /\ tb_body text = Some b.
Proof.
  cbv zeta. unfold handler.
  destruct (String.eqb (httpMethod e) "GET").
  { destruct (_ && _); cbn; intros [H|H]; contradiction. }
  destruct (String.eqb_spec (httpMethod e) "POST") as [Hpost|_];
    [|cbn; intros [H|H]; contradiction].
  destruct (body e) as [|[message|]]; try (cbn; intros [H|H]; contradiction).
  destruct (msg_text message) as [text|] eqn:Htext; [|cbn; intros [H|H]; contradiction].
  destruct (tb_body text) as [b|] eqn:Hb; [|cbn; intros [H|H]; contradiction].
  intros _. exists message, text, b. repeat split; assumption.
Qed.

End HandlerProperties.

(** The start phrase is answered, so the event is a POST with a text. *)
Lemma only_text_posts_act_witness :
  exists message text b,
    httpMethod (text_event None sample_sender "patient registration") = "POST"
    /\ body (text_event None sample_sender "patient registration") = BodyParsed (Some message)
    /\ msg_text message = Some text /\ tb_body text = Some b.
Proof.
  apply (only_text_posts_act chrono_parse_sample chrono_parseDate_sample None None (minutes 0)
           (text_event None sample_sender "patient registration") empty_store).
  right. vm_compute. discriminate.
Defined.

Section HandlerWithTable.

Variable chrono_parse : Clock -> string -> list ChronoResult.
Variable chrono_parseDate : Clock -> string -> option JsDate.
Variable env_verify_token : option string.

(** As shipped, with [doctorLimits] undeclared: a future date accepted at
    step [registrationDate] is stored and the session moves on to
    [registrationTime], but the invocation fails with status 500 before any
    prompt is sent. *)
Theorem shipped_date_answer_fails clock q sender b s d name parsed :
  live_session s sender (nowMs clock) registrationDateStep d ->
  isGreeting (Js.trim b) = false ->
  department d = Some name -> In name deptList ->
  chrono_parseDate clock (Js.trim b) = Some parsed ->
  String.leb (isoDate parsed) (today clock) = false ->
  handler chrono_parse chrono_parseDate None env_verify_token clock (text_event q sender b) s
  = respond (setState (nowMs clock) sender (Some registrationTimeStep)
               (Some (set_registrationDate (isoDate parsed) d)) s)
      [] 500 (Some "Internal Server Error").
Proof.
  intros Hlive Hgreet Hname Hin Hparsed Hfuture.
  rewrite handler_text.
  rewrite (processMessage_live _ _ _ _ _ _ _ _ _ Hlive Hgreet).
  unfold dialogue_step. rewrite Hparsed, Hfuture.
  cbn [department set_registrationDate]. rewrite Hname. cbn [to_template].
  destruct (deptList_department_of name Hin) as [dept Hdept]. rewrite Hdept.
  pose proof (catalogue_times_nonempty name dept Hdept) as Hne.
  destruct (hoursBetween _ _); [contradiction|]. reflexivity.
Qed.

End HandlerWithTable.

(** The session of the example names tomorrow. *)
Lemma shipped_date_answer_fails_witness :
  handler chrono_parse_sample chrono_parseDate_sample None None (minutes 1)
    (text_event None sample_sender "tomorrow") store_at_date
  = respond (setState (nowMs (minutes 1)) sample_sender (Some registrationTimeStep)
               (Some (set_registrationDate "2025-12-01" asked_data)) store_at_date)
      [] 500 (Some "Internal Server Error").
Proof.
  apply (shipped_date_answer_fails chrono_parse_sample chrono_parseDate_sample None (minutes 1)
           None sample_sender "tomorrow" store_at_date asked_data "Cardiology" tomorrow_noon).
  - exists date_session, 0. repeat split; vm_compute; discriminate.
  - reflexivity.
  - reflexivity.
  - left. reflexivity.
  - reflexivity.
  - reflexivity.
Defined.

(** ** The last step on a full slot *)

Section FullSlot.

Variable chrono_parse : Clock -> string -> list ChronoResult.
Variable chrono_parseDate : Clock -> string -> option JsDate.
Variable doctorLimits : option (string -> option Z).

Lemma attemptRegistration_full now d s name dept time :
  precheck d = inr (name, dept, time) ->
  capacity dept <= slot_count s (slot_id name (to_template (registrationDate d)) time) ->
  attemptRegistration now d s = (s, inl "Slot full").
Proof.
  intros Hpre Hfull. unfold attemptRegistration. rewrite Hpre.
  unfold runTransaction. rewrite (registration_tx_full now d name dept time s Hfull).
  reflexivity.
Qed.

(** An accepted time whose slot is full books nothing: ledger, records and
    counter stay as they are, the session stays at step [registrationTime]
    with the refused time stored, and the reply carries the error. *)
Theorem full_slot_keeps_session clock sender answer s d name dept date time :
  live_session s sender (nowMs clock) registrationTimeStep d ->
  isGreeting (Js.trim answer) = false ->
  department d = Some name ->
  department_of name = Some dept ->
  registrationDate d = Some date ->
  picked_time chrono_parseDate clock dept (Js.trim answer) = Some time ->
  capacity dept <= slot_count s (slot_id name date time) ->
  processMessage chrono_parse chrono_parseDate doctorLimits clock sender answer s
  = done_with (setState (nowMs clock) sender (Some registrationTimeStep)
                 (Some (set_registrationTime time d)) s)
      [msg_failed "Slot full"].
Proof.
  intros Hlive Hgreet Hd Hdept Hdate Hpick Hfull.
  rewrite (processMessage_live _ _ _ _ _ _ _ _ _ Hlive Hgreet).
  unfold dialogue_step. rewrite Hd. cbn [to_template]. rewrite Hdept.
  pose proof (picked_time_valid _ _ _ _ _ Hpick) as Hvalid.
  unfold picked_time in Hpick. rewrite Hpick.
  rewrite (attemptRegistration_full (nowMs clock) (set_registrationTime time d) s name dept time).
  - reflexivity.
  - apply precheck_passes; try assumption; try reflexivity.
    destruct name; [discriminate|reflexivity].
  - cbn [registrationDate set_registrationTime]. rewrite Hdate. exact Hfull.
Qed.

End FullSlot.

(** The session of the example picks nine o'clock, which is full. *)
Lemma full_slot_keeps_session_witness :
  processMessage chrono_parse_sample chrono_parseDate_sample None (minutes 1) sample_sender "1"
    store_at_time
  = done_with (setState (nowMs (minutes 1)) sample_sender (Some registrationTimeStep)
                 (Some (set_registrationTime "09:00"
                          (set_registrationDate "2025-12-01" asked_data))) store_at_time)
      [msg_failed "Slot full"].
Proof.
  apply (full_slot_keeps_session chrono_parse_sample chrono_parseDate_sample None (minutes 1)
           sample_sender "1" store_at_time (set_registrationDate "2025-12-01" asked_data)
           "Cardiology" cardiology "2025-12-01" "09:00").
  - exists time_session, 0. repeat split; vm_compute; discriminate.
  - reflexivity.
  - reflexivity.
  - reflexivity.
  - reflexivity.
  - reflexivity.
  - vm_compute. discriminate.
Defined.

(** ** When a registration succeeds *)

(** A registration succeeds only when the data name a department of the
    catalogue, one of its generated times and a date, and the slot is under
    capacity; it does succeed then, when the key of the slot is a valid
    document id and the fields are of moderate size; and whenever it throws,
    the store is left as it was. *)
Theorem attemptRegistration_succeeds_when now d s :
  ((exists id, snd (attemptRegistration now d s) = inr id) ->
   exists name dept date time,
     department d = Some name /\ registrationTime d = Some time
     /\ registrationDate d = Some date /\ valid_slot name dept time
     /\ slot_count s (slot_id name date time) < capacity dept)
  /\ (forall name dept date time,
         department d = Some name -> registrationTime d = Some time ->
         registrationDate d = Some date -> valid_slot name dept time ->
         document_id (slot_id name date time) = true ->
         small_data d = true ->
         slot_count s (slot_id name date time) < capacity dept ->
         exists id, snd (attemptRegistration now d s) = inr id)
  /\ ((exists e, snd (attemptRegistration now d s) = inl e) ->
      fst (attemptRegistration now d s) = s).
Proof.
  split; [|split].
  - intros [id Hid].
    destruct (attemptRegistration_outcome now d s) as [e|name dept date time Hpre Hdate Hfree].
    + discriminate.
    + destruct (precheck_valid d name dept time Hpre) as (Hvalid & Hname & Htime).
      exists name, dept, date, time. repeat split; try assumption; apply Hvalid.
  - intros name dept date time Hname Htime Hdate [Hdept Hin] _ _ Hfree.
    rewrite (attemptRegistration_success now d s name dept date time); [eauto| |assumption..].
    apply precheck_passes; try assumption.
    apply assoc_In in Hdept. cbv [departmentSlots In] in Hdept.
    repeat (destruct Hdept as [[= <- <-]|Hdept]; [reflexivity|]). contradiction.
  - intros [e He]. pose proof (attemptRegistration_atomic now d s) as H.
    destruct (attemptRegistration now d s) as [s' [e'|id]]; [exact H|discriminate].
Qed.

(** The sample booking on the empty store. *)
Lemma attemptRegistration_succeeds_when_witness :
  exists id, snd (attemptRegistration 0 sample_booking empty_store) = inr id.
Proof.
  apply (proj1 (proj2 (attemptRegistration_succeeds_when 0 sample_booking empty_store))
           "Cardiology" cardiology "2025-12-01" "10:00").
  - reflexivity.
  - reflexivity.
  - reflexivity.
  - split; reflexivity.
  - reflexivity.
  - reflexivity.
  - reflexivity.
Defined.

(** ** [normalizeGender] *)

Lemma startsWith_female_male s :
  Js.startsWith "female" s = true -> Js.startsWith "male" (Js.drop 2 s) = true.
Proof.
  destruct s as [|a [|b s]]; cbn [Js.startsWith Js.drop]; try discriminate.
  - destruct (Ascii.eqb "f" a); discriminate.
  - destruct (Ascii.eqb "f" a); [|discriminate].
    destruct (Ascii.eqb "e" b); [|discriminate]. tauto.
Qed.

Lemma includes_cons s c sub : Js.includes s sub = true -> Js.includes (String c s) sub = true.
Proof. intros H. cbn [Js.includes]. rewrite H. apply orb_true_r. Qed.

Lemma includes_female_male s : Js.includes s "female" = true -> Js.includes s "male" = true.
Proof.
  induction s as [|c s IH]; [cbn; discriminate|].
  intros H. cbn [Js.includes] in H. apply orb_true_iff in H as [H|H].
  - apply startsWith_female_male in H.
    destruct s as [|b s]; [cbn [Js.drop Js.startsWith] in H; discriminate|].
    cbn [Js.drop] in H. do 2 apply includes_cons.
    destruct s; cbn [Js.includes]; rewrite H; reflexivity.
  - apply includes_cons, IH, H.
Qed.

(** ["female"] contains ["male"], and the test for ["male"] comes first: a
    text that contains the word female is read as Male, and Female is the
    answer only for the single letter f. *)
Theorem normalizeGender_female text :
  (Js.includes (Js.toLowerCase text) "female" = true -> normalizeGender text = Some "Male")
  /\ (normalizeGender text = Some "Female" <-> Js.toLowerCase text = "f").
Proof.
  unfold normalizeGender. cbv zeta. split.
  - intros H. rewrite (includes_female_male _ H). reflexivity.
  - destruct (Js.includes (Js.toLowerCase text) "male") eqn:Hmale; cbn [orb].
    + split; [discriminate|]. intros E. rewrite E in Hmale. discriminate.
    + destruct (String.eqb_spec (Js.toLowerCase text) "m") as [Em|_].
      * split; [discriminate|]. intros E. rewrite E in Em. discriminate.
      * destruct (Js.includes (Js.toLowerCase text) "female") eqn:Hfemale.
        { rewrite (includes_female_male _ Hfemale) in Hmale. discriminate. }
        cbn [orb]. destruct (String.eqb_spec (Js.toLowerCase text) "f") as [Ef|Ef].
        { split; [intros _; exact Ef|reflexivity]. }
        split; [|intros E; contradiction].
        destruct (_ || _); discriminate.
Qed.

(** The word itself. *)
Lemma normalizeGender_female_witness : normalizeGender "Female" = Some "Male".
Proof. apply (proj1 (normalizeGender_female "Female")). reflexivity. Defined.

(** ** [hoursBetween] outside its windows *)

(** A window that closes before it opens, with hours that JavaScript holds
    exactly, or whose opening or closing time does not start with a number,
    has no times. *)
Theorem hoursBetween_no_times (a b : string) :
  match Js.parseInt (Js.before ":" a), Js.parseInt (Js.before ":" b) with
  | Some s, Some e => e < s /\ js_exact s /\ js_exact e
  | _, _ => True
  end ->
  hoursBetween a b = [].
Proof.
  unfold hoursBetween.
  destruct (Js.parseInt (Js.before ":" a)) as [s|]; [|reflexivity].
  destruct (Js.parseInt (Js.before ":" b)) as [e|]; [|reflexivity].
  intros [Hlt _]. replace (Z.to_nat (e - s + 1)) with 0%nat by lia. reflexivity.
Qed.

(** Cardiology's window the wrong way round. *)
Lemma hoursBetween_no_times_witness : hoursBetween "12:00" "09:00" = [].
Proof.
  apply (hoursBetween_no_times "12:00" "09:00"). vm_compute.
  repeat split; discriminate.
Defined.

(** ** Runs of characters under the matcher *)

Lemma search_from_match r s :
  forall prev m,
    search_from r prev s = Some m ->
    exists pre rest, s = pre +:+ rest /\ match_here r (last_char prev pre) rest = Some m.
Proof.
  induction s as [|c s IH]; intros prev m Hfound; cbn [search_from] in Hfound.
  - exists EmptyString, EmptyString. split; [reflexivity|]. cbn [last_char].
    destruct (match_here r prev EmptyString); congruence.
  - destruct (match_here r prev (String c s)) eqn:Hhere.
    + exists EmptyString, (String c s). split; [reflexivity|]. cbn [last_char]. congruence.
    + destruct (IH _ _ Hfound) as (pre & rest & -> & Hrest).
      exists (String c pre), rest. split; [reflexivity|]. exact Hrest.
Qed.

(** [n] repetitions of a class consume [n] characters of the class. *)
Lemma rmatch_times_inv p n :
  forall prev s k x,
    rmatch (Times n (Class p)) prev s k = Some x ->
    exists ds rest prev',
      s = ds +:+ rest /\ String.length ds = n /\ every p ds = true /\ k prev' rest = Some x.
Proof.
  induction n as [|n IH]; intros prev s k x H; cbn [Times rmatch] in H.
  - exists EmptyString, s, prev. repeat split. exact H.
  - destruct s as [|c s]; [discriminate|]. destruct (p c) eqn:Hc; [|discriminate].
    destruct (IH _ _ _ _ H) as (ds & rest & prev' & -> & Hlen & Hall & Hk).
    exists (String c ds), rest, prev'. cbn [String.length every]. rewrite Hc, Hall, Hlen.
    repeat split. exact Hk.
Qed.

Lemma rmatch_times_run p n :
  forall prev ds rest k,
    String.length ds = n -> every p ds = true ->
    rmatch (Times n (Class p)) prev (ds +:+ rest) k = k (last_char prev ds) rest.
Proof.
  induction n as [|n IH]; intros prev ds rest k Hlen Hall.
  - destruct ds; [reflexivity|discriminate].
  - destruct ds as [|c ds]; [discriminate|].
    cbn [every] in Hall. apply andb_true_iff in Hall as [Hc Hall].
    rewrite app_cons. cbn [Times rmatch]. rewrite Hc. cbn [last_char].
    apply IH; [now injection Hlen|exact Hall].
Qed.

(** An optional tail never makes a match fail. *)
Lemma rmatch_upto_total r n :
  forall prev s (k : option ascii -> string -> option string),
    (forall p' s', k p' s' <> None) -> rmatch (UpTo n r) prev s k <> None.
Proof.
  induction n as [|n IH]; intros prev s k Hk; cbn [UpTo Opt rmatch]; [apply Hk|].
  destruct (rmatch r prev s _); [discriminate|apply Hk].
Qed.

Lemma digit_facts c :
  Js.is_digit c = true ->
  Ascii.eqb "+" c = false /\ Js.is_space c = false /\ 0 <= Js.digit_value c <= 9
  /\ (Ascii.eqb c "0" = false -> 1 <= Js.digit_value c)
  /\ forall r, Js.parseInt (String c r) = Some (Js.digits_value 0 (String c r)).
Proof.
  intros H.
  destruct c as [[] [] [] [] [] [] [] []]; vm_compute in H; try discriminate H;
    (split; [reflexivity|]); (split; [reflexivity|]);
    (split; [vm_compute; split; discriminate|]);
    (split; [|intros r; reflexivity]);
    intros H0; vm_compute in H0; try discriminate H0; vm_compute; discriminate.
Qed.

(** ** [validatePhone] *)

Lemma filter_every p s : every p (Js.filter p s) = true.
Proof.
  induction s as [|c s IH]; [reflexivity|]. cbn [Js.filter].
  destruct (p c) eqn:Hc; [|exact IH]. cbn [every]. now rewrite Hc, IH.
Qed.

Lemma filter_fixed p s : every p s = true -> Js.filter p s = s.
Proof.
  induction s as [|c s IH]; [reflexivity|]. cbn [every Js.filter].
  intros H. apply andb_true_iff in H as [-> H]. now rewrite IH.
Qed.

Lemma phone_re_runs s :
  test phone_re s = true
  <-> exists a ds b,
        s = a +:+ ds +:+ b /\ String.length ds = 10%nat /\ every Js.is_digit ds = true.
Proof.
  unfold test, exec. split.
  - destruct (search_from phone_re None s) as [m|] eqn:Hfound; [intros _|discriminate].
    destruct (search_from_found _ _ _ _ Hfound) as (pre & rest & -> & Hhere).
    unfold match_here in Hhere.
    destruct (rmatch phone_re _ rest _) as [x|] eqn:Hm; [clear Hhere|congruence].
    unfold phone_re, Between, Opt, Chr in Hm. cbn [rmatch] in Hm.
    match type of Hm with
    | match ?first with Some _ => _ | None => ?second end = _ =>
        destruct first as [y|] eqn:Hplus
    end.
    + destruct rest as [|c rest]; [discriminate|].
      destruct (Ascii.eqb "+" c); [|discriminate].
      destruct (rmatch_times_inv _ _ _ _ _ _ Hplus) as (ds & b & _ & -> & Hlen & Hall & _).
      exists (pre +:+ String c EmptyString), ds, b.
      rewrite string_app_assoc. repeat split; assumption.
    + destruct (rmatch_times_inv _ _ _ _ _ _ Hm) as (ds & b & _ & -> & Hlen & Hall & _).
      exists pre, ds, b. repeat split; assumption.
  - intros (a & ds & b & -> & Hlen & Hall).
    assert (Hhere : search_from phone_re None (a +:+ ds +:+ b) <> None).
    { apply search_from_later. unfold match_here.
      assert (Hm : rmatch phone_re (last_char None a) (ds +:+ b) (fun _ rest => Some rest)
                   <> None).
      { unfold phone_re, Between, Opt, Chr. cbn [rmatch].
        match goal with
        | |- match ?first with Some _ => _ | None => _ end <> None =>
            destruct first; [discriminate|]
        end.
        rewrite (rmatch_times_run _ 10) by assumption.
        apply rmatch_upto_total. discriminate. }
      destruct (rmatch phone_re _ _ _); congruence. }
    destruct (search_from phone_re None _); congruence.
Qed.

(** [validatePhone] keeps the digits and plus signs of the text, and accepts
    the result exactly when it holds ten digits in a row: the pattern is not
    anchored, so neither its upper bound of fourteen digits nor the position
    of the plus sign restricts anything.  What it returns is accepted again
    unchanged. *)
Theorem validatePhone_ten_digits text v :
  (validatePhone text = Some v
   <-> v = Js.filter phone_char text
       /\ exists a ds b,
            v = a +:+ ds +:+ b /\ String.length ds = 10%nat
            /\ every Js.is_digit ds = true)
  /\ (validatePhone text = Some v -> validatePhone v = Some v).
Proof.
  assert (Hiff : validatePhone text = Some v
                 <-> v = Js.filter phone_char text /\ test phone_re v = true).
  { unfold validatePhone. cbv zeta. fold phone_char.
    destruct (test phone_re (Js.filter phone_char text)) eqn:Htest.
    - split; [intros [= <-]; split; [reflexivity|exact Htest]|intros [-> _]; reflexivity].
    - split; [discriminate|]. intros [-> H]. congruence. }
  split.
  - rewrite Hiff, phone_re_runs. reflexivity.
  - intros H. apply Hiff in H as [-> Htest].
    unfold validatePhone. cbv zeta. fold phone_char.
    rewrite (filter_fixed phone_char _ (filter_every phone_char text)), Htest. reflexivity.
Qed.

(** A number written with a space and a dash. *)
Lemma validatePhone_ten_digits_witness :
  validatePhone "+91 98765-43210" = Some "+919876543210".
Proof.
  apply (proj2 (proj1 (validatePhone_ten_digits "+91 98765-43210" "+919876543210"))).
  split; [reflexivity|].
  exists "+91", "9876543210", EmptyString. repeat split.
Defined.

(** ** [parseChoice] *)

Lemma take_front (n : nat) (pre rest : string) :
  String.length pre = n -> Js.take (String.length (pre +:+ rest) - String.length rest) (pre +:+ rest) = pre.
Proof.
  intros <-. rewrite string_length_app.
  replace (String.length pre + String.length rest - String.length rest)%nat
    with (String.length pre) by lia.
  induction pre as [|c pre IH]; [destruct rest; reflexivity|].
  rewrite app_cons. cbn [String.length Js.take]. now rewrite IH.
Qed.

(** A choice is a number from 1 to 99: one digit that is not zero, and at
    most one more digit. *)
Theorem parseChoice_range text n : parseChoice text = Some n -> 1 <= n <= 99.
Proof.
  unfold parseChoice, exec.
  destruct (search_from choice_re None text) as [m|] eqn:Hfound; [|discriminate].
  destruct (search_from_match _ _ _ _ Hfound) as (pre & s & _ & Hhere).
  unfold match_here in Hhere.
  destruct (rmatch choice_re _ s _) as [rest|] eqn:Hm; [|discriminate].
  injection Hhere as <-.
  unfold choice_re, Opt in Hm. cbn [rmatch] in Hm.
  destruct (xorb _ _); [|discriminate].
  destruct s as [|c s]; [discriminate|].
  destruct (Js.is_digit c && negb (Ascii.eqb c "0")) eqn:Hc; [|discriminate].
  apply andb_true_iff in Hc as [Hdigit Hnz]. apply negb_true_iff in Hnz.
  destruct (digit_facts c Hdigit) as (_ & _ & Hrange & Hone & Hparse).
  specialize (Hone Hnz).
  match type of Hm with
  | match ?first with Some _ => _ | None => ?second end = _ =>
      destruct first as [y|] eqn:Htwo
  end.
  - injection Hm as ->.
    destruct s as [|c2 s]; [discriminate|].
    destruct (Js.is_digit c2) eqn:Hdigit2; [|discriminate].
    destruct (xorb _ _); [|discriminate]. injection Htwo as <-.
    destruct (digit_facts c2 Hdigit2) as (_ & _ & Hrange2 & _).
    change (String c (String c2 s)) with ((String c (String c2 EmptyString)) +:+ s).
    rewrite (take_front 2) by reflexivity.
    rewrite Hparse. cbn [Js.digits_value]. rewrite Hdigit, Hdigit2.
    intros [= <-]. lia.
  - destruct (xorb _ _); [|discriminate]. injection Hm as <-.
    change (String c s) with ((String c EmptyString) +:+ s).
    rewrite (take_front 1) by reflexivity.
    rewrite Hparse. cbn [Js.digits_value]. rewrite Hdigit.
    intros [= <-]. lia.
Qed.

(** A choice inside a sentence. *)
Lemma parseChoice_range_witness : parseChoice "slot 12 please" = Some 12 /\ 1 <= 12 <= 99.
Proof.
  split; [reflexivity|]. apply (parseChoice_range "slot 12 please" 12). reflexivity.
Defined.

(** ** The webhook of the Cloud-Functions variant *)

Lemma legacy_ledger_ok_with_states f s : legacy_ledger_ok s -> legacy_ledger_ok (with_states f s).
Proof. intros [H1 H2 H3]. split; [exact H1|exact H2|exact H3]. Qed.

Lemma legacy_getState_ok now sender s :
  legacy_ledger_ok s -> legacy_ledger_ok (fst (Legacy.getState now sender s)).
Proof.
  intros Hok. unfold Legacy.getState.
  destruct (registration_states s !! sender) as [doc|]; [|exact Hok].
  destruct (updatedAt doc) as [t|]; [|exact Hok].
  destruct (_ >? _); [apply legacy_ledger_ok_with_states|]; exact Hok.
Qed.

Section LegacyWebhook.

Variable chrono_parseDate : Clock -> string -> option JsDate.
Variable cfg_verify : option (option string).

Lemma legacy_step_flow_ok clock message st data s :
  legacy_ledger_ok s ->
  legacy_ledger_ok (Legacy.w_store (Legacy.step_flow chrono_parseDate clock message st data s)).
Proof.
  intros Hok. unfold Legacy.step_flow. cbv zeta.
  destruct st, data as [d|];
    repeat match goal with
    | |- context [Legacy.attemptRegistration ?n ?x ?y] =>
        pose proof (legacy_attempt_ok n x y Hok);
        destruct (Legacy.attemptRegistration n x y) as [? [?|?]]
    | |- context [if ?b then _ else _] => destruct b
    | |- context [match ?x with _ => _ end] => destruct x
    end;
    cbn [Legacy.w_store Legacy.answered Legacy.failed Legacy.respond fst] in *;
    try exact Hok; try assumption;
    try (apply legacy_ledger_ok_with_states; first [exact Hok|assumption]).
Qed.

Lemma legacy_webhook_ok clock req s :
  legacy_ledger_ok s ->
  legacy_ledger_ok (Legacy.w_store (Legacy.webhook chrono_parseDate cfg_verify clock req s)).
Proof.
  intros Hok. unfold Legacy.webhook. cbv zeta.
  destruct (String.eqb (Legacy.req_method req) "GET").
  { destruct (Legacy.same_value _ _); [|exact Hok].
    destruct cfg_verify as [configured|]; [|exact Hok].
    destruct (Legacy.same_value _ _); exact Hok. }
  destruct (String.eqb (Legacy.req_method req) "POST"); [|exact Hok].
  destruct (Legacy.req_message req) as [message|]; [|exact Hok].
  destruct (_ || _); [exact Hok|].
  pose proof (legacy_getState_ok (nowMs clock) (Legacy.m_from message) s Hok) as Hok1.
  destruct (Legacy.getState _ _ s) as [s1 state]. cbn [fst] in Hok1.
  destruct (step state) as [st|]; [apply legacy_step_flow_ok, Hok1|].
  destruct (Legacy.parseFullSentence _ _ _) as [e|parsed]; [exact Hok1|].
  destruct (_ && _).
  - pose proof (legacy_attempt_ok (nowMs clock)
                  (Legacy.quick_data (Legacy.m_from message) parsed) s1 Hok1) as Hok2.
    destruct (Legacy.attemptRegistration _ _ s1) as [s2 [e|pid]]; exact Hok2.
  - destruct (Js.includes _ _); [apply legacy_ledger_ok_with_states|]; exact Hok1.
Qed.

Lemma legacy_serve_ok reqs :
  forall s, legacy_ledger_ok s ->
    legacy_ledger_ok (Legacy.serve chrono_parseDate cfg_verify reqs s).
Proof.
  induction reqs as [|[clock req] rest IH]; intros s Hok; [exact Hok|].
  cbn [Legacy.serve]. apply IH, legacy_webhook_ok, Hok.
Qed.

End LegacyWebhook.

(** The bounds that the consistency of the variant gives. *)
Lemma legacy_ok_bounds s name dept date time :
  legacy_ledger_ok s ->
  department_of name = Some dept ->
  slot_count s (slot_id name date time) <= capacity dept
  /\ Z.of_nat (records_for name date time s) <= capacity dept.
Proof.
  intros [_ Hbooks Hslot] Hdept.
  assert (Hle : (records_for name date time s
                 <= size (filter (keyed (slot_id name date time)) (patients s)))%nat).
  { unfold records_for. apply map_subseteq_size, map_filter_subseteq_ext.
    intros pid doc _ (Hn & Hd & Ht). unfold keyed, record_key. cbn [snd] in *.
    rewrite Hn, Hd, Ht. reflexivity. }
  pose proof (Hbooks (slot_id name date time)) as Hb.
  destruct (department_shape _ _ Hdept) as [Hname Hcap].
  destruct (appointments s !! slot_id name date time) as [sd|] eqn:Hk.
  - rewrite (slot_count_or_num _ _ _ Hk) in Hb |- *.
    destruct (Hslot _ _ Hk) as (dept' & Hdept' & Hkey & Hrange).
    destruct (department_shape _ _ Hdept') as [Hname' _].
    unfold slot_id in Hkey. change ("_" +:+ ?r) with (String "_" r) in Hkey.
    apply app_inj_separator in Hkey as [Hsame _]; [|assumption..].
    rewrite <- Hsame, Hdept in Hdept'. injection Hdept' as <-. lia.
  - unfold slot_count in Hb |- *. rewrite Hk in Hb |- *. cbn [count_of] in Hb |- *. lia.
Qed.

(** Whatever requests the webhook of the variant serves from the empty
    store, no slot of a catalogue department counts more patients than its
    capacity, and no department, date and time has more patient records than
    that. *)
Theorem legacy_served_within_capacity cpd cfg reqs name dept date time :
  department_of name = Some dept ->
  slot_count (Legacy.serve cpd cfg reqs empty_store) (slot_id name date time) <= capacity dept
  /\ Z.of_nat (records_for name date time (Legacy.serve cpd cfg reqs empty_store))
     <= capacity dept.
Proof.
  intros Hdept. apply legacy_ok_bounds; [|exact Hdept].
  apply legacy_serve_ok, legacy_ledger_ok_empty.
Qed.

(** The sentence of the example, served from the empty store. *)
Lemma legacy_served_within_capacity_witness :
  slot_count (Legacy.serve chrono_parseDate_night None
                [(minutes 0, legacy_post sample_sender night_sentence)] empty_store)
    (slot_id "Cardiology" "2025-12-01" "03:00") <= 10
  /\ Z.of_nat (records_for "Cardiology" "2025-12-01" "03:00"
                 (Legacy.serve chrono_parseDate_night None
                    [(minutes 0, legacy_post sample_sender night_sentence)] empty_store)) <= 10.
Proof.
  apply (legacy_served_within_capacity chrono_parseDate_night None
           [(minutes 0, legacy_post sample_sender night_sentence)]
           "Cardiology" cardiology "2025-12-01" "03:00").
  reflexivity.
Defined.

(** ** The one-sentence booking of the variant *)

Lemma legacy_attempt_run now d s dept :
  department_of (to_template (department d)) = Some dept ->
  Legacy.attemptRegistration now d s
  = match runTransaction
            (Legacy.slot_tx now d dept (patient_id (legacy_next s)))
            (apply_writes [SetCounter (legacy_next s + 1)] s) with
    | (s2, inl e) => (s2, inl e)
    | (s2, inr _) => (s2, inr (legacy_next s, patient_id (legacy_next s)))
    end.
Proof.
  intros Hdept. unfold Legacy.attemptRegistration. rewrite Hdept, legacy_generatePatientId_run.
  reflexivity.
Qed.

Lemma label_nonempty a b : Js.truthy (Some (a +:+ ":" +:+ b)) = true.
Proof. destruct a; reflexivity. Qed.

Lemma catalogue_name_nonempty name : In name deptList -> Js.truthy (Some name) = true.
Proof.
  intros Hin. cbv [deptList departmentSlots map fst In] in Hin.
  repeat (destruct Hin as [<-|Hin]; [reflexivity|]). contradiction.
Qed.

Lemma legacy_normalizeDepartment_In text v :
  Legacy.normalizeDepartment text = Some v -> In v deptList.
Proof. intros H. apply find_some in H as [H _]. exact H. Qed.

Section LegacyQuickBooking.

Variable chrono_parseDate : Clock -> string -> option JsDate.
Variable cfg_verify : option (option string).

Lemma legacy_parse_quick clock text name parsed :
  Legacy.normalizeDepartment text = Some name ->
  chrono_parseDate clock text = Some parsed ->
  String.ltb (today clock) (isoDate parsed) = true ->
  exists g,
    Legacy.parseFullSentence chrono_parseDate clock text
    = inr {| Legacy.pf_department := Some name; Legacy.pf_date := Some (isoDate parsed);
             Legacy.pf_time := Some (quick_time parsed); Legacy.pf_gender := g |}
    /\ (g = Some "Male" \/ g = Some "Other" \/ g = None).
Proof.
  intros Hname Hparsed Hfuture.
  unfold Legacy.parseFullSentence, Legacy.parseFutureDate. cbv zeta.
  rewrite Hname, Hparsed, Hfuture. fold (quick_time parsed).
  unfold quick_time at 1. rewrite label_nonempty. cbn [negb andb].
  eexists. split; [reflexivity|].
  destruct (Js.includes (Js.toLowerCase text) "male") eqn:Hmale; [left; reflexivity|].
  destruct (Js.includes (Js.toLowerCase text) "female") eqn:Hfemale.
  { rewrite (includes_female_male _ Hfemale) in Hmale. discriminate. }
  destruct (Js.includes (Js.toLowerCase text) "other"); [right; left|right; right]; reflexivity.
Qed.

Lemma legacy_webhook_quick clock sender b s name parsed :
  (String.eqb (quick_text b) "hi" || String.eqb (quick_text b) "hello") = false ->
  step (snd (Legacy.getState (nowMs clock) sender s)) = None ->
  Legacy.normalizeDepartment (quick_text b) = Some name ->
  chrono_parseDate clock (quick_text b) = Some parsed ->
  String.ltb (today clock) (isoDate parsed) = true ->
  exists g,
    (g = "Male" \/ g = "Other")
    /\ Legacy.webhook chrono_parseDate cfg_verify clock (legacy_post sender b) s
       = let d := {| firstName := Some "Unknown"; lastName := Some "Unknown"; gender := Some g;
                     address := Some "Unknown"; email := Some "Unknown";
                     phoneNumber := Some sender; department := Some name;
                     registrationDate := Some (isoDate parsed);
                     registrationTime := Some (quick_time parsed) |} in
         match Legacy.attemptRegistration (nowMs clock) d
                 (fst (Legacy.getState (nowMs clock) sender s)) with
         | (s2, inl _) => Legacy.failed s2 []
         | (s2, inr pid) =>
             Legacy.answered s2
               [Legacy.SentText sender
                  (Legacy.msg_quick (snd pid) name (isoDate parsed) (quick_time parsed))]
         end.
Proof.
  intros Hgreet Hstep Hname Hparsed Hfuture.
  destruct (legacy_parse_quick clock _ name parsed Hname Hparsed Hfuture) as (g & Hparse & Hg).
  exists (if Js.truthy g then Js.or_empty g else "Other"). split.
  { destruct Hg as [->|[->| ->]]; [left|right|right]; reflexivity. }
  unfold Legacy.webhook, legacy_post.
  cbn [Legacy.req_method Legacy.req_message Legacy.req_query Legacy.m_from].
  change (String.eqb "POST" "GET") with false. change (String.eqb "POST" "POST") with true.
  cbv iota zeta.
  assert (Htext : Legacy.text_or_button
                    {| Legacy.m_from := sender; Legacy.m_text_body := Some b;
                       Legacy.m_button_text := None |} = b).
  { unfold Legacy.text_or_button, Legacy.or_else. cbn [Legacy.m_text_body Legacy.m_button_text].
    destruct b; reflexivity. }
  rewrite Htext. fold (quick_text b). rewrite Hgreet.
  destruct (Legacy.getState (nowMs clock) sender s) as [s1 state]. cbn [fst snd] in *.
  rewrite Hstep, Hparse. cbn [Legacy.pf_department Legacy.pf_date Legacy.pf_time].
  rewrite (catalogue_name_nonempty name (legacy_normalizeDepartment_In _ _ Hname)).
  rewrite (ltb_nonempty _ _ Hfuture). unfold quick_time at 1. rewrite label_nonempty.
  cbn [andb to_template]. unfold Legacy.quick_data.
  cbn [Legacy.pf_department Legacy.pf_date Legacy.pf_time Legacy.pf_gender].
  fold (quick_time parsed). reflexivity.
Qed.

(** The one-sentence booking of the variant books the clock time that the
    date parser read, whatever it is: the time is not compared with the
    window of the department.  For a sender without a live session, a
    sentence that names a department and a future date, and a slot under
    capacity, the request is answered with 200 and the patient record is
    written under the next identifier with that time, the sender as phone
    number and the placeholder names. *)
Theorem legacy_quick_booking_unchecked_time clock sender b s name dept parsed :
  (String.eqb (quick_text b) "hi" || String.eqb (quick_text b) "hello") = false ->
  step (snd (Legacy.getState (nowMs clock) sender s)) = None ->
  Legacy.normalizeDepartment (quick_text b) = Some name ->
  department_of name = Some dept ->
  chrono_parseDate clock (quick_text b) = Some parsed ->
  String.ltb (today clock) (isoDate parsed) = true ->
  slot_count s (slot_id name (isoDate parsed) (quick_time parsed)) < capacity dept ->
  let h := Legacy.webhook chrono_parseDate cfg_verify clock (legacy_post sender b) s in
  Legacy.w_status h = 200
  /\ exists r,
       patients (Legacy.w_store h) !! patient_id (legacy_next s) = Some r
       /\ booked_as r name (isoDate parsed) (quick_time parsed) sender
       /\ FirstName r = "Unknown" /\ LastName r = "Unknown"
       /\ slot_count (Legacy.w_store h) (slot_id name (isoDate parsed) (quick_time parsed))
          = slot_count s (slot_id name (isoDate parsed) (quick_time parsed)) + 1.
Proof.
  intros Hgreet Hstep Hname Hdept Hparsed Hfuture Hfree. cbv zeta.
  destruct (legacy_webhook_quick clock sender b s name parsed Hgreet Hstep Hname Hparsed Hfuture)
    as (g & _ & ->).
  cbv zeta.
  assert (Hs1 : forall k, slot_count (fst (Legacy.getState (nowMs clock) sender s)) k
                          = slot_count s k
                /\ legacy_next (fst (Legacy.getState (nowMs clock) sender s)) = legacy_next s).
  { intros k. unfold Legacy.getState.
    destruct (registration_states s !! sender) as [doc|]; [|split; reflexivity].
    destruct (updatedAt doc); [|split; reflexivity].
    destruct (_ >? _); split; reflexivity. }
  set (s1 := fst (Legacy.getState (nowMs clock) sender s)) in *.
  rewrite (legacy_attempt_run _ _ s1 dept) by exact Hdept.
  rewrite legacy_slot_tx_run. cbv zeta. cbn [department registrationDate registrationTime to_template].
  destruct (Hs1 (slot_id name (isoDate parsed) (quick_time parsed))) as [Hcount Hnext].
  change (appointments (apply_writes [SetCounter (legacy_next s1 + 1)] s1))
    with (appointments s1).
  fold (slot_count s1 (slot_id name (isoDate parsed) (quick_time parsed))).
  rewrite Hcount, Hnext.
  destruct (Z.geb_spec (slot_count s (slot_id name (isoDate parsed) (quick_time parsed)))
              (capacity dept)) as [Hfull|_]; [lia|].
  cbn [Legacy.patient_doc firstName lastName gender address email phoneNumber department
         registrationDate registrationTime].
  cbn [Legacy.w_status Legacy.w_store Legacy.answered Legacy.respond].
  split; [reflexivity|]. eexists. split.
  - cbn [apply_writes fold_left apply_write patients]. apply lookup_insert_eq.
  - split; [repeat split|]. split; [reflexivity|]. split; [reflexivity|].
    unfold slot_count at 1. cbn [apply_writes fold_left apply_write appointments].
    rewrite lookup_insert_eq. cbn [count_of s_count]. unfold Js.or_num.
    pose proof (slot_count_nonneg s1) as Hnn.
    destruct (Z.eqb_spec (slot_count s (slot_id name (isoDate parsed) (quick_time parsed)) + 1) 0);
      [|reflexivity].
    specialize (Hnn (slot_id name (isoDate parsed) (quick_time parsed))). lia.
Qed.

(** On a full slot the one-sentence booking fails with status 500: nothing
    is sent to the user, no record and no ledger entry is written, and the
    identifier counter has moved on all the same. *)
Theorem legacy_quick_booking_full clock sender b s name dept parsed :
  (String.eqb (quick_text b) "hi" || String.eqb (quick_text b) "hello") = false ->
  step (snd (Legacy.getState (nowMs clock) sender s)) = None ->
  Legacy.normalizeDepartment (quick_text b) = Some name ->
  department_of name = Some dept ->
  chrono_parseDate clock (quick_text b) = Some parsed ->
  String.ltb (today clock) (isoDate parsed) = true ->
  capacity dept <= slot_count s (slot_id name (isoDate parsed) (quick_time parsed)) ->
  let h := Legacy.webhook chrono_parseDate cfg_verify clock (legacy_post sender b) s in
  Legacy.w_status h = 500 /\ Legacy.w_sent h = []
  /\ patients (Legacy.w_store h) = patients s
  /\ appointments (Legacy.w_store h) = appointments s
  /\ patient_counter (Legacy.w_store h) = Some (legacy_next s + 1).
Proof.
  intros Hgreet Hstep Hname Hdept Hparsed Hfuture Hfull. cbv zeta.
  destruct (legacy_webhook_quick clock sender b s name parsed Hgreet Hstep Hname Hparsed Hfuture)
    as (g & _ & ->).
  cbv zeta.
  assert (Hs1 : patients (fst (Legacy.getState (nowMs clock) sender s)) = patients s
                /\ appointments (fst (Legacy.getState (nowMs clock) sender s)) = appointments s
                /\ patient_counter (fst (Legacy.getState (nowMs clock) sender s))
                   = patient_counter s).
  { unfold Legacy.getState.
    destruct (registration_states s !! sender) as [doc|]; [|repeat split].
    destruct (updatedAt doc); [|repeat split].
    destruct (_ >? _); repeat split. }
  destruct Hs1 as (Hp & Ha & Hc).
  set (s1 := fst (Legacy.getState (nowMs clock) sender s)) in *.
  rewrite (legacy_attempt_run _ _ s1 dept) by exact Hdept.
  rewrite legacy_slot_tx_run. cbv zeta. cbn [department registrationDate registrationTime to_template].
  change (appointments (apply_writes [SetCounter (legacy_next s1 + 1)] s1))
    with (appointments s1).
  rewrite Ha. fold (slot_count s (slot_id name (isoDate parsed) (quick_time parsed))).
  destruct (Z.geb_spec (slot_count s (slot_id name (isoDate parsed) (quick_time parsed)))
              (capacity dept)) as [_|Hfree]; [|lia].
  cbn [Legacy.w_status Legacy.w_store Legacy.w_sent Legacy.failed Legacy.respond
         apply_writes fold_left apply_write patients appointments patient_counter].
  unfold legacy_next. rewrite Hc. repeat split; assumption.
Qed.

End LegacyQuickBooking.

(** Cardiology is open from nine to twelve; the sentence of the example
    books three o'clock at night. *)
Lemma legacy_quick_booking_unchecked_time_witness :
  includes_str (Legacy.generateTimeSlots "09:00" "12:00") "03:00" = false
  /\ Legacy.w_status (Legacy.webhook chrono_parseDate_night None (minutes 0)
                        (legacy_post sample_sender night_sentence) empty_store) = 200
  /\ exists r,
       patients (Legacy.w_store (Legacy.webhook chrono_parseDate_night None (minutes 0)
                                   (legacy_post sample_sender night_sentence) empty_store))
         !! "P1000" = Some r
       /\ booked_as r "Cardiology" "2025-12-01" "03:00" sample_sender.
Proof.
  split; [reflexivity|].
  destruct (legacy_quick_booking_unchecked_time chrono_parseDate_night None (minutes 0)
              sample_sender night_sentence empty_store "Cardiology" cardiology
              tomorrow_at_three)
    as (Hstatus & r & Hr & Hbooked & _);
    [reflexivity|reflexivity|reflexivity|reflexivity|reflexivity|reflexivity|reflexivity|].
  split; [exact Hstatus|]. exists r. split; [exact Hr|exact Hbooked].
Defined.

(** The same sentence when ten patients hold that slot: the counter moves from 1010 to 1011. *)
Lemma legacy_quick_booking_full_witness :
  Legacy.w_status (Legacy.webhook chrono_parseDate_night None (minutes 0)
                     (legacy_post sample_sender night_sentence) legacy_night_full) = 500
  /\ patient_counter (Legacy.w_store (Legacy.webhook chrono_parseDate_night None (minutes 0)
                                        (legacy_post sample_sender night_sentence)
                                        legacy_night_full)) = Some 1011.
Proof.
  destruct (legacy_quick_booking_full chrono_parseDate_night None (minutes 0)
              sample_sender night_sentence legacy_night_full "Cardiology" cardiology
              tomorrow_at_three)
    as (Hstatus & _ & _ & _ & Hcounter);
    [reflexivity|reflexivity|reflexivity|reflexivity|reflexivity|reflexivity
    |vm_compute; discriminate|].
  split; [exact Hstatus|exact Hcounter].
Defined.

(** The variant tests for ["male"] before ["female"] too: whatever the
    sentence, the gender it reads is never Female. *)
Theorem legacy_gender_never_female cpd clock text p :
  Legacy.parseFullSentence cpd clock text = inr p ->
  Legacy.pf_gender p <> Some "Female"
  /\ (Js.includes (Js.toLowerCase text) "female" = true -> Legacy.pf_gender p = Some "Male").
Proof.
  unfold Legacy.parseFullSentence. cbv zeta.
  match goal with
  | |- match ?t with inl _ => _ | inr _ => _ end = _ -> _ => destruct t as [e|t0]
  end; [discriminate|].
  intros [= <-]. cbn [Legacy.pf_gender].
  destruct (Js.includes (Js.toLowerCase text) "male") eqn:Hmale.
  - split; [discriminate|reflexivity].
  - destruct (Js.includes (Js.toLowerCase text) "female") eqn:Hfemale.
    { rewrite (includes_female_male _ Hfemale) in Hmale. discriminate. }
    split; [|discriminate].
    destruct (Js.includes (Js.toLowerCase text) "other"); discriminate.
Qed.

(** The sentence of the example says female. *)
Lemma legacy_gender_never_female_witness :
  Legacy.pf_gender
    {| Legacy.pf_department := Some "Cardiology"; Legacy.pf_date := Some "2025-12-01";
       Legacy.pf_time := Some "03:00"; Legacy.pf_gender := Some "Male" |} <> Some "Female"
  /\ (Js.includes (Js.toLowerCase (quick_text night_sentence)) "female" = true ->
      Legacy.pf_gender
        {| Legacy.pf_department := Some "Cardiology"; Legacy.pf_date := Some "2025-12-01";
           Legacy.pf_time := Some "03:00"; Legacy.pf_gender := Some "Male" |} = Some "Male").
Proof.
  apply (legacy_gender_never_female chrono_parseDate_night (minutes 0)
           (quick_text night_sentence)).
  reflexivity.
Defined.

(** ** [normalizeTimeForDepartment] *)

(** For a department of the catalogue, the times that
    [normalizeTimeForDepartment] returns are generated times of the
    department, every generated time is accepted as it stands (so the
    buttons of the time prompt are), and four o'clock in the afternoon has no
    alias: it is accepted only written as 16:00. *)
Theorem legacy_times_normalized name dept :
  department_of name = Some dept ->
  let slots := Legacy.generateTimeSlots (fst (times dept)) (snd (times dept)) in
  (forall text t, Legacy.normalizeTimeForDepartment name text = inr (Some t) -> In t slots)
  /\ (forall t, In t slots -> Legacy.normalizeTimeForDepartment name t = inr (Some t))
  /\ (forall text, Legacy.normalizeTimeForDepartment name text = inr (Some "16:00") ->
                   Js.toLowerCase (Js.trim text) = "16:00").
Proof.
  intros Hdept. cbv zeta. unfold Legacy.normalizeTimeForDepartment. rewrite Hdept. cbv zeta.
  split; [|split].
  - intros text t H.
    destruct (includes_str _ _) eqn:Hin in H; [|discriminate].
    injection H as <-. apply includes_str_In, Hin.
  - apply assoc_In in Hdept. cbv [departmentSlots In] in Hdept.
    repeat (destruct Hdept as [[= <- <-]|Hdept];
            [intros t Hin; vm_compute in Hin;
             repeat (destruct Hin as [<-|Hin]; [vm_compute; reflexivity|]); contradiction|]).
    contradiction.
  - intros text.
    destruct (assoc (Js.toLowerCase (Js.trim text)) Legacy.alias) as [v|] eqn:Halias.
    + destruct (includes_str _ v); [|discriminate].
      intros [= ->]. apply assoc_In in Halias. cbv [Legacy.alias In] in Halias.
      repeat (destruct Halias as [Halias|Halias]; [discriminate Halias|]). contradiction.
    + destruct (includes_str _ _); [|discriminate]. intros [= ->]. reflexivity.
Qed.

(** Four o'clock in the afternoon at Neurology, written as 16:00. *)
Lemma legacy_times_normalized_witness :
  Legacy.normalizeTimeForDepartment "Neurology" "16:00" = inr (Some "16:00").
Proof.
  destruct (legacy_times_normalized "Neurology" neurology eq_refl) as (_ & Hmenu & _).
  apply Hmenu. vm_compute. do 2 right. left. reflexivity.
Defined.
